(** * Confique backend: post, engagement and registration handlers

    A shallow embedding of the Express route handlers of
    [backend/routes/postRoutes.js], of the user routes (registration,
    CSV export, bookmarks, listings, admin deletion), of the Mongoose
    model methods of [backend/models/Post.js], of the [admin] middleware
    and of the error middleware of [backend/server.js].

    Conventions of the embedding.
    - A JavaScript object (request body, Mongoose document, CSV row) is a
      finite map from property names to values; property order is not
      tracked.
    - Numbers are integers, dates are epoch milliseconds, strings are ASCII.
    - An [ObjectId] is the number its 24 hexadecimal digits denote.
    - A handler is a function from the database to a response and the
      database it leaves behind.  Handlers are modelled after the [protect]
      middleware has attached [req.user].
    - Calls that leave the process (Cloudinary upload, JWT verification,
      locale formatting) are fields of the environment record [Env].
    - Mongoose type coercion is not modelled: a value is taken at the JSON
      type it arrives with.
    - A document is sent as it is stored; the virtuals [toJSON] adds on
      serialisation are not part of the answers.
    - The in-memory cache of the post routes is a map from keys to values
      with their expiry times; it is threaded through the one handler
      that reads it. *)

From Stdlib Require Import ZArith NArith String Ascii List Lia Bool Sorted.
From stdpp Require Import base option list gmap strings.

Set Warnings "-register-all".
Local Open Scope string_scope.

(** ** JavaScript values *)

Module JS.

Inductive value :=
| VUndefined
| VNull
| VBool (b : bool)
| VNum (n : Z)
| VStr (s : string)
| VId (o : N)
| VDate (ms : Z)
| VArr (xs : list value)
| VObj (kvs : gmap string value).

Abbreviation obj := (gmap string value).

(** [o.k]: a missing property reads as [undefined]. *)
Definition get (o : obj) (k : string) : value := default VUndefined (o !! k).

(** [{ ...o, k1: v1, ..., kn: vn }] and the statement sequence
    [o.k1 = v1; ...; o.kn = vn]. *)
Definition assign (kvs : list (string * value)) (o : obj) : obj :=
  foldl (fun acc kv => <[kv.1 := kv.2]> acc) o kvs.

(** The rest pattern [{ k1, ..., kn, ...rest } = o]. *)
Definition omit (ks : list string) (o : obj) : obj :=
  foldl (fun acc k => delete k acc) o ks.

Definition object (kvs : list (string * value)) : obj := assign kvs ∅.

(** Truthiness, as used by [!v], [v && w] and [v || w]. *)
Definition truthy (v : value) : bool :=
  match v with
  | VUndefined | VNull => false
  | VBool b => b
  | VNum n => negb (n =? 0)%Z
  | VStr s => negb (String.eqb s EmptyString)
  | VId _ | VDate _ | VArr _ | VObj _ => true
  end.

(** [v || d] *)
Definition or_else (v d : value) : value := if truthy v then v else d.

Definition is_undefined (v : value) : bool :=
  match v with VUndefined => true | _ => false end.

(** [a === b].  Arrays, objects, dates and ObjectIds compare by reference;
    a value parsed from a request never aliases a stored one. *)
Definition strict_eq (a b : value) : bool :=
  match a, b with
  | VUndefined, VUndefined => true
  | VNull, VNull => true
  | VBool x, VBool y => Bool.eqb x y
  | VNum x, VNum y => (x =? y)%Z
  | VStr x, VStr y => String.eqb x y
  | _, _ => false
  end.

(** [v === 'literal'] *)
Definition is_str (lit : string) (v : value) : bool := strict_eq v (VStr lit).

(** [[l1, ..., ln].includes(v)] for string literals. *)
Definition includes_str (lits : list string) (v : value) : bool :=
  existsb (fun lit => is_str lit v) lits.

Definition is_array (v : value) : bool :=
  match v with VArr _ => true | _ => false end.

Definition elements (v : value) : list value :=
  match v with VArr xs => xs | _ => [] end.

(** Numeric reading of a Number path; Mongoose hydrates a missing Number
    path that declares [default: 0] as [0]. *)
Definition to_num (v : value) : Z :=
  match v with VNum n => n | _ => 0%Z end.

(** *** Dates *)

(** Days from 1 January 1970 to the given day of the proleptic Gregorian
    calendar. *)
Definition days_from_civil (year month day : Z) : Z :=
  let y := (if month <=? 2 then year - 1 else year)%Z in
  let era := (y / 400)%Z in
  let yoe := (y - era * 400)%Z in
  let doy := ((153 * (if 2 <? month then month - 3 else month + 9) + 2) / 5 + day - 1)%Z in
  let doe := (yoe * 365 + yoe / 4 - yoe / 100 + doy)%Z in
  (era * 146097 + doe - 719468)%Z.

(** [new Date('YYYY-MM-DDTHH:mm:ss').getTime()]: a date-time string without
    a zone designator is read as local time; [offset] is the local zone's
    offset from UTC in minutes. *)
Definition local_time (offset year month day hour minute second : Z) : Z :=
  ((((days_from_civil year month day * 24 + hour) * 60 + minute - offset) * 60
    + second) * 1000)%Z.

(** *** Strings *)

Definition is_space (c : ascii) : bool :=
  let n := nat_of_ascii c in (n =? 32)%nat || ((9 <=? n)%nat && (n <=? 13)%nat).

Fixpoint trim_start (s : string) : string :=
  match s with
  | String c s' => if is_space c then trim_start s' else s
  | EmptyString => EmptyString
  end.

Fixpoint string_rev_acc (s acc : string) : string :=
  match s with
  | EmptyString => acc
  | String c s' => string_rev_acc s' (String c acc)
  end.

Definition string_rev (s : string) : string := string_rev_acc s EmptyString.

(** [s.trim()] *)
Definition trim (s : string) : string :=
  string_rev (trim_start (string_rev (trim_start s))).

(** [s.split(sep)] for a one-character separator. *)
Fixpoint split_acc (sep : ascii) (s : string) (cur : string) : list string :=
  match s with
  | EmptyString => [string_rev cur]
  | String c s' =>
      if Ascii.eqb c sep then string_rev cur :: split_acc sep s' EmptyString
      else split_acc sep s' (String c cur)
  end.

Definition split (sep : ascii) (s : string) : list string :=
  split_acc sep s EmptyString.

(** [`${v}`] for the value of a String path. *)
Definition template (v : value) : string :=
  match v with VStr s => s | _ => EmptyString end.

Definition dquote : string := String (ascii_of_nat 34) EmptyString.

(** [xs.join(sep)] *)
Fixpoint join (sep : string) (xs : list string) : string :=
  match xs with
  | [] => EmptyString
  | [x] => x
  | x :: rest => x ++ sep ++ join sep rest
  end.

(** [s.includes(needle)] *)
Fixpoint includes_sub (needle s : string) : bool :=
  String.prefix needle s
  || match s with
     | EmptyString => false
     | String _ s' => includes_sub needle s'
     end.

(** [\d] *)
Definition is_digit (c : ascii) : bool :=
  let n := nat_of_ascii c in (48 <=? n)%nat && (n <=? 57)%nat.

(** [xs.findIndex(pred)]; [None] is [-1]. *)
Fixpoint findIndex {A} (pred : A -> bool) (xs : list A) : option nat :=
  match xs with
  | [] => None
  | x :: rest => if pred x then Some 0%nat else S <$> findIndex pred rest
  end.

(** [xs.slice(start, end)]: a negative index counts from the end. *)
Definition slice {A} (start final : Z) (xs : list A) : list A :=
  let len := Z.of_nat (length xs) in
  let relative (i : Z) := if (i <? 0)%Z then Z.max (len + i) 0 else Z.min i len in
  take (Z.to_nat (relative final - relative start)) (drop (Z.to_nat (relative start)) xs).

(** [Math.ceil(a / b)] for [b] other than zero. *)
Definition ceil_div (a b : Z) : Z := (- ((- a) / b))%Z.

End JS.

Import JS.

(** ** ObjectIds

    [/^[0-9a-fA-F]{24}$/] and the cast Mongoose applies to an id given as a
    string. *)

Module ObjectId.

Definition hex_digit (c : ascii) : option N :=
  let n := N_of_ascii c in
  if (48 <=? n)%N && (n <=? 57)%N then Some (n - 48)%N
  else if (97 <=? n)%N && (n <=? 102)%N then Some (n - 87)%N
  else if (65 <=? n)%N && (n <=? 70)%N then Some (n - 55)%N
  else None.

Fixpoint parse_hex (s : string) (acc : N) : option N :=
  match s with
  | EmptyString => Some acc
  | String c s' =>
      match hex_digit c with
      | Some d => parse_hex s' (16 * acc + d)%N
      | None => None
      end
  end.

(** [validateMongoId]: [id && id.match(/^[0-9a-fA-F]{24}$/)] *)
Definition validateMongoId (id : string) : bool :=
  (String.length id =? 24)%nat
  && match parse_hex id 0 with Some _ => true | None => false end.

Definition parse (id : string) : option N :=
  if (String.length id =? 24)%nat then parse_hex id 0 else None.

(** The ObjectId a query or a constructor makes of an id given as a string. *)
Definition cast (id : string) : value :=
  match parse id with Some oid => VId oid | None => VStr id end.

Definition hex_char (d : N) : ascii :=
  if (d <? 10)%N then ascii_of_N (48 + d) else ascii_of_N (87 + d).

Fixpoint to_hex (digits : nat) (n : N) (acc : string) : string :=
  match digits with
  | O => acc
  | S k => to_hex k (n / 16)%N (String (hex_char (n mod 16)%N) acc)
  end.

(** [oid.toString()]: 24 hexadecimal digits in lower case. *)
Definition toString (oid : N) : string := to_hex 24 oid EmptyString.

End ObjectId.

(** ** Environment, users, database, responses *)

Record Env := {
  (** [new Date().getTime()] *)
  now : Z;
  (** offset of the server's local time from UTC, in minutes *)
  tz_offset_min : Z;
  (** [new Date().toLocaleString('en-US', { month: 'long', year: 'numeric' })] *)
  locale_month : string;
  (** [new Date().toLocaleDateString('en-IN')] *)
  locale_date : string;
  (** [Date.prototype.toISOString] *)
  toISOString : Z -> string;
  (** [cloudinary.uploader.upload(image, ...)]: the hosted URL, or a failure *)
  cloud_upload : value -> option string;
  (** [jwt.verify(token, process.env.JWT_SECRET)]: the decoded [id], or a throw *)
  jwt_verify : string -> option string;
}.

Module User.

Record t := {
  _id : N;
  name : string;
  avatar : value;
  isAdmin : bool;
}.

Definition findById (id : N) (users : list t) : option t :=
  List.find (fun u => (_id u =? id)%N) users.

End User.

Record Db := {
  posts : list obj;
  registrations : list obj;
  notifications : list obj;
  users : list User.t;
  (** source of fresh ObjectIds *)
  next_id : N;
}.

Definition with_posts (f : list obj -> list obj) (db : Db) : Db :=
  {| posts := f (posts db); registrations := registrations db;
     notifications := notifications db; users := users db;
     next_id := next_id db |}.

Definition with_registrations (f : list obj -> list obj) (db : Db) : Db :=
  {| posts := posts db; registrations := f (registrations db);
     notifications := notifications db; users := users db;
     next_id := next_id db |}.

Definition with_notifications (f : list obj -> list obj) (db : Db) : Db :=
  {| posts := posts db; registrations := registrations db;
     notifications := f (notifications db); users := users db;
     next_id := next_id db |}.

Definition fresh_id (db : Db) : N * Db :=
  (next_id db,
   {| posts := posts db; registrations := registrations db;
      notifications := notifications db; users := users db;
      next_id := N.succ (next_id db) |}).

(** What a handler hands back to Express. *)
Inductive response :=
(** [res.status(status).json(body)] *)
| Json (status : nat) (body : value)
(** [res.header('Content-Type', 'text/csv'); res.attachment(...); res.send(csv)]
    with the CSV given by its columns and its records *)
| Csv (fields : list string) (rows : list obj)
(** [res.status(status); throw new Error(message)]; a [TypeError] raised by
    the runtime is thrown with the status still at 200 *)
| Raise (status : nat) (message : string).

(** The error middleware of [server.js]: every thrown error is answered
    [res.status(500).json({ message: 'Internal Server Error', ... })]. *)
Definition errorHandler (r : response) : response :=
  match r with
  | Raise _ _ => Json 500 (VObj (object [("message", VStr "Internal Server Error")]))
  | _ => r
  end.

(** The status line the client receives. *)
Definition http_status (r : response) : nat :=
  match errorHandler r with
  | Json s _ => s
  | Csv _ _ => 200
  | Raise s _ => s
  end.

Definition message (m : string) : value := VObj (object [("message", VStr m)]).

Definition failure (m : string) : value :=
  VObj (object [("success", VBool false); ("message", VStr m)]).

(** Early exit: [if (c) return r;] followed by the rest of the handler. *)
Notation "'when' c 'reply' r ;; k" := (if c then r else k)
  (at level 10, c at level 99, r at level 99, k at level 200, only parsing).

(** ** Middleware ([middleware/auth.js]) *)

Module Auth.

(** [admin]: [None] is [next()]. *)
Definition admin (user : User.t) : option response :=
  if User.isAdmin user then None
  else Some (Raise 403 "Not authorized as an administrator").

End Auth.

(** ** The Post model ([models/Post.js]) *)

Module Post.

Definition id_eq (id : N) (v : value) : bool :=
  match v with VId o => (o =? id)%N | _ => false end.

Definition has_id (id : N) (p : obj) : bool := id_eq id (get p "_id").

(** [Model.findById(id)] for an id given as a string. *)
Definition findById (id : string) (coll : list obj) : option obj :=
  match ObjectId.parse id with
  | Some oid => List.find (has_id oid) coll
  | None => None
  end.

(** [doc.userId.toString() === user._id.toString()] *)
Definition owned_by (u : User.t) (p : obj) : bool :=
  id_eq (User._id u) (get p "userId").

Definition type (p : obj) : value := get p "type".
Definition status (p : obj) : value := get p "status".
Definition timestamp (p : obj) : Z :=
  match get p "timestamp" with VDate ms => ms | _ => 0%Z end.
Definition likes (p : obj) : Z := to_num (get p "likes").
Definition likedBy (p : obj) : list value := elements (get p "likedBy").
Definition upvotes (p : obj) : Z := to_num (get p "upvotes").
Definition upvoters (p : obj) : list value := elements (get p "upvoters").
Definition commentCount (p : obj) : Z := to_num (get p "commentCount").
Definition showcaseComments (p : obj) : list value :=
  elements (get p "showcaseComments").
Definition commentData (p : obj) : list value := elements (get p "commentData").

(** [array.some(x => x.toString() === id.toString())], also what
    [MongooseArray.includes(id)] decides on an array of ObjectIds. *)
Definition includes_id (id : N) (xs : list value) : bool :=
  List.existsb (id_eq id) xs.

(** [array.filter(x => x.toString() !== id.toString())] *)
Definition without_id (id : N) (xs : list value) : list value :=
  List.filter (fun x => negb (id_eq id x)) xs.

(** [i = array.findIndex(pred); if (i > -1) array.splice(i, 1)] *)
Fixpoint splice_first (pred : value -> bool) (xs : list value) : list value :=
  match xs with
  | [] => []
  | x :: rest => if pred x then rest else x :: splice_first pred rest
  end.

(** *** Schema validators

    The validators [postSchema] declares: [required], [enum], [maxlength]
    and [min], and those of the embedded [ticketOptionSchema],
    [commentSchema] and [showcaseCommentSchema].  A validator other than
    [required] is skipped on [undefined] and [null]; a value of another
    JSON type than the path's counts as failing the cast. *)

(** [required: true] on a String path *)
Definition required_string (v : value) : bool :=
  match v with
  | VStr s => negb (String.eqb s EmptyString)
  | _ => false
  end.

(** [required: true, trim: true] *)
Definition required_trimmed (v : value) : bool :=
  match v with
  | VStr s => negb (String.eqb (trim s) EmptyString)
  | _ => false
  end.

Definition required_id (v : value) : bool :=
  match v with VId _ => true | _ => false end.

Definition enum_ok (allowed : list string) (v : value) : bool :=
  match v with
  | VUndefined | VNull => true
  | _ => includes_str allowed v
  end.

(** [maxlength] on a path with [trim: true] *)
Definition maxlength_ok (n : nat) (v : value) : bool :=
  match v with
  | VUndefined | VNull => true
  | VStr s => (String.length (trim s) <=? n)%nat
  | _ => false
  end.

(** [maxlength] on a path without [trim] *)
Definition maxlength_untrimmed (n : nat) (v : value) : bool :=
  match v with
  | VUndefined | VNull => true
  | VStr s => (String.length s <=? n)%nat
  | _ => false
  end.

Definition min_ok (lo : Z) (v : value) : bool :=
  match v with
  | VUndefined | VNull => true
  | VNum n => (lo <=? n)%Z
  | _ => false
  end.

Definition each (check : obj -> bool) (v : value) : bool :=
  match v with
  | VUndefined | VNull => true
  | VArr xs =>
      List.forallb (fun x => match x with VObj o => check o | _ => false end) xs
  | _ => false
  end.

(** [ticketOptionSchema] *)
Definition ticketOption_ok (t : obj) : bool :=
  required_string (get t "ticketType")
  && match get t "ticketPrice" with VNum n => (0 <=? n)%Z | _ => false end.

(** [commentSchema] *)
Definition comment_ok (c : obj) : bool :=
  required_string (get c "author")
  && required_string (get c "text")
  && required_id (get c "userId").

(** [showcaseCommentSchema] *)
Definition showcaseComment_ok (c : obj) : bool :=
  required_id (get c "user")
  && required_trimmed (get c "text")
  && maxlength_ok 1000 (get c "text")
  && required_string (get c "author").

Definition postTypes : list string :=
  ["confession"; "event"; "culturalEvent"; "news"; "showcase"].

Definition validators : list (string * (obj -> bool)) :=
  [ ("type", fun p => required_string (get p "type") && enum_ok postTypes (get p "type"));
    ("title", fun p => required_trimmed (get p "title") && maxlength_ok 100 (get p "title"));
    ("content", fun p => required_trimmed (get p "content"));
    ("author", fun p => required_trimmed (get p "author"));
    ("userId", fun p => required_id (get p "userId"));
    ("commentData", fun p => each comment_ok (get p "commentData"));
    ("status", fun p => enum_ok ["pending"; "approved"; "rejected"] (get p "status"));
    ("paymentMethod", fun p => enum_ok ["link"; "qr"] (get p "paymentMethod"));
    ("ticketOptions", fun p => each ticketOption_ok (get p "ticketOptions"));
    ("culturalPaymentMethod",
      fun p => enum_ok ["link"; "qr"; "qr-screenshot"] (get p "culturalPaymentMethod"));
    ("description", fun p => maxlength_ok 200 (get p "description"));
    ("fullDescription", fun p => maxlength_ok 5000 (get p "fullDescription"));
    ("upvotes", fun p => min_ok 0 (get p "upvotes"));
    ("showcaseComments", fun p => each showcaseComment_ok (get p "showcaseComments"));
    ("commentCount", fun p => min_ok 0 (get p "commentCount")) ].

(** The paths whose validators fail: the [errors] of a [ValidationError]. *)
Definition validate (p : obj) : list string :=
  fst <$> List.filter (fun c => negb (c.2 p)) validators.

(** *** The pre-save hook *)

Definition is_modified (paths : list string) (k : string) : bool :=
  List.existsb (String.eqb k) paths.

(** [if (!this.k) this.k = v] *)
Definition init_path (k : string) (v : value) (p : obj) : obj :=
  if truthy (get p k) then p else <[k := v]> p.

(** [postSchema.pre('save', ...)]; [isModified] is [this.isModified]. *)
Definition preSave (env : Env) (isModified : string -> bool) (p : obj) : obj :=
  let p :=
    if isModified "commentData"
    then <["comments" := VNum (Z.of_nat (length (commentData p)))]> p else p in
  let p :=
    if isModified "showcaseComments"
    then <["commentCount" := VNum (Z.of_nat (length (showcaseComments p)))]> p
    else p in
  let p :=
    if is_str "showcase" (type p)
    then init_path "likedBy" (VArr [])
           (init_path "showcaseComments" (VArr [])
              (init_path "upvoters" (VArr []) p))
    else init_path "commentData" (VArr []) (init_path "likedBy" (VArr []) p) in
  if is_str "showcase" (type p)
  then init_path "launchedDate" (VStr "Coming Soon")
         (init_path "month" (VStr (locale_month env)) p)
  else p.

(** [doc.save()] of a document loaded from the collection, [modified]
    being the paths changed since.  The stored document satisfied the
    validators and the callers below keep the paths they touch within
    them, so the hook runs and the document is written ([write] below). *)
Definition save (env : Env) (modified : list string) (p : obj) : obj :=
  preSave env (is_modified modified) p.

Definition defined (v : value) : bool :=
  match v with VUndefined | VNull => false | _ => true end.

Definition same_id (p q : obj) : bool :=
  match get p "_id" with VId o => has_id o q | _ => false end.

(** Replace the stored copy of [p]. *)
Definition write (p : obj) (coll : list obj) : list obj :=
  List.map (fun q => if same_id p q then p else q) coll.

(** [doc.deleteOne()] *)
Definition deleteOne (p : obj) (coll : list obj) : list obj :=
  List.filter (fun q => negb (same_id p q)) coll.

(** [Model.deleteMany({ k: id })] *)
Definition deleteMany (k : string) (id : N) (coll : list obj) : list obj :=
  List.filter (fun q => negb (id_eq id (get q k))) coll.

(** [Model.find({ k: id })] *)
Definition find_by (k : string) (id : N) (coll : list obj) : list obj :=
  List.filter (fun q => id_eq id (get q k)) coll.

(** *** Showcase methods *)

(** [postSchema.methods.addUpvote] *)
Definition addUpvote (env : Env) (userId : N) (p : obj) : obj :=
  if negb (includes_id userId (upvoters p)) then
    save env ["upvoters"; "upvotes"]
      (assign [("upvoters", VArr (upvoters p ++ [VId userId])%list);
               ("upvotes", VNum (upvotes p + 1))] p)
  else p.

(** [postSchema.methods.removeUpvote] *)
Definition removeUpvote (env : Env) (userId : N) (p : obj) : obj :=
  if includes_id userId (upvoters p) then
    save env ["upvoters"; "upvotes"]
      (assign [("upvoters", VArr (splice_first (id_eq userId) (upvoters p)));
               ("upvotes", VNum (Z.max 0 (upvotes p - 1)))] p)
  else p.

(** [postSchema.methods.hasUpvoted] *)
Definition hasUpvoted (userId : N) (p : obj) : bool :=
  includes_id userId (upvoters p).

(** [postSchema.methods.addShowcaseComment] *)
Definition addShowcaseComment (env : Env) (commentData : value) (p : obj) : obj :=
  let p := init_path "showcaseComments" (VArr []) p in
  let comments := (showcaseComments p ++ [commentData])%list in
  save env ["showcaseComments"; "commentCount"]
    (assign [("showcaseComments", VArr comments);
             ("commentCount", VNum (Z.of_nat (length comments)))] p).

Definition comment_has_id (commentId : N) (c : value) : bool :=
  match c with VObj o => has_id commentId o | _ => false end.

(** [postSchema.methods.removeShowcaseComment] *)
Definition removeShowcaseComment (env : Env) (commentId : N) (p : obj) : obj :=
  if negb (truthy (get p "showcaseComments")) then p
  else if List.existsb (comment_has_id commentId) (showcaseComments p) then
    save env ["showcaseComments"; "commentCount"]
      (assign [("showcaseComments",
                 VArr (splice_first (comment_has_id commentId) (showcaseComments p)));
               ("commentCount", VNum (Z.max 0 (commentCount p - 1)))] p)
  else p.

(** [query.select('k1 ... kn')]: the listed paths and [_id]. *)
Definition select (paths : list string) (p : obj) : obj :=
  filter (fun kv => kv.1 ∈ "_id" :: paths) p.

(** What a call of a static method settles to. *)
Inductive outcome (A : Type) :=
| Resolved (result : A)
| Rejected (error : string).

Arguments Resolved {A} result.
Arguments Rejected {A} error.

(** [postSchema.statics.canUserUpvote]; [findById] rejects an id that is
    not 24 hexadecimal digits with a [CastError]. *)
Definition canUserUpvote (postId : string) (userId : N) (coll : list obj)
  : outcome bool :=
  match ObjectId.parse postId with
  | None => Rejected "CastError: Cast to ObjectId failed"
  | Some _ =>
      match findById postId coll with
      | None => Rejected "Post not found"
      | Some post =>
          if id_eq userId (get post "userId")
          then Rejected "You cannot upvote your own post"
          else Resolved (negb (includes_id userId (upvoters post)))
      end
  end.

End Post.

(** ** The Notification and Registration models *)

Module Notification.

Definition types : list string :=
  ["warning"; "success"; "info"; "report"; "registration"; "like"; "comment";
   "showcase_upvote"; "showcase_comment"; "showcase_featured";
   "showcase_approved"; "showcase_system"; "showcase_bookmark";
   "showcase_new_idea"; "showcase_winner"].

(** The validators of [notificationSchema]. *)
Definition valid (n : obj) : bool :=
  Post.required_trimmed (get n "message")
  && Post.maxlength_ok 500 (get n "message")
  && Post.enum_ok types (get n "type")
  && Post.required_id (get n "recipient")
  && Post.maxlength_untrimmed 200 (get n "reportReason")
  && Post.enum_ok ["low"; "medium"; "high"; "urgent"] (get n "priority").

(** [new Notification(data).save()]: [None] when validation throws. *)
Definition save (data : obj) (db : Db) : option Db :=
  if valid data then
    let '(id, db) := fresh_id db in
    Some (with_notifications (fun l => l ++ [<["_id" := VId id]> data])%list db)
  else None.

End Notification.

Module Registration.

(** The validators of [registrationSchema]. *)
Definition valid (r : obj) : bool :=
  Post.required_id (get r "eventId")
  && Post.required_id (get r "userId")
  && Post.required_string (get r "name")
  && Post.required_string (get r "email")
  && Post.enum_ok ["pending"; "under_review"; "confirmed"; "rejected"]
       (get r "paymentStatus").

(** [Registration.findOne({ eventId, userId })] *)
Definition findOne (eventId : string) (userId : N) (coll : list obj) : option obj :=
  match ObjectId.parse eventId with
  | Some eid =>
      List.find (fun r => Post.id_eq eid (get r "eventId")
                          && Post.id_eq userId (get r "userId")) coll
  | None => None
  end.

(** [Registration.find({ eventId })] *)
Definition find (eventId : string) (coll : list obj) : list obj :=
  match ObjectId.parse eventId with
  | Some eid => Post.find_by "eventId" eid coll
  | None => []
  end.

(** [Registration.create(data)]: [None] when validation throws.  The
    schema option [timestamps: true] stamps [createdAt]. *)
Definition create (env : Env) (data : obj) (db : Db) : option (obj * Db) :=
  if valid data then
    let '(id, db) := fresh_id db in
    let doc := assign [("_id", VId id); ("createdAt", VDate (now env))] data in
    Some (doc, with_registrations (fun l => l ++ [doc])%list db)
  else None.

End Registration.

(** ** Post routes ([routes/postRoutes.js]) *)

Module PostRoutes.

Definition placeholderAvatar : string :=
  "https://placehold.co/40x40/cccccc/000000?text=A".

(** [uploadImage]: [null] for a missing image and for a failed upload. *)
Definition uploadImage (env : Env) (image : value) : value :=
  if negb (truthy image) then VNull
  else match cloud_upload env image with
       | Some url => VStr url
       | None => VNull
       end.

(** [urls.filter(url => url !== null)] *)
Definition non_null (urls : list value) : list value :=
  List.filter (fun url => negb (strict_eq url VNull)) urls.

Definition transformShowcasePostForFrontend (post : obj) : obj :=
  if negb (is_str "showcase" (Post.type post)) then post
  else
    let transformed := <["comments" := or_else (get post "showcaseComments") (VArr [])]> post in
    <["commentCount" :=
        or_else (get transformed "commentCount")
          (if truthy (get transformed "showcaseComments")
           then VNum (Z.of_nat (length (Post.showcaseComments transformed)))
           else VNum 0)]> transformed.

(** [validateText]; [None] is the [TypeError] of [text.trim()] on a truthy
    value that is not a string. *)
Definition validateText (text : value) (min max : nat) : option bool :=
  if negb (truthy text) then Some false
  else match text with
       | VStr s =>
           Some ((min <=? String.length (trim s))%nat
                 && (String.length (trim s) <=? max)%nat)
       | _ => None
       end.

Definition validatePostType (type : value) : bool :=
  includes_str ["confession"; "event"; "culturalEvent"; "news"; "showcase"] type.

Definition typeError : response :=
  Raise 200 "TypeError: text.trim is not a function".

(** [if (!validateText(...)) return r;] *)
Notation "'check' v 'reply' r 'in' db ;; k" :=
  (match v with
   | None => (typeError, db)
   | Some false => (r, db)
   | Some true => k
   end)
  (at level 10, v at level 99, r at level 99, db at level 8, k at level 200,
   only parsing).

Definition getAvatarUrl (avatar : value) : value :=
  if negb (truthy avatar) then VStr placeholderAvatar
  else match avatar with
       | VObj o =>
           if truthy (get o "url") then get o "url" else VStr placeholderAvatar
       | VStr s => VStr s
       | _ => VStr placeholderAvatar
       end.

(** [Post.find(...).sort({ timestamp: -1 })] *)
Fixpoint insert_desc (p : obj) (sorted : list obj) : list obj :=
  match sorted with
  | [] => [p]
  | q :: rest =>
      if (Post.timestamp q <? Post.timestamp p)%Z then p :: q :: rest
      else q :: insert_desc p rest
  end.

Definition sort_desc (ps : list obj) : list obj := foldr insert_desc [] ps.

(** The admin check of [GET /api/posts]: a thrown [jwt.verify] or a failed
    lookup is caught and the request is served as public. *)
Definition isAdminRequest (env : Env) (authorization : option string) (db : Db) : bool :=
  match authorization with
  | Some header =>
      if String.prefix "Bearer" header then
        match split " "%char header !! 1%nat with
        | Some token =>
            match jwt_verify env token with
            | Some id =>
                match ObjectId.parse id with
                | Some oid =>
                    match User.findById oid (users db) with
                    | Some user => User.isAdmin user
                    | None => false
                    end
                | None => false
                end
            | None => false
            end
        | None => false
        end
      else false
  | None => false
  end.

(** [GET /api/posts].  Population of [upvoters] and of the comment authors
    of showcase posts rewrites those two paths only and is left out. *)
Definition getPosts (env : Env) (authorization : option string) (db : Db) : response :=
  let isAdmin := isAdminRequest env authorization db in
  let found :=
    if isAdmin then sort_desc (posts db)
    else sort_desc (List.filter (fun p => is_str "approved" (Post.status p)) (posts db)) in
  Json 200 (VArr (List.map (fun p => VObj (transformShowcasePostForFrontend p)) found)).

(** [new Date('2025-10-31T23:59:59').getTime()] *)
Definition SUBMISSION_DEADLINE (env : Env) : Z :=
  local_time (tz_offset_min env) 2025 10 31 23 59 59.

Definition undefine (ks : list string) : list (string * value) :=
  List.map (fun k => (k, VUndefined)) ks.

(** The paths the showcase branch and the regular-post branch clear. *)
Definition eventAndCulturalPaths : list string :=
  ["location"; "eventStartDate"; "eventEndDate"; "price"; "language";
   "duration"; "registrationLink"; "registrationOpen";
   "enableRegistrationForm"; "registrationFields"; "paymentMethod";
   "paymentLink"; "paymentQRCode"; "source"; "ticketOptions";
   "culturalPaymentMethod"; "culturalPaymentLink"; "culturalPaymentQRCode";
   "availableDates"].

(** The object [POST /api/posts] passes to [new Post(...)]. *)
Definition newPostData (env : Env) (user : User.t) (body : obj) : obj :=
  let authorAvatarFinal := getAvatarUrl (User.avatar user) in
  let type := get body "type" in
  let images := get body "images" in
  let paymentQRCode := get body "paymentQRCode" in
  let culturalPaymentQRCode := get body "culturalPaymentQRCode" in
  let paymentMethod := get body "paymentMethod" in
  let ticketOptions := get body "ticketOptions" in
  let culturalPaymentMethod := get body "culturalPaymentMethod" in
  let availableDates := get body "availableDates" in
  let title := get body "title" in
  let content := get body "content" in
  let restOfPostData :=
    omit ["type"; "images"; "paymentQRCode"; "culturalPaymentQRCode";
          "paymentMethod"; "ticketOptions"; "culturalPaymentMethod";
          "availableDates"; "title"; "content"] body in
  let imageUrls :=
    if truthy images && is_array images && (0 <? length (elements images))%nat
    then List.map (uploadImage env) (elements images)
    else if truthy images && match images with VStr _ => true | _ => false end
    then [uploadImage env images]
    else [] in
  let qrCodeUrl :=
    if is_str "event" type && truthy paymentQRCode
    then uploadImage env paymentQRCode
    else if is_str "culturalEvent" type && truthy culturalPaymentQRCode
    then uploadImage env culturalPaymentQRCode
    else VNull in
  let data :=
    assign [("title", title);
            ("content", content);
            ("images", VArr (non_null imageUrls));
            ("type", type);
            ("author", VStr (User.name user));
            ("authorAvatar", authorAvatarFinal);
            ("userId", VId (User._id user));
            ("status", if is_str "event" type || is_str "culturalEvent" type
                       then VStr "pending" else VStr "approved");
            ("likes", VNum 0);
            ("likedBy", VArr []);
            ("commentData", VArr []);
            ("timestamp", VDate (now env))] restOfPostData in
  let data :=
    if is_str "showcase" type then
      assign [("upvotes", VNum 0);
              ("upvoters", VArr []);
              ("comments", VNum 0);
              ("commentCount", VNum 0);
              ("showcaseComments", VArr []);
              ("month", or_else (get restOfPostData "month") (VStr (locale_month env)));
              ("launchedDate",
                or_else (get restOfPostData "launchedDate") (VStr (locale_date env)));
              ("status", VStr "approved");
              ("views", VNum 0)] data
    else data in
  if is_str "event" type then
    assign ((if truthy qrCodeUrl then [("paymentQRCode", qrCodeUrl)] else [])
            ++ [("paymentMethod",
                  if includes_str ["link"; "qr"] paymentMethod
                  then paymentMethod else VUndefined)]
            ++ undefine ["ticketOptions"; "culturalPaymentMethod";
                         "culturalPaymentLink"; "culturalPaymentQRCode";
                         "availableDates"])%list data
  else if is_str "culturalEvent" type then
    assign ((if truthy qrCodeUrl then [("culturalPaymentQRCode", qrCodeUrl)] else [])
            ++ [("ticketOptions", ticketOptions);
                ("culturalPaymentMethod", culturalPaymentMethod);
                ("availableDates", availableDates)]
            ++ undefine ["price"; "paymentMethod"; "paymentLink";
                         "paymentQRCode"])%list data
  else if is_str "showcase" type then
    assign (undefine eventAndCulturalPaths) data
  else
    assign (undefine eventAndCulturalPaths) data.

(** [POST /api/posts].  Validation runs before the pre-save hook; every
    path the constructor received a value for counts as modified. *)
Definition createPost (env : Env) (user : User.t) (body : obj) (db : Db)
  : response * Db :=
  let type := get body "type" in
  let title := get body "title" in
  let content := get body "content" in
  when negb (truthy type) || negb (truthy title) || negb (truthy content)
    reply (Json 400 (failure "Type, title, and content are required"), db) ;;
  when negb (validatePostType type)
    reply (Json 400 (failure "Invalid post type"), db) ;;
  check validateText title 1 100
    reply Json 400 (failure "Title must be between 1 and 100 characters") in db ;;
  check validateText content 1 1000
    reply Json 400 (failure "Content is required") in db ;;
  when is_str "showcase" type && (SUBMISSION_DEADLINE env <? now env)%Z
    reply (Json 400 (failure
      "Submissions are closed for Startup Showcase. The deadline was October 31, 2025."),
      db) ;;
  let data := newPostData env user body in
  match Post.validate data with
  | [] =>
      let '(id, db) := fresh_id db in
      let createdPost :=
        Post.preSave env (fun k => Post.defined (get data k)) (<["_id" := VId id]> data) in
      (Json 201 (VObj (object [("success", VBool true);
                               ("post", VObj (transformShowcasePostForFrontend createdPost))])),
       with_posts (fun l => l ++ [createdPost])%list db)
  | errors =>
      (Json 400 (failure ("Validation Failed: " ++ join ", " errors)), db)
  end.

(** The object literal [PUT /api/posts/:id] passes to [post.set]; [post]
    is the document as loaded, so [post.type] is the type before the
    update. *)
Definition updateObject (post body : obj) : obj :=
  let type := get body "type" in
  let title := get body "title" in
  let content := get body "content" in
  let paymentMethod := get body "paymentMethod" in
  let ticketOptions := get body "ticketOptions" in
  let culturalPaymentMethod := get body "culturalPaymentMethod" in
  let availableDates := get body "availableDates" in
  let rest :=
    omit ["type"; "title"; "content"; "images"; "status"; "paymentMethod";
          "ticketOptions"; "culturalPaymentMethod"; "availableDates"] body in
  assign [("type", if negb (is_undefined type) then type else Post.type post);
          ("title", if negb (is_undefined title) then title else get post "title");
          ("content",
            if negb (is_undefined content) then content else get post "content");
          ("paymentMethod",
            if includes_str ["link"; "qr"] paymentMethod
            then paymentMethod else VUndefined);
          ("ticketOptions",
            if is_str "culturalEvent" (Post.type post) then ticketOptions
            else VUndefined);
          ("culturalPaymentMethod",
            if is_str "culturalEvent" (Post.type post) then culturalPaymentMethod
            else VUndefined);
          ("availableDates",
            if is_str "culturalEvent" (Post.type post) then availableDates
            else VUndefined)]
    rest.

(** The document [PUT /api/posts/:id] saves: images, QR code, [post.set],
    status and the clean-up block, in the handler's order.  Deleting
    replaced Cloudinary assets does not touch the database and is left
    out.  [post.set(update)] writes every key of [update] except the
    immutable [_id]. *)
Definition updatedPost (env : Env) (user : User.t) (post body : obj) : obj :=
  let images := get body "images" in
  let status := get body "status" in
  let rest :=
    omit ["type"; "title"; "content"; "images"; "status"; "paymentMethod";
          "ticketOptions"; "culturalPaymentMethod"; "availableDates"] body in
  let withImages :=
    if negb (is_undefined images) then
      let newImageArray :=
        if is_array images then elements images
        else if truthy images then [images] else [] in
      <["images" := VArr (non_null (List.map (uploadImage env) newImageArray))]> post
    else post in
  let oldQrCodeUrl :=
    if is_str "event" (Post.type post) then get post "paymentQRCode"
    else get post "culturalPaymentQRCode" in
  let newQrCodeData :=
    if is_str "event" (Post.type post) then get rest "paymentQRCode"
    else get rest "culturalPaymentQRCode" in
  let newQrCodeUrl :=
    if negb (is_undefined newQrCodeData) && negb (strict_eq newQrCodeData oldQrCodeUrl)
    then
      if truthy newQrCodeData then uploadImage env newQrCodeData
      else if strict_eq newQrCodeData (VStr EmptyString) then VNull
      else VUndefined
    else VUndefined in
  let post1 := delete "_id" (updateObject post body) ∪ withImages in
  let post2 :=
    if User.isAdmin user && negb (is_undefined status)
    then <["status" := status]> post1 else post1 in
  let post3 :=
    if is_str "event" (Post.type post2) && negb (is_undefined newQrCodeUrl)
    then <["paymentQRCode" := newQrCodeUrl]> post2
    else if is_str "culturalEvent" (Post.type post2) && negb (is_undefined newQrCodeUrl)
    then <["culturalPaymentQRCode" := newQrCodeUrl]> post2
    else post2 in
  if is_str "event" (Post.type post3) then
    assign (undefine ["culturalPaymentMethod"; "culturalPaymentLink";
                      "culturalPaymentQRCode"; "availableDates"]) post3
  else if is_str "culturalEvent" (Post.type post3) then
    assign (undefine ["price"; "paymentMethod"; "paymentLink"; "paymentQRCode"]) post3
  else if is_str "showcase" (Post.type post3) then
    assign (undefine eventAndCulturalPaths) post3
  else
    assign (undefine eventAndCulturalPaths) post3.

(** [PUT /api/posts/:id].  Validation runs before the pre-save hook; a
    path counts as modified when the object given to [post.set] carries a
    value for it. *)
Definition updatePost (env : Env) (user : User.t) (id : string) (body : obj) (db : Db)
  : response * Db :=
  when negb (ObjectId.validateMongoId id)
    reply (Json 400 (failure "Invalid post ID"), db) ;;
  match Post.findById id (posts db) with
  | None => (Json 404 (message "Post not found"), db)
  | Some post =>
      when negb (Post.owned_by user post) && negb (User.isAdmin user)
        reply (Json 403 (message "You are not authorized to update this post"), db) ;;
      let type := get body "type" in
      let title := get body "title" in
      let content := get body "content" in
      when truthy type && negb (validatePostType type)
        reply (Json 400 (failure "Invalid post type"), db) ;;
      check (if truthy title then validateText title 1 100 else Some true)
        reply Json 400 (failure "Title must be between 1 and 100 characters") in db ;;
      check (if truthy content then validateText content 1 1000 else Some true)
        reply Json 400 (failure "Content is required") in db ;;
      let changed := updatedPost env user post body in
      match Post.validate changed with
      | [] =>
          let saved :=
            Post.preSave env
              (fun k => Post.defined (get (updateObject post body) k)) changed in
          (Json 200 (VObj (object [("success", VBool true); ("post", VObj saved)])),
           with_posts (Post.write saved) db)
      | errors =>
          (Json 400 (failure ("Validation Failed during update: " ++ join ", " errors)),
           db)
      end
  end.

(** [DELETE /api/posts/:id].  Cloudinary clean-up is best effort and does
    not touch the database. *)
Definition deletePost (user : User.t) (id : string) (db : Db) : response * Db :=
  when negb (ObjectId.validateMongoId id)
    reply (Json 400 (failure "Invalid post ID"), db) ;;
  match Post.findById id (posts db) with
  | Some post =>
      when negb (Post.owned_by user post) && negb (User.isAdmin user)
        reply (Json 403 (message "You are not authorized to delete this post"), db) ;;
      let db := with_posts (Post.deleteOne post) db in
      let db :=
        if is_str "event" (Post.type post) || is_str "culturalEvent" (Post.type post)
        then
          match get post "_id" with
          | VId eventId => with_registrations (Post.deleteMany "eventId" eventId) db
          | _ => db
          end
        else db in
      (Json 200 (message "Post removed"), db)
  | None => (Json 404 (message "Post not found"), db)
  end.

(** [PUT /api/posts/:id/like] *)
Definition likePost (env : Env) (user : User.t) (id : string) (db : Db)
  : response * Db :=
  when negb (ObjectId.validateMongoId id)
    reply (Json 400 (failure "Invalid post ID"), db) ;;
  match Post.findById id (posts db) with
  | Some post =>
      when Post.includes_id (User._id user) (Post.likedBy post)
        reply (Json 400 (message "You have already liked this post"), db) ;;
      let post :=
        Post.save env ["likes"; "likedBy"]
          (assign [("likes", VNum (Post.likes post + 1));
                   ("likedBy", VArr (Post.likedBy post ++ [VId (User._id user)])%list)]
             post) in
      (Json 200 (VObj (object [("likes", get post "likes");
                               ("likedBy", get post "likedBy")])),
       with_posts (Post.write post) db)
  | None => (Json 404 (message "Post not found"), db)
  end.

(** [PUT /api/posts/:id/unlike] *)
Definition unlikePost (env : Env) (user : User.t) (id : string) (db : Db)
  : response * Db :=
  when negb (ObjectId.validateMongoId id)
    reply (Json 400 (failure "Invalid post ID"), db) ;;
  match Post.findById id (posts db) with
  | Some post =>
      when negb (Post.includes_id (User._id user) (Post.likedBy post))
        reply (Json 400 (message "You have not liked this post"), db) ;;
      let post :=
        if (0 <? Post.likes post)%Z
        then <["likes" := VNum (Post.likes post - 1)]> post else post in
      let post :=
        Post.save env ["likes"; "likedBy"]
          (<["likedBy" := VArr (Post.without_id (User._id user) (Post.likedBy post))]>
             post) in
      (Json 200 (VObj (object [("likes", get post "likes");
                               ("likedBy", get post "likedBy")])),
       with_posts (Post.write post) db)
  | None => (Json 404 (message "Post not found"), db)
  end.

(** [PUT /api/posts/:id/upvote].  The notification the add branch builds
    has no [recipient] and the type ['upvote'], so its [save] fails
    validation inside the [try]; [Notification.save] decides that here. *)
Definition upvotePost (env : Env) (user : User.t) (id : string) (db : Db)
  : response * Db :=
  when negb (ObjectId.validateMongoId id)
    reply (Json 400 (failure "Invalid post ID"), db) ;;
  match Post.findById id (posts db) with
  | None => (Json 404 (failure "Post not found"), db)
  | Some post =>
      when negb (is_str "showcase" (Post.type post))
        reply (Json 400 (failure "Only showcase posts can be upvoted"), db) ;;
      when Post.owned_by user post
        reply (Json 400 (failure "You cannot upvote your own post"), db) ;;
      let hasUpvoted := Post.includes_id (User._id user) (Post.upvoters post) in
      let '(post, db) :=
        if hasUpvoted then
          (assign [("upvotes", VNum (Z.max 0 (Post.upvotes post - 1)));
                   ("upvoters", VArr (Post.without_id (User._id user) (Post.upvoters post)))]
             post,
           db)
        else
          let notification :=
            object [("user", get post "userId");
                    ("type", VStr "upvote");
                    ("message",
                      VStr (User.name user ++ " upvoted your startup idea " ++ dquote
                            ++ template (get post "title") ++ dquote));
                    ("relatedPost", get post "_id");
                    ("relatedUser", VId (User._id user))] in
          (assign [("upvotes", VNum (Post.upvotes post + 1));
                   ("upvoters", VArr (Post.upvoters post ++ [VId (User._id user)])%list)]
             post,
           default db (Notification.save notification db)) in
      let post := Post.save env ["upvotes"; "upvoters"] post in
      (Json 200 (VObj (object [("success", VBool true);
                               ("upvotes", get post "upvotes");
                               ("upvoters", get post "upvoters");
                               ("hasUpvoted", VBool (negb hasUpvoted));
                               ("postId", get post "_id")])),
       with_posts (Post.write post) db)
  end.

(** [POST /api/posts/:id/showcase-comments].  Mongoose gives the pushed
    sub-document a fresh [_id]. *)
Definition addShowcaseComment (env : Env) (user : User.t) (id : string) (body : obj)
    (db : Db) : response * Db :=
  when negb (ObjectId.validateMongoId id)
    reply (Json 400 (failure "Invalid post ID"), db) ;;
  let text := get body "text" in
  check validateText text 1 1000
    reply Json 400 (failure "Comment must be between 1 and 1000 characters") in db ;;
  match Post.findById id (posts db) with
  | None => (Json 404 (failure "Post not found"), db)
  | Some post =>
      when negb (is_str "showcase" (Post.type post))
        reply (Json 400 (failure "Only showcase posts can use this comment endpoint"), db) ;;
      let userAvatar := getAvatarUrl (User.avatar user) in
      let '(commentId, db) := fresh_id db in
      let comment :=
        object [("_id", VId commentId);
                ("user", VId (User._id user));
                ("text", match text with VStr s => VStr (trim s) | _ => text end);
                ("timestamp", VDate (now env));
                ("author", VStr (User.name user));
                ("authorAvatar", userAvatar)] in
      let post := Post.init_path "showcaseComments" (VArr []) post in
      let comments := (Post.showcaseComments post ++ [VObj comment])%list in
      let post :=
        Post.save env ["showcaseComments"; "commentCount"]
          (assign [("showcaseComments", VArr comments);
                   ("commentCount", VNum (Z.of_nat (length comments)))] post) in
      let db := with_posts (Post.write post) db in
      let db :=
        if negb (Post.owned_by user post) then
          default db
            (Notification.save
               (object [("user", get post "userId");
                        ("type", VStr "comment");
                        ("message",
                          VStr (User.name user ++ " commented on your startup idea "
                                ++ dquote ++ template (get post "title") ++ dquote));
                        ("relatedPost", get post "_id");
                        ("relatedUser", VId (User._id user))]) db)
        else db in
      let populatedComment :=
        object [("_id", VId commentId);
                ("id", VId commentId);
                ("user", VObj (object [("_id", VId (User._id user));
                                       ("name", VStr (User.name user));
                                       ("avatar", userAvatar)]));
                ("text", get comment "text");
                ("timestamp", get comment "timestamp");
                ("author", VStr (User.name user));
                ("authorAvatar", userAvatar)] in
      (Json 201 (VObj (object [("success", VBool true);
                               ("comment", VObj populatedComment);
                               ("post", VObj (transformShowcasePostForFrontend post));
                               ("commentCount", get post "commentCount")])),
       db)
  end.

(** *** Cloudinary public ids *)

Fixpoint skip_digits (s : string) : string :=
  match s with
  | String c s' => if is_digit c then skip_digits s' else s
  | EmptyString => EmptyString
  end.

(** [s.replace(/^v\d+\//, '')] *)
Definition strip_version (s : string) : string :=
  match s with
  | String c rest =>
      if Ascii.eqb c "v"
         && match rest with String d _ => is_digit d | EmptyString => false end
      then match skip_digits rest with
           | String c' tail => if Ascii.eqb c' "/" then tail else s
           | EmptyString => s
           end
      else s
  | EmptyString => s
  end.

(** [extractPublicId] of the value of a String path; [None] is [null]. *)
Definition extractPublicId (url : string) : option string :=
  if negb (includes_sub "cloudinary" url) then None
  else
    let parts := split "/" url in
    match findIndex (String.eqb "upload") parts with
    | Some uploadIndex =>
        if (uploadIndex + 1 <? length parts)%nat then
          let pathAfterUpload := join "/" (drop (uploadIndex + 1) parts) in
          Some (default EmptyString (head (split "." (strip_version pathAfterUpload))))
        else None
    | None => None
    end.

(** *** Moderation of events *)

Definition is_event (p : obj) : bool :=
  includes_str ["event"; "culturalEvent"] (Post.type p).

(** [Post.find(...).sort({ timestamp: 1 })] *)
Fixpoint insert_asc (p : obj) (sorted : list obj) : list obj :=
  match sorted with
  | [] => [p]
  | q :: rest =>
      if (Post.timestamp p <? Post.timestamp q)%Z then p :: q :: rest
      else q :: insert_asc p rest
  end.

Definition sort_asc (ps : list obj) : list obj := foldr insert_asc [] ps.

(** [GET /api/posts/pending-events] *)
Definition getPendingEvents (user : User.t) (db : Db) : response :=
  match Auth.admin user with
  | Some denied => denied
  | None =>
      let pendingEvents :=
        sort_asc (List.filter
                    (fun p => is_event p && is_str "pending" (Post.status p))
                    (posts db)) in
      Json 200 (VArr (List.map VObj pendingEvents))
  end.

(** [PUT /api/posts/approve-event/:id] *)
Definition approveEvent (env : Env) (user : User.t) (id : string) (db : Db)
  : response * Db :=
  match Auth.admin user with
  | Some denied => (denied, db)
  | None =>
      when negb (ObjectId.validateMongoId id)
        reply (Json 400 (failure "Invalid event ID"), db) ;;
      match Post.findById id (posts db) with
      | Some event =>
          when negb (is_event event)
            reply (Json 400 (message
              "Only events and cultural events can be approved through this route"),
              db) ;;
          let updatedEvent :=
            Post.save env ["status"] (<["status" := VStr "approved"]> event) in
          (Json 200 (VObj updatedEvent), with_posts (Post.write updatedEvent) db)
      | None => (Json 404 (message "Event not found"), db)
      end
  end.

(** [DELETE /api/posts/reject-event/:id].  Cloudinary clean-up is best
    effort and does not touch the database. *)
Definition rejectEvent (user : User.t) (id : string) (db : Db) : response * Db :=
  match Auth.admin user with
  | Some denied => (denied, db)
  | None =>
      when negb (ObjectId.validateMongoId id)
        reply (Json 400 (failure "Invalid event ID"), db) ;;
      match Post.findById id (posts db) with
      | Some event =>
          when negb (is_event event)
            reply (Json 400 (message
              "Only events and cultural events can be rejected through this route"),
              db) ;;
          let db := with_posts (Post.deleteOne event) db in
          let db :=
            match get event "_id" with
            | VId eventId => with_registrations (Post.deleteMany "eventId" eventId) db
            | _ => db
            end in
          (Json 200 (message "Event rejected and removed"), db)
      | None => (Json 404 (message "Event not found"), db)
      end
  end.

(** [GET /api/posts/:id/registrations] *)
Definition getRegistrations (user : User.t) (eventId : string) (db : Db) : response :=
  when negb (ObjectId.validateMongoId eventId)
    reply Json 400 (failure "Invalid event ID") ;;
  match Post.select ["userId"; "type"] <$> Post.findById eventId (posts db) with
  | None => Raise 404 "Event not found"
  | Some event =>
      when negb (is_event event)
        reply Raise 400 "This is not an event." ;;
      when negb (Post.owned_by user event) && negb (User.isAdmin user)
        reply Raise 403 "Not authorized to view registrations for this event" ;;
      let registrations :=
        match get event "_id" with
        | VId oid => Post.find_by "eventId" oid (registrations db)
        | _ => []
        end in
      Json 200 (VArr (List.map VObj registrations))
  end.

(** *** Single posts *)

(** The module's [NodeCache]: a key holds a value until its expiry time,
    in epoch milliseconds. *)
Definition Cache := gmap string (Z * value).

(** [cache.get(key)]; an entry past its expiry is dropped. *)
Definition cache_get (env : Env) (key : string) (cache : Cache)
  : option value * Cache :=
  match cache !! key with
  | Some (expires, v) =>
      if (expires <? now env)%Z then (None, delete key cache) else (Some v, cache)
  | None => (None, cache)
  end.

(** [cache.set(key, v, ttl)], [ttl] in seconds. *)
Definition cache_set (env : Env) (key : string) (v : value) (ttl : Z) (cache : Cache)
  : Cache :=
  <[key := ((now env + ttl * 1000)%Z, v)]> cache.

(** [GET /api/posts/:id].  [if (!post)] takes a cached value that is
    falsy for a miss; [findById] rejects an id that is not 24 hexadecimal
    digits with a [CastError]. *)
Definition getPost (env : Env) (id : string) (cache : Cache) (db : Db)
  : response * Cache * Db :=
  let cacheKey := "post_" ++ id in
  let '(cached, cache) := cache_get env cacheKey cache in
  match (match cached with
         | Some post => if truthy post then Some post else None
         | None => None
         end) with
  | Some post => (Json 200 post, cache, db)
  | None =>
      match ObjectId.parse id with
      | None => (Raise 200 "CastError: Cast to ObjectId failed", cache, db)
      | Some _ =>
          match Post.findById id (posts db) with
          | Some post =>
              if is_str "showcase" (Post.type post) then
                let post :=
                  Post.save env ["views"]
                    (<["views" := VNum (to_num (or_else (get post "views") (VNum 0)) + 1)]>
                       post) in
                let sent := VObj (transformShowcasePostForFrontend post) in
                (Json 200 sent, cache_set env cacheKey sent 300 cache,
                 with_posts (Post.write post) db)
              else
                (Json 200 (VObj post), cache_set env cacheKey (VObj post) 300 cache, db)
          | None => (Json 404 (message "Post not found"), cache, db)
          end
      end
  end.

(** *** Comments and reports *)

(** [POST /api/posts/:id/comments].  Mongoose gives the pushed
    sub-document a fresh [_id] and validates it against [commentSchema]
    on [save]; the comments already stored satisfy it. *)
Definition addComment (env : Env) (user : User.t) (id : string) (body : obj) (db : Db)
  : response * Db :=
  when negb (ObjectId.validateMongoId id)
    reply (Json 400 (failure "Invalid post ID"), db) ;;
  let text := get body "text" in
  match Post.findById id (posts db) with
  | Some post =>
      check validateText text 1 1000
        reply Json 400 (message "Comment text must be between 1 and 1000 characters")
        in db ;;
      let userAvatar := getAvatarUrl (User.avatar user) in
      let '(commentId, stamped) := fresh_id db in
      let newComment :=
        object [("_id", VId commentId);
                ("author", VStr (User.name user));
                ("authorAvatar", userAvatar);
                ("text", text);
                ("timestamp", VDate (now env));
                ("userId", VId (User._id user))] in
      let commentData := (Post.commentData post ++ [VObj newComment])%list in
      let post :=
        assign [("commentData", VArr commentData);
                ("comments", VNum (Z.of_nat (length commentData)))] post in
      if Post.comment_ok newComment then
        let post := Post.save env ["commentData"; "comments"] post in
        (Json 201 (get post "commentData"), with_posts (Post.write post) stamped)
      else (Raise 200 "ValidationError: Post validation failed", db)
  | None => (Json 404 (message "Post not found"), db)
  end.

(** [POST /api/posts/:id/report] *)
Definition reportPost (env : Env) (user : User.t) (id : string) (body : obj) (db : Db)
  : response * Db :=
  when negb (ObjectId.validateMongoId id)
    reply (Json 400 (failure "Invalid post ID"), db) ;;
  let reason := get body "reason" in
  match Post.findById id (posts db) with
  | Some post =>
      check validateText reason 1 500
        reply Json 400 (message "Report reason must be between 1 and 500 characters")
        in db ;;
      let notification :=
        object [("message",
                  VStr ("Post " ++ dquote ++ template (get post "title") ++ dquote
                        ++ " has been reported by " ++ User.name user ++ " for: "
                        ++ template reason));
                ("reporter", VId (User._id user));
                ("postId", get post "_id");
                ("reportReason", reason);
                ("type", VStr "report");
                ("timestamp", VDate (now env))] in
      match Notification.save notification db with
      | Some db => (Json 201 (message "Post reported successfully"), db)
      | None => (Raise 200 "ValidationError: Notification validation failed", db)
      end
  | None => (Json 404 (message "Post not found"), db)
  end.

(** [GET /api/posts/:id/showcase-comments]; [page] and [limit] are the
    numbers the query parameters denote, 1 and 10 when absent. *)
Definition getShowcaseComments (id : string) (page limit : Z) (db : Db) : response :=
  when negb (ObjectId.validateMongoId id)
    reply Json 400 (failure "Invalid post ID") ;;
  match Post.select ["showcaseComments"; "commentCount"]
          <$> Post.findById id (posts db) with
  | None => Json 404 (failure "Post not found")
  | Some post =>
      when negb (is_str "showcase" (Post.type post))
        reply Json 400 (failure "Only showcase posts can use this comment endpoint") ;;
      let startIndex := ((page - 1) * limit)%Z in
      let endIndex := (page * limit)%Z in
      let comments := slice startIndex endIndex (Post.showcaseComments post) in
      let totalComments := Z.of_nat (length (Post.showcaseComments post)) in
      Json 200 (VObj (object [("success", VBool true);
                              ("comments", VArr comments);
                              ("totalPages",
                                if (limit =? 0)%Z then VNull
                                else VNum (ceil_div totalComments limit));
                              ("currentPage", VNum page);
                              ("totalComments", VNum totalComments);
                              ("postId", get post "_id")]))
  end.

End PostRoutes.

(** ** User routes: registration, CSV export, admin deletion *)

Module UserRoutes.

(** [POST /api/users/register-event/:eventId] *)
Definition registerEvent (env : Env) (user : User.t) (eventId : string) (body : obj)
    (db : Db) : response * Db :=
  let userId := User._id user in
  when negb (ObjectId.validateMongoId eventId)
    reply (Json 400 (message "Invalid event ID format"), db) ;;
  match Post.findById eventId (posts db) with
  | None => (Raise 404 "Event not found", db)
  | Some event =>
      match Registration.findOne eventId userId (registrations db) with
      | Some isAlreadyRegistered =>
          (Raise 400 "You are already registered for this event", db)
      | None =>
          let name := get body "name" in
          let email := get body "email" in
          let phone := get body "phone" in
          let transactionId := get body "transactionId" in
          let bookingDates := get body "bookingDates" in
          let selectedTickets := get body "selectedTickets" in
          let totalPrice := get body "totalPrice" in
          let customFields :=
            omit ["name"; "email"; "phone"; "transactionId"; "bookingDates";
                  "selectedTickets"; "totalPrice"] body in
          when negb (truthy name) || negb (truthy email)
            reply (Json 400 (message "Name and email are required"), db) ;;
          let newRegistrationData :=
            object [("eventId", ObjectId.cast eventId);
                    ("userId", VId userId);
                    ("name", name);
                    ("email", email);
                    ("phone", phone);
                    ("transactionId", transactionId);
                    ("customFields", VObj customFields);
                    ("bookingDates", bookingDates);
                    ("selectedTickets", selectedTickets);
                    ("totalPrice", totalPrice)] in
          match Registration.create env newRegistrationData db with
          | None => (Raise 200 "ValidationError: Registration validation failed", db)
          | Some (newRegistration, db) =>
              let eventCreator :=
                match get event "userId" with
                | VId creatorId => User.findById creatorId (users db)
                | _ => None
                end in
              let notified :=
                match eventCreator with
                | Some creator =>
                    Notification.save
                      (object [("recipient", VId (User._id creator));
                               ("message",
                                 VStr (User.name user
                                       ++ " has registered for your event " ++ dquote
                                       ++ template (get event "title") ++ dquote ++ "!"));
                               ("postId", get event "_id");
                               ("type", VStr "registration");
                               ("timestamp", VDate (now env))]) db
                | None => Some db
                end in
              match notified with
              | Some db =>
                  (Json 201 (VObj (object [("message", VStr "Registration successful");
                                           ("registration", VObj newRegistration)])),
                   db)
              | None =>
                  (Raise 200 "ValidationError: Notification validation failed", db)
              end
          end
      end
  end.

Definition fixedHeaders : list string :=
  ["Name"; "Email"; "Phone"; "Transaction ID"; "Registered At"; "Booking Dates";
   "Total Price"; "Ticket Type"; "Ticket Quantity"; "Ticket Price"].

(** [headers.add(key)] on a [Set] kept in insertion order. *)
Definition add_header (key : string) (headers : list string) : list string :=
  if List.existsb (String.eqb key) headers then headers else (headers ++ [key])%list.

(** The own keys of [reg.customFields] that the [for ... in] loop visits. *)
Definition customKeys (reg : obj) : list string :=
  match get reg "customFields" with
  | VObj fields => (map_to_list fields).*1
  | _ => []
  end.

Definition empty : value := VStr EmptyString.

(** [baseData] of one registration.  [createdAt] is written by Mongoose
    only and is a [Date] whenever it is present. *)
Definition baseData (env : Env) (reg : obj) : obj :=
  let base :=
    object [("Name", or_else (get reg "name") empty);
            ("Email", or_else (get reg "email") empty);
            ("Phone", or_else (get reg "phone") empty);
            ("Transaction ID", or_else (get reg "transactionId") empty);
            ("Registered At",
              match get reg "createdAt" with
              | VDate ms => VStr (toISOString env ms)
              | _ => empty
              end);
            ("Booking Dates",
              VStr (join ", " (template <$> elements (get reg "bookingDates"))));
            ("Total Price", or_else (get reg "totalPrice") empty)] in
  match get reg "customFields" with
  | VObj fields =>
      assign (List.map (fun key => (key, or_else (get fields key) empty))
                (customKeys reg)) base
  | _ => base
  end.

(** The rows one registration contributes. *)
Definition flatten (env : Env) (event reg : obj) : list obj :=
  let tickets := elements (get reg "selectedTickets") in
  if is_str "culturalEvent" (Post.type event)
     && truthy (get reg "selectedTickets") && (0 <? length tickets)%nat
  then
    List.map
      (fun ticket =>
         let t := match ticket with VObj t => t | _ => ∅ end in
         assign [("Ticket Type", or_else (get t "ticketType") empty);
                 ("Ticket Quantity", or_else (get t "quantity") empty);
                 ("Ticket Price", or_else (get t "ticketPrice") empty)]
           (baseData env reg))
      tickets
  else
    [assign [("Ticket Type", empty); ("Ticket Quantity", empty); ("Ticket Price", empty)]
       (baseData env reg)].

Definition flattenedData (env : Env) (event : obj) (regs : list obj) : list obj :=
  List.concat (List.map (flatten env event) regs).

Definition finalHeaders (regs : list obj) : list string :=
  foldl (fun headers reg => foldl (fun hs key => add_header key hs) headers (customKeys reg))
    fixedHeaders regs.

(** [GET /api/users/export-registrations/:eventId] *)
Definition exportRegistrations (env : Env) (user : User.t) (eventId : string) (db : Db)
  : response :=
  when negb (ObjectId.validateMongoId eventId)
    reply Json 400 (message "Invalid event ID format") ;;
  match Post.findById eventId (posts db) with
  | None => Json 404 (message "Event not found.")
  | Some event =>
      when negb (Post.owned_by user event) && negb (User.isAdmin user)
        reply Json 403 (message "Not authorized to export this data.") ;;
      let regs := Registration.find eventId (registrations db) in
      when (length regs =? 0)%nat
        reply Json 404 (message "No registrations found for this event.") ;;
      Csv (finalHeaders regs) (flattenedData env event regs)
  end.

(** The [admin] middleware. *)
Definition admin (user : User.t) : option response :=
  if User.isAdmin user then None
  else Some (Raise 403 "Not authorized as an administrator").

(** [DELETE /api/users/admin/delete-post/:id] *)
Definition adminDeletePost (user : User.t) (postId : string) (db : Db) : response * Db :=
  match admin user with
  | Some denied => (denied, db)
  | None =>
      when negb (ObjectId.validateMongoId postId)
        reply (Json 400 (message "Invalid post ID format"), db) ;;
      match Post.findById postId (posts db) with
      | Some post =>
          let db := with_posts (Post.deleteOne post) db in
          let db :=
            match ObjectId.parse postId with
            | Some oid =>
                with_registrations (Post.deleteMany "eventId" oid)
                  (with_notifications (Post.deleteMany "postId" oid) db)
            | None => db
            end in
          (Json 200 (message "Post and associated data removed"), db)
      | None => (Json 404 (message "Post not found"), db)
      end
  end.

(** [x.toString()] of an array element of ObjectId type. *)
Definition id_string (v : value) : string :=
  match v with
  | VId oid => ObjectId.toString oid
  | VStr s => s
  | _ => EmptyString
  end.

(** [GET /api/users/liked-posts] *)
Definition likedPosts (user : User.t) (db : Db) : response :=
  let likedShowcasePosts :=
    List.filter
      (fun p => Post.includes_id (User._id user) (Post.upvoters p)
                && is_str "showcase" (Post.type p)
                && is_str "approved" (Post.status p))
      (posts db) in
  let likedPostIds :=
    List.map (fun post => VStr (id_string (get post "_id"))) likedShowcasePosts in
  Json 200 (VObj (object [("success", VBool true);
                          ("likedPostIds", VArr likedPostIds);
                          ("count", VNum (Z.of_nat (length likedPostIds)))])).

(** [POST /api/users/bookmark/:postId]; [user] is the document
    [User.findById(req.user._id)] loads, and the document the handler
    saves is handed back. *)
Definition toggleBookmark (postId : string) (user : obj) (db : Db) : response * obj :=
  when negb (ObjectId.validateMongoId postId)
    reply (Json 400 (failure "Invalid post ID format"), user) ;;
  match Post.findById postId (posts db) with
  | None => (Json 404 (failure "Post not found"), user)
  | Some post =>
      when negb (is_str "showcase" (Post.type post))
        reply (Json 400 (failure "Only showcase posts can be bookmarked"), user) ;;
      let user := Post.init_path "bookmarkedPosts" (VArr []) user in
      let bookmarkedPosts := elements (get user "bookmarkedPosts") in
      let isBookmarked :=
        List.existsb (fun bookmarkedId => String.eqb (id_string bookmarkedId) postId)
          bookmarkedPosts in
      let user :=
        if isBookmarked then
          <["bookmarkedPosts" :=
              VArr (List.filter
                      (fun bookmarkedId => negb (String.eqb (id_string bookmarkedId) postId))
                      bookmarkedPosts)]> user
        else
          <["bookmarkedPosts" := VArr (bookmarkedPosts ++ [ObjectId.cast postId])%list]>
            user in
      (Json 200 (VObj (object [("success", VBool true);
                               ("bookmarked", VBool (negb isBookmarked));
                               ("bookmarkedPosts", get user "bookmarkedPosts");
                               ("message",
                                 if isBookmarked then VStr "Post removed from bookmarks"
                                 else VStr "Post bookmarked successfully")])),
       user)
  end.

(** [GET /api/users/showcase-submission-status] *)
Definition showcaseSubmissionStatus (env : Env) (user : User.t) (db : Db) : response :=
  let SUBMISSION_DEADLINE := local_time (tz_offset_min env) 2025 10 31 23 59 59 in
  let isPostingEnabled := (now env <? SUBMISSION_DEADLINE)%Z in
  let currentMonth := locale_month env in
  let existingSubmission :=
    List.find
      (fun p => Post.owned_by user p
                && is_str "showcase" (Post.type p)
                && is_str currentMonth (get p "month"))
      (posts db) in
  Json 200
    (VObj (object
             [("success", VBool true);
              ("isPostingEnabled", VBool isPostingEnabled);
              ("hasSubmitted",
                VBool (match existingSubmission with Some _ => true | None => false end));
              ("deadline", VStr "2025-10-31T23:59:59");
              ("daysRemaining",
                VNum (ceil_div (SUBMISSION_DEADLINE - now env) (1000 * 60 * 60 * 24)));
              ("currentMonth", VStr currentMonth);
              ("existingSubmissionId",
                match existingSubmission with
                | Some submission => get submission "_id"
                | None => VUndefined
                end)])).

(** [GET /api/users/my-events-registrations] *)
Definition myEventsRegistrations (user : User.t) (db : Db) : response :=
  let registeredEvents := Post.find_by "userId" (User._id user) (registrations db) in
  let registeredEventIds := List.map (fun reg => get reg "eventId") registeredEvents in
  Json 200 (VObj (object [("registeredEventIds", VArr registeredEventIds)])).

(** [GET /api/users/my-events/registration-counts]; the property name
    [registrationCounts[event._id]] is the id's [toString()]. *)
Definition registrationCounts (user : User.t) (db : Db) : response :=
  let myEvents :=
    List.filter (fun p => Post.owned_by user p && PostRoutes.is_event p) (posts db) in
  let registrationCounts :=
    foldl (fun counts event =>
             match get event "_id" with
             | VId oid =>
                 <[ObjectId.toString oid :=
                     VNum (Z.of_nat (length (Post.find_by "eventId" oid
                                               (registrations db))))]> counts
             | _ => counts
             end)
      (∅ : obj) myEvents in
  Json 200 (VObj (object [("registrations", VObj registrationCounts)])).

(** [GET /api/users/admin/registrations/:eventId] *)
Definition adminRegistrations (user : User.t) (eventId : string) (db : Db) : response :=
  when negb (ObjectId.validateMongoId eventId)
    reply Json 400 (message "Invalid event ID format") ;;
  match Post.findById eventId (posts db) with
  | None => Json 404 (message "Event not found")
  | Some event =>
      when negb (Post.owned_by user event) && negb (User.isAdmin user)
        reply Json 403 (message "You are not authorized to view this data.") ;;
      let registrations :=
        match get event "_id" with
        | VId oid => Post.find_by "eventId" oid (registrations db)
        | _ => []
        end in
      Json 200 (VArr (List.map VObj registrations))
  end.

End UserRoutes.

(** ** Notions the statements below are written with *)

(** The two ways a post is saved by its author. *)
Inductive write_request :=
| Create (body : obj)
| Update (id : string) (body : obj).

Definition save_post (env : Env) (user : User.t) (w : write_request) (db : Db)
  : response * Db :=
  match w with
  | Create body => PostRoutes.createPost env user body db
  | Update id body => PostRoutes.updatePost env user id body db
  end.

Definition succeeded (r : response) : bool :=
  match r with
  | Json 200 _ | Json 201 _ | Csv _ _ => true
  | _ => false
  end.

(** [doc] is the document the request left in the collection. *)
Definition stored_by (w : write_request) (db db' : Db) (doc : obj) : Prop :=
  match w with
  | Create _ => posts db' = (posts db ++ [doc])%list
  | Update id _ =>
      posts db' = Post.write doc (posts db)
      /\ exists old, Post.findById id (posts db) = Some old
                     /\ get doc "_id" = get old "_id"
  end.

(** The variant-specific paths, as [postSchema] groups them. *)
Definition eventOnlyPaths : list string :=
  ["price"; "paymentMethod"; "paymentLink"; "paymentQRCode"].

Definition culturalPaths : list string :=
  ["ticketOptions"; "culturalPaymentMethod"; "culturalPaymentLink";
   "culturalPaymentQRCode"; "availableDates"].

Definition eventPaths : list string :=
  ["source"; "location"; "eventStartDate"; "eventEndDate"; "price"; "language";
   "duration"; "ticketsNeeded"; "venueAddress"; "registrationLink";
   "registrationOpen"; "enableRegistrationForm"; "registrationFields";
   "paymentMethod"; "paymentLink"; "paymentQRCode"].

Definition showcasePaths : list string :=
  ["description"; "fullDescription"; "websiteLink"; "logoUrl"; "bannerUrl";
   "month"; "launchedDate"; "upvotes"; "upvoters"; "showcaseComments";
   "commentCount"; "views"].

(** The paths that belong to variants other than [type]. *)
Definition foreignPaths (type : value) : list string :=
  if is_str "event" type then (culturalPaths ++ showcasePaths)%list
  else if is_str "culturalEvent" type then (eventOnlyPaths ++ showcasePaths)%list
  else if is_str "showcase" type then (eventPaths ++ culturalPaths)%list
  else (eventPaths ++ culturalPaths ++ showcasePaths)%list.

(** The paths the clean-up block of each handler clears for [type]. *)
Definition clearedPaths (w : write_request) (type : value) : list string :=
  if is_str "event" type then
    match w with
    | Create _ => culturalPaths
    | Update _ _ =>
        ["culturalPaymentMethod"; "culturalPaymentLink"; "culturalPaymentQRCode";
         "availableDates"]
    end
  else if is_str "culturalEvent" type then eventOnlyPaths
  else PostRoutes.eventAndCulturalPaths.

(** An engagement operation on one post: the four routes and the model's
    showcase methods. *)
Inductive engagement :=
| Like
| Unlike
| ToggleUpvote
| ShowcaseComment (body : obj)
| AddUpvote
| RemoveUpvote
| AddShowcaseComment (comment : value)
| RemoveShowcaseComment (commentId : N).

(** A model method is called on the loaded document; the document it
    resolves to is the stored one. *)
Definition call_method (method : obj -> obj) (id : string) (db : Db) : Db :=
  match Post.findById id (posts db) with
  | Some post => with_posts (Post.write (method post)) db
  | None => db
  end.

Definition perform (env : Env) (user : User.t) (id : string) (op : engagement)
    (db : Db) : Db :=
  match op with
  | Like => (PostRoutes.likePost env user id db).2
  | Unlike => (PostRoutes.unlikePost env user id db).2
  | ToggleUpvote => (PostRoutes.upvotePost env user id db).2
  | ShowcaseComment body => (PostRoutes.addShowcaseComment env user id body db).2
  | AddUpvote => call_method (Post.addUpvote env (User._id user)) id db
  | RemoveUpvote => call_method (Post.removeUpvote env (User._id user)) id db
  | AddShowcaseComment comment =>
      call_method (Post.addShowcaseComment env comment) id db
  | RemoveShowcaseComment commentId =>
      call_method (Post.removeShowcaseComment env commentId) id db
  end.

Definition perform_all (env : Env) (ops : list (User.t * string * engagement))
    (db : Db) : Db :=
  foldl (fun db op => perform env op.1.1 op.1.2 op.2 db) db ops.

Definition counters_nonnegative (p : obj) : Prop :=
  (0 <= Post.likes p)%Z /\ (0 <= Post.upvotes p)%Z /\ (0 <= Post.commentCount p)%Z.

(** The request carries a bearer token that verifies to the id of an
    administrator. *)
Definition admin_bearer (env : Env) (authorization : option string) (db : Db) : Prop :=
  exists header token id oid user,
    authorization = Some header
    /\ String.prefix "Bearer" header = true
    /\ split " "%char header !! 1%nat = Some token
    /\ jwt_verify env token = Some id
    /\ ObjectId.parse id = Some oid
    /\ User.findById oid (users db) = Some user
    /\ User.isAdmin user = true.

(** The posts of a JSON array response. *)
Definition returned_posts (r : response) : list obj :=
  match r with
  | Json _ (VArr items) =>
      omap (fun v => match v with VObj o => Some o | _ => None end) items
  | _ => []
  end.

(** The document a collection received last. *)
Definition newest (coll : list obj) : obj := default ∅ (last coll).

(** The document a collection holds first. *)
Definition oldest (coll : list obj) : obj := default ∅ (head coll).

Definition found (o : option obj) : bool :=
  match o with Some _ => true | None => false end.

(** The [message] member of a JSON answer. *)
Definition message_of (r : response) : value :=
  match r with
  | Json _ (VObj o) => get o "message"
  | _ => VUndefined
  end.

(** A title or content as JSON delivers it for a String path. *)
Definition is_text (v : value) : Prop :=
  match v with
  | VUndefined | VNull | VStr _ => True
  | _ => False
  end.

(** The selected tickets of a registration. *)
Definition tickets (reg : obj) : list value := elements (get reg "selectedTickets").

Definition sum_nat (ns : list nat) : nat := foldr Nat.add 0%nat ns.

(** The number of (registration, selected ticket) pairs. *)
Definition ticket_pairs (regs : list obj) : nat :=
  sum_nat (List.map (fun reg => length (tickets reg)) regs).

(** ... with a registration that selected no ticket counted once. *)
Definition ticket_rows (regs : list obj) : nat :=
  sum_nat (List.map (fun reg => Nat.max 1 (length (tickets reg))) regs).

Definition data_rows (r : response) : option nat :=
  match r with Csv _ rows => Some (length rows) | _ => None end.

Definition header_columns (r : response) : list string :=
  match r with Csv fields _ => fields | _ => [] end.

(** The paths the pre-save hook may write. *)
Definition hookPaths : list string :=
  ["comments"; "commentCount"; "likedBy"; "showcaseComments"; "upvoters";
   "commentData"; "launchedDate"; "month"].

(** A request to one of the post routes that write to the database. *)
Inductive request :=
| CreatePost (body : obj)
| UpdatePost (id : string) (body : obj)
| DeletePost (id : string)
| LikePost (id : string)
| UnlikePost (id : string)
| UpvotePost (id : string)
| CommentShowcase (id : string) (body : obj)
| CommentPost (id : string) (body : obj)
| ReportPost (id : string) (body : obj)
| ApproveEvent (id : string)
| RejectEvent (id : string).

Definition handle (env : Env) (user : User.t) (r : request) (db : Db)
  : response * Db :=
  match r with
  | CreatePost body => PostRoutes.createPost env user body db
  | UpdatePost id body => PostRoutes.updatePost env user id body db
  | DeletePost id => PostRoutes.deletePost user id db
  | LikePost id => PostRoutes.likePost env user id db
  | UnlikePost id => PostRoutes.unlikePost env user id db
  | UpvotePost id => PostRoutes.upvotePost env user id db
  | CommentShowcase id body => PostRoutes.addShowcaseComment env user id body db
  | CommentPost id body => PostRoutes.addComment env user id body db
  | ReportPost id body => PostRoutes.reportPost env user id body db
  | ApproveEvent id => PostRoutes.approveEvent env user id db
  | RejectEvent id => PostRoutes.rejectEvent user id db
  end.

(** Each counter is the size of the list it counts, and nobody is listed
    twice. *)
Definition counters_consistent (p : obj) : Prop :=
  Post.likes p = Z.of_nat (length (Post.likedBy p))
  /\ NoDup (Post.likedBy p)
  /\ Post.upvotes p = Z.of_nat (length (Post.upvoters p))
  /\ NoDup (Post.upvoters p)
  /\ Post.commentCount p = Z.of_nat (length (Post.showcaseComments p)).

Definition newest_first (ps : list obj) : Prop :=
  StronglySorted (fun p q => (Post.timestamp q <= Post.timestamp p)%Z) ps.

Definition oldest_first (ps : list obj) : Prop :=
  StronglySorted (fun p q => (Post.timestamp p <= Post.timestamp q)%Z) ps.

(** The posts a request to [GET /api/posts] is entitled to. *)
Definition visible_to (env : Env) (authorization : option string) (db : Db)
  : list obj :=
  if PostRoutes.isAdminRequest env authorization db then posts db
  else List.filter (fun p => is_str "approved" (Post.status p)) (posts db).

(** No two documents of a collection share an [_id]. *)
Definition unique_ids (coll : list obj) : Prop :=
  NoDup (List.map (fun p => get p "_id") coll).

(** The ids an answer of [GET /api/users/liked-posts] lists. *)
Definition likedPostIds (r : response) : list value :=
  match r with
  | Json _ (VObj o) => elements (get o "likedPostIds")
  | _ => []
  end.

(** The refusal of a showcase submission after the deadline. *)
Definition submissionsClosed : string :=
  "Submissions are closed for Startup Showcase. The deadline was October 31, 2025.".

(** The counts an answer of [GET /api/users/my-events/registration-counts]
    holds. *)
Definition counts_of (r : response) : obj :=
  match r with
  | Json _ (VObj o) =>
      match get o "registrations" with VObj counts => counts | _ => ∅ end
  | _ => ∅
  end.

(** The body of a JSON answer, read as an object. *)
Definition body_of (r : response) : obj :=
  match r with
  | Json _ (VObj o) => o
  | _ => ∅
  end.

(** The items of a JSON answer that is an array. *)
Definition items_of (r : response) : list value :=
  match r with
  | Json _ (VArr items) => items
  | _ => []
  end.

(** ** Sample data *)

Module Sample.

(** 1 November 2025, 12:26:40 UTC: after the showcase deadline. *)
Definition env : Env :=
  {| now := 1762000000000;
     tz_offset_min := 0;
     locale_month := "November 2025";
     locale_date := "1/11/2025";
     toISOString := fun _ => "2025-11-01T12:26:40.000Z";
     cloud_upload := fun _ => Some "https://res.cloudinary.com/confique/image/upload/v1/a.png";
     jwt_verify := fun _ => None |}.

(** The last millisecond before the deadline passes. *)
Definition env_open : Env :=
  {| now := 1761955199000;
     tz_offset_min := 0;
     locale_month := "October 2025";
     locale_date := "31/10/2025";
     toISOString := toISOString env;
     cloud_upload := cloud_upload env;
     jwt_verify := jwt_verify env |}.

Definition alice : User.t :=
  {| User._id := 1; User.name := "Alice"; User.avatar := VUndefined;
     User.isAdmin := false |}.

Definition bob : User.t :=
  {| User._id := 2; User.name := "Bob"; User.avatar := VUndefined;
     User.isAdmin := false |}.

(** ObjectIds 16, 17 and 18. *)
Definition showcase_id : string := "000000000000000000000010".
Definition event_id : string := "000000000000000000000011".
Definition confession_id : string := "000000000000000000000012".

(** Alice's showcase post, which she liked herself. *)
Definition showcase : obj :=
  object [("_id", VId 16); ("type", VStr "showcase"); ("title", VStr "Campus rides");
          ("content", VStr "Ride sharing for students"); ("author", VStr "Alice");
          ("userId", VId 1); ("status", VStr "approved"); ("timestamp", VDate 1760000000000);
          ("likes", VNum 1); ("likedBy", VArr [VId 1]);
          ("upvotes", VNum 0); ("upvoters", VArr []);
          ("showcaseComments", VArr []); ("commentCount", VNum 0)].

(** Alice's event, still pending. *)
Definition event : obj :=
  object [("_id", VId 17); ("type", VStr "event"); ("title", VStr "Hack night");
          ("content", VStr "Bring a laptop"); ("author", VStr "Alice");
          ("userId", VId 1); ("status", VStr "pending"); ("timestamp", VDate 1760000001000);
          ("likes", VNum 0); ("likedBy", VArr [])].

Definition confession : obj :=
  object [("_id", VId 18); ("type", VStr "confession"); ("title", VStr "Late again");
          ("content", VStr "I skipped the lecture"); ("author", VStr "Alice");
          ("userId", VId 1); ("status", VStr "approved"); ("timestamp", VDate 1760000002000);
          ("likes", VNum 0); ("likedBy", VArr [])].

Definition db : Db :=
  {| posts := [showcase; event; confession];
     registrations := [];
     notifications := [];
     users := [alice; bob];
     next_id := 256 |}.

(** A cultural event with one ticket option and no available dates. *)
Definition cultural_body : obj :=
  object [("type", VStr "culturalEvent"); ("title", VStr "Spring fest");
          ("content", VStr "Music and food");
          ("ticketOptions",
            VArr [VObj (object [("ticketType", VStr "General");
                                ("ticketPrice", VNum 100)])])].

(** ObjectId 256, the first the sample database hands out. *)
Definition festival_id : string := "000000000000000000000100".

Definition registration_body : obj :=
  object [("name", VStr "Bob"); ("email", VStr "bob@example.org")].

(** An administrator. *)
Definition carol : User.t :=
  {| User._id := 3; User.name := "Carol"; User.avatar := VUndefined;
     User.isAdmin := true |}.

(** Bob's user document, with no bookmark yet. *)
Definition bob_document : obj :=
  object [("_id", VId 2); ("name", VStr "Bob"); ("bookmarkedPosts", VArr [])].

End Sample.

(** * Properties *)

(** ** Objects *)

Section Objects.

Implicit Types (o : obj) (k : string) (v : value).

Lemma get_insert_eq o k v : get (<[k := v]> o) k = v.
Proof. unfold get. by rewrite lookup_insert_eq. Qed.

Lemma get_insert_ne o k k' v : k <> k' -> get (<[k := v]> o) k' = get o k'.
Proof. intros Hne. unfold get. by rewrite lookup_insert_ne. Qed.

Lemma get_assign_notin kvs o k : k ∉ kvs.*1 -> get (assign kvs o) k = get o k.
Proof.
  revert o. induction kvs as [|[k' v'] kvs IH]; intros o Hk; [done|].
  apply not_elem_of_cons in Hk as [Hne Hk].
  change (get (assign kvs (<[k' := v']> o)) k = get o k).
  rewrite IH by done. apply get_insert_ne. by intros ->.
Qed.

Lemma assign_app kvs kvs' o : assign (kvs ++ kvs') o = assign kvs' (assign kvs o).
Proof. unfold assign. by rewrite foldl_app. Qed.

Lemma undefine_keys ks : (PostRoutes.undefine ks).*1 = ks.
Proof. induction ks as [|k ks IH]; [done|]. cbn. f_equal. exact IH. Qed.

Lemma get_undefine ks o k :
  k ∈ ks -> get (assign (PostRoutes.undefine ks) o) k = VUndefined.
Proof.
  revert o. induction ks as [|k' ks IH]; intros o Hk; [by apply elem_of_nil in Hk|].
  change (get (assign (PostRoutes.undefine ks) (<[k' := VUndefined]> o)) k = VUndefined).
  destruct (decide (k ∈ ks)) as [Hin|Hnin]; [by apply IH|].
  apply elem_of_cons in Hk as [->|Hk]; [|done].
  rewrite get_assign_notin; [apply get_insert_eq|by rewrite undefine_keys].
Qed.

Lemma get_assign_undefine ks kvs o k :
  k ∈ ks -> get (assign (kvs ++ PostRoutes.undefine ks) o) k = VUndefined.
Proof. intros Hk. rewrite assign_app. by apply get_undefine. Qed.

Lemma lookup_omit ks o k :
  omit ks o !! k = if decide (k ∈ ks) then None else o !! k.
Proof.
  revert o. induction ks as [|k' ks IH]; intros o; [done|].
  change (omit ks (delete k' o) !! k = if decide (k ∈ k' :: ks) then None else o !! k).
  rewrite IH. destruct (decide (k ∈ ks)) as [Hin|Hnin].
  - rewrite decide_True; [done|by apply elem_of_cons; right].
  - destruct (decide (k = k')) as [->|Hne].
    + rewrite decide_True; [|by apply elem_of_cons; left].
      by rewrite lookup_delete_eq.
    + rewrite decide_False; [by rewrite lookup_delete_ne|].
      intros [?|?]%elem_of_cons; done.
Qed.

Lemma is_str_true lit v : is_str lit v = true <-> v = VStr lit.
Proof.
  unfold is_str. destruct v; cbn; try (split; [discriminate|congruence]).
  rewrite String.eqb_eq. split; congruence.
Qed.

Lemma is_str_refl lit : is_str lit (VStr lit) = true.
Proof. by apply is_str_true. Qed.

Lemma found_Some (o : option obj) : found o = true -> exists p, o = Some p.
Proof. destruct o as [p|]; [by exists p|done]. Qed.

Lemma of_found {A} (f : obj -> A) (o : option obj) p x :
  o = Some p -> f <$> o = Some x -> f p = x.
Proof. intros ->. cbn. congruence. Qed.

Lemma oldest_cons (f : obj -> value) coll x :
  coll <> [] -> f (oldest coll) = x -> exists r, In r coll /\ f r = x.
Proof. destruct coll as [|r coll]; [done|]. intros _ Hx. exists r. by split; [left|]. Qed.

Lemma nonempty_length {A} (l : list A) : length l <> 0%nat -> l <> [].
Proof. by destruct l. Qed.

End Objects.

(** ** Listing posts *)

Section Listing.

Lemma In_insert_desc p q sorted :
  In q (PostRoutes.insert_desc p sorted) <-> q = p \/ In q sorted.
Proof.
  induction sorted as [|r sorted IH]; cbn.
  - intuition.
  - destruct (Post.timestamp r <? Post.timestamp p)%Z; cbn; rewrite ?IH; intuition.
Qed.

Lemma In_sort_desc q ps : In q (PostRoutes.sort_desc ps) <-> In q ps.
Proof.
  induction ps as [|p ps IH]; cbn; [done|].
  rewrite In_insert_desc, IH. intuition.
Qed.

Lemma status_transform p :
  Post.status (PostRoutes.transformShowcasePostForFrontend p) = Post.status p.
Proof.
  unfold PostRoutes.transformShowcasePostForFrontend, Post.status.
  destruct (negb _); [done|].
  by rewrite !get_insert_ne.
Qed.

Lemma isAdminRequest_spec env authorization db :
  PostRoutes.isAdminRequest env authorization db = true
  <-> admin_bearer env authorization db.
Proof.
  unfold PostRoutes.isAdminRequest, admin_bearer. split.
  - destruct authorization as [header|]; [|done].
    destruct (String.prefix "Bearer" header) eqn:Hprefix; [|done].
    destruct (split " " header !! 1%nat) as [token|] eqn:Htoken; [|done].
    destruct (jwt_verify env token) as [id|] eqn:Hid; [|done].
    destruct (ObjectId.parse id) as [oid|] eqn:Hoid; [|done].
    destruct (User.findById oid (users db)) as [user|] eqn:Huser; [|done].
    intros Hadmin. by exists header, token, id, oid, user.
  - intros (header & token & id & oid & user & -> & -> & -> & -> & -> & -> & ->).
    done.
Qed.

Lemma returned_posts_getPosts env authorization db post :
  post ∈ returned_posts (PostRoutes.getPosts env authorization db) ->
  exists stored,
    In stored (posts db)
    /\ post = PostRoutes.transformShowcasePostForFrontend stored
    /\ (PostRoutes.isAdminRequest env authorization db = false ->
        is_str "approved" (Post.status stored) = true).
Proof.
  unfold PostRoutes.getPosts, returned_posts.
  intros (v & Hv & Hpost)%list_elem_of_omap.
  apply list_elem_of_In, in_map_iff in Hv as (stored & <- & Hstored).
  injection Hpost as <-. exists stored.
  destruct (PostRoutes.isAdminRequest env authorization db).
  - apply (proj1 (In_sort_desc _ _)) in Hstored.
    split; [exact Hstored|]. split; [done|discriminate].
  - apply (proj1 (In_sort_desc _ _)), filter_In in Hstored as [Hin Happroved].
    split; [exact Hin|]. split; [done|]. intros _. exact Happroved.
Qed.

End Listing.

(** C10.  A request to [GET /api/posts] that does not carry a valid bearer
    token of an administrator is answered 200 with approved posts only;
    hence a pending or rejected post in the answer means the request came
    from an administrator. *)
Theorem public_listing_only_approved env authorization db :
  ~ admin_bearer env authorization db ->
  http_status (PostRoutes.getPosts env authorization db) = 200%nat
  /\ forall post,
       post ∈ returned_posts (PostRoutes.getPosts env authorization db) ->
       Post.status post = VStr "approved".
Proof.
  intros Hpublic. split; [done|].
  intros post (stored & _ & -> & Happroved)%returned_posts_getPosts.
  rewrite status_transform. apply is_str_true, Happroved.
  destruct (PostRoutes.isAdminRequest env authorization db) eqn:Hadmin; [|done].
  by apply isAdminRequest_spec in Hadmin.
Qed.

Lemma public_listing_only_approved_witness :
  let authorization := Some "Bearer eyJhbGciOiJIUzI1NiJ9" in
  http_status (PostRoutes.getPosts Sample.env authorization Sample.db) = 200%nat
  /\ forall post,
       post ∈ returned_posts (PostRoutes.getPosts Sample.env authorization Sample.db) ->
       Post.status post = VStr "approved".
Proof.
  intros authorization.
  apply (public_listing_only_approved Sample.env authorization Sample.db).
  intros Hadmin%isAdminRequest_spec. vm_compute in Hadmin. discriminate Hadmin.
Defined.

(** The public listing of the sample database leaves the pending event
    out and lists the newest post first. *)
Example public_listing_of_sample :
  Post.type <$> returned_posts (PostRoutes.getPosts Sample.env None Sample.db)
  = [VStr "confession"; VStr "showcase"].
Proof. vm_compute. reflexivity. Qed.

(** ** Documents and collections *)

Section Collections.

Implicit Types (p q : obj) (coll : list obj).

Lemma id_eq_true id v : Post.id_eq id v = true <-> v = VId id.
Proof.
  unfold Post.id_eq. destruct v; try (split; [discriminate|congruence]).
  rewrite N.eqb_eq. split; congruence.
Qed.

Lemma parse_validate id oid :
  ObjectId.parse id = Some oid -> ObjectId.validateMongoId id = true.
Proof.
  unfold ObjectId.parse, ObjectId.validateMongoId.
  destruct (String.length id =? 24)%nat; [|done]. by intros ->.
Qed.

Lemma findById_Some id coll p :
  Post.findById id coll = Some p ->
  exists oid, ObjectId.parse id = Some oid /\ get p "_id" = VId oid /\ In p coll.
Proof.
  unfold Post.findById. destruct (ObjectId.parse id) as [oid|]; [|done].
  intros [Hin Hid]%find_some. exists oid. by apply id_eq_true in Hid.
Qed.

Lemma findById_valid id coll p :
  Post.findById id coll = Some p -> ObjectId.validateMongoId id = true.
Proof. intros (oid & Hoid & _)%findById_Some. by eapply parse_validate. Qed.

Lemma same_id_has_id p q oid :
  get p "_id" = VId oid -> Post.same_id p q = Post.has_id oid q.
Proof. unfold Post.same_id. by intros ->. Qed.

Lemma find_write oid p' coll p :
  get p' "_id" = VId oid ->
  List.find (Post.has_id oid) coll = Some p ->
  List.find (Post.has_id oid) (Post.write p' coll) = Some p'.
Proof.
  intros Hid. unfold Post.write. induction coll as [|q coll IH]; [done|].
  cbn. rewrite (same_id_has_id _ _ _ Hid).
  destruct (Post.has_id oid q) eqn:Hq.
  - intros _. unfold Post.has_id at 1. rewrite Hid.
    by rewrite (proj2 (id_eq_true oid (VId oid)) eq_refl).
  - rewrite Hq. exact IH.
Qed.

Lemma findById_write id coll p p' :
  Post.findById id coll = Some p ->
  get p' "_id" = get p "_id" ->
  Post.findById id (Post.write p' coll) = Some p'.
Proof.
  intros Hfind Hid. destruct (findById_Some _ _ _ Hfind) as (oid & Hoid & Hp & _).
  unfold Post.findById in *. rewrite Hoid in *.
  eapply find_write; [congruence|done].
Qed.

Lemma Forall_write (P : obj -> Prop) p coll :
  P p -> Forall P coll -> Forall P (Post.write p coll).
Proof.
  intros Hp Hall. unfold Post.write. apply Forall_forall.
  intros q Hq. apply list_elem_of_In, in_map_iff in Hq as (q' & <- & Hq').
  destruct (Post.same_id p q'); [done|].
  rewrite Forall_forall in Hall. by apply Hall, list_elem_of_In.
Qed.

Lemma get_init_path_ne k k' v p :
  k <> k' -> get (Post.init_path k v p) k' = get p k'.
Proof.
  intros Hne. unfold Post.init_path.
  destruct (truthy (get p k)); [done|]. by apply get_insert_ne.
Qed.

Lemma get_init_path_truthy k v p :
  truthy (get p k) = true -> Post.init_path k v p = p.
Proof. unfold Post.init_path. by intros ->. Qed.

Lemma get_preSave env isModified p k :
  k ∉ hookPaths -> get (Post.preSave env isModified p) k = get p k.
Proof.
  intros Hk. unfold hookPaths in Hk.
  repeat (apply not_elem_of_cons in Hk as [? Hk]).
  unfold Post.preSave.
  repeat match goal with
         | |- context [if ?c then _ else _] => destruct c
         end;
    rewrite ?get_init_path_ne by done; rewrite ?get_insert_ne by done; done.
Qed.

End Collections.

(** ** Engagement *)

Section Engagement.

Implicit Types (p post : obj) (db : Db).

Lemma posts_notification_save n db :
  posts (default db (Notification.save n db)) = posts db.
Proof. unfold Notification.save. by destruct (Notification.valid n). Qed.

Lemma get_init_path_keep k k' v p :
  truthy (get p k) = true -> get (Post.init_path k' v p) k = get p k.
Proof.
  intros Hk. destruct (decide (k' = k)) as [->|Hne].
  - by rewrite get_init_path_truthy.
  - by apply get_init_path_ne.
Qed.

Ltac keep_init H :=
  repeat (rewrite get_init_path_keep by (first [exact H | keep_init H; exact H])).

(** The hook keeps every path that already holds a truthy value, the two
    comment counters apart. *)
Lemma get_preSave_keep env isModified p k :
  truthy (get p k) = true -> k <> "comments" -> k <> "commentCount" ->
  get (Post.preSave env isModified p) k = get p k.
Proof.
  intros Hk Hc Hcc. unfold Post.preSave.
  set (p1 := if isModified "commentData" then _ else p).
  set (p2 := if isModified "showcaseComments" then _ else p1).
  assert (get p2 k = get p k) as H2.
  { subst p1 p2. destruct (isModified "showcaseComments"), (isModified "commentData");
      by rewrite ?get_insert_ne. }
  rewrite <- H2 in *. clearbody p2. clear p1 H2.
  set (p3 := if is_str "showcase" (Post.type p2) then _ else _).
  assert (get p3 k = get p2 k) as H3.
  { subst p3. destruct (is_str "showcase" (Post.type p2)); by keep_init Hk. }
  rewrite <- H3 in *. clearbody p3.
  destruct (is_str "showcase" (Post.type p3)); [|done].
  by keep_init Hk.
Qed.

Lemma without_id_absent id xs :
  Post.includes_id id xs = false -> Post.without_id id xs = xs.
Proof.
  unfold Post.includes_id, Post.without_id. induction xs as [|x xs IH]; [done|].
  cbn. destruct (Post.id_eq id x); [done|]. cbn. intros Hxs. by rewrite IH.
Qed.

Lemma without_id_app id xs ys :
  Post.without_id id (xs ++ ys) = (Post.without_id id xs ++ Post.without_id id ys)%list.
Proof. unfold Post.without_id. apply List.filter_app. Qed.

Lemma includes_id_app id xs ys :
  Post.includes_id id (xs ++ ys) = Post.includes_id id xs || Post.includes_id id ys.
Proof. unfold Post.includes_id. apply List.existsb_app. Qed.

Lemma includes_without id xs : Post.includes_id id (Post.without_id id xs) = false.
Proof.
  unfold Post.includes_id, Post.without_id. induction xs as [|x xs IH]; [done|].
  cbn. destruct (Post.id_eq id x) eqn:Hx; cbn; [done|]. by rewrite Hx.
Qed.

(** One call of the upvote route on a showcase post of another user. *)
Lemma upvotePost_toggle env user id db post :
  Post.findById id (posts db) = Some post ->
  Post.type post = VStr "showcase" ->
  Post.owned_by user post = false ->
  exists body post',
    (PostRoutes.upvotePost env user id db).1 = Json 200 body
    /\ Post.findById id (posts (PostRoutes.upvotePost env user id db).2) = Some post'
    /\ posts (PostRoutes.upvotePost env user id db).2 = Post.write post' (posts db)
    /\ Post.type post' = VStr "showcase"
    /\ Post.owned_by user post' = false
    /\ Post.likes post' = Post.likes post
    /\ Post.commentCount post' = Post.commentCount post
    /\ if Post.includes_id (User._id user) (Post.upvoters post)
       then Post.upvotes post' = Z.max 0 (Post.upvotes post - 1)
            /\ Post.upvoters post' = Post.without_id (User._id user) (Post.upvoters post)
       else Post.upvotes post' = (Post.upvotes post + 1)%Z
            /\ Post.upvoters post' = (Post.upvoters post ++ [VId (User._id user)])%list.
Proof.
  intros Hfind Htype Howner. unfold PostRoutes.upvotePost.
  rewrite (findById_valid _ _ _ Hfind), Hfind, Htype, is_str_refl, Howner. cbn [negb].
  set (hasUpvoted := Post.includes_id (User._id user) (Post.upvoters post)).
  set (changed := if hasUpvoted then _ else _).
  assert (exists post1 db1, changed = (post1, db1) /\ posts db1 = posts db
     /\ get post1 "_id" = get post "_id" /\ get post1 "type" = get post "type"
     /\ get post1 "userId" = get post "userId" /\ get post1 "likes" = get post "likes"
     /\ get post1 "commentCount" = get post "commentCount"
     /\ truthy (get post1 "upvoters") = true
     /\ if hasUpvoted
        then get post1 "upvotes" = VNum (Z.max 0 (Post.upvotes post - 1))
             /\ get post1 "upvoters"
                = VArr (Post.without_id (User._id user) (Post.upvoters post))
        else get post1 "upvotes" = VNum (Post.upvotes post + 1)
             /\ get post1 "upvoters"
                = VArr (Post.upvoters post ++ [VId (User._id user)])%list)
    as (post1 & db1 & -> & Hposts & Hid & Hty & Hu & Hl & Hc & Htruthy & Hup).
  { subst changed. destruct hasUpvoted; eexists _, _; (split; [reflexivity|]);
      rewrite ?posts_notification_save; cbn [assign foldl fst snd];
      rewrite ?get_insert_eq; rewrite ?get_insert_ne by done; rewrite ?get_insert_eq;
      by repeat split. }
  cbn [fst snd posts with_posts]. rewrite Hposts.
  set (post' := Post.save env _ post1).
  assert (get post' "_id" = get post "_id") as Hid'.
  { subst post'. unfold Post.save. rewrite get_preSave; [done|compute_done]. }
  eexists _, post'. split; [reflexivity|].
  split; [by apply (findById_write _ _ post)|].
  split; [done|].
  assert (forall k, k ∉ hookPaths -> get post' k = get post1 k) as Hsame.
  { intros k Hk. subst post'. unfold Post.save. by apply get_preSave. }
  assert (get post' "upvoters" = get post1 "upvoters") as Hupv.
  { subst post'. unfold Post.save. by apply get_preSave_keep. }
  unfold Post.type, Post.owned_by, Post.likes, Post.upvotes, Post.upvoters in *.
  rewrite !Hsame, Hupv by compute_done.
  rewrite Hty, Hu, Hl. repeat (split; [done|]).
  split.
  - (* commentCount: not declared modified, so the hook leaves it *)
    subst post'. unfold Post.commentCount, Post.save, Post.preSave. cbn [Post.is_modified existsb].
    cbn [String.eqb Ascii.eqb Bool.eqb orb].
    repeat match goal with
           | |- context [if ?c then _ else _] => destruct c
           end; rewrite ?get_init_path_ne by done; by rewrite Hc.
  - destruct hasUpvoted; destruct Hup as [-> ->]; done.
Qed.

End Engagement.



(** C7.  Liking a post the acting user already likes is answered 400 and
    leaves the database, hence [likes] and [likedBy], as it was; so is
    upvoting a showcase post the acting user owns, for [upvotes] and
    [upvoters]. *)
Theorem repeated_like_and_own_upvote_rejected env user id db post :
  Post.findById id (posts db) = Some post ->
  (Post.includes_id (User._id user) (Post.likedBy post) = true ->
   PostRoutes.likePost env user id db
   = (Json 400 (message "You have already liked this post"), db))
  /\ (Post.type post = VStr "showcase" ->
      Post.owned_by user post = true ->
      PostRoutes.upvotePost env user id db
      = (Json 400 (failure "You cannot upvote your own post"), db)).
Proof.
  intros Hfind. split.
  - intros Hliked. unfold PostRoutes.likePost.
    by rewrite (findById_valid _ _ _ Hfind), Hfind, Hliked.
  - intros Htype Howner. unfold PostRoutes.upvotePost.
    by rewrite (findById_valid _ _ _ Hfind), Hfind, Htype, is_str_refl, Howner.
Qed.

Lemma repeated_like_and_own_upvote_rejected_witness :
  PostRoutes.likePost Sample.env Sample.alice Sample.showcase_id Sample.db
  = (Json 400 (message "You have already liked this post"), Sample.db)
  /\ PostRoutes.upvotePost Sample.env Sample.alice Sample.showcase_id Sample.db
     = (Json 400 (failure "You cannot upvote your own post"), Sample.db).
Proof.
  destruct (found_Some (Post.findById Sample.showcase_id (posts Sample.db)))
    as (post & Hfind); [vm_compute; reflexivity|].
  destruct (repeated_like_and_own_upvote_rejected Sample.env Sample.alice
              Sample.showcase_id Sample.db post Hfind) as [Hlike Hupvote].
  split.
  - apply Hlike.
    apply (of_found (fun p => Post.includes_id 1 (Post.likedBy p)) _ _ _ Hfind).
    vm_compute. reflexivity.
  - apply Hupvote.
    + apply (of_found Post.type _ _ _ Hfind). vm_compute. reflexivity.
    + apply (of_found (Post.owned_by Sample.alice) _ _ _ Hfind). vm_compute. reflexivity.
Defined.

(** ** Counters *)

Section Counters.

Implicit Types (p post : obj) (db : Db).

Lemma commentCount_preSave env isModified p :
  (0 <= Post.commentCount p)%Z ->
  (0 <= Post.commentCount (Post.preSave env isModified p))%Z.
Proof.
  intros Hc. unfold Post.commentCount, Post.preSave in *.
  repeat match goal with
         | |- context [if ?c then _ else _] => destruct c
         end;
    rewrite ?get_init_path_ne by done;
    rewrite ?get_insert_eq; rewrite ?get_insert_ne by done;
    cbn [to_num]; lia.
Qed.

Lemma nonnegative_preSave env isModified p :
  counters_nonnegative p -> counters_nonnegative (Post.preSave env isModified p).
Proof.
  intros (Hl & Hu & Hc). repeat split.
  - unfold Post.likes. by rewrite get_preSave by compute_done.
  - unfold Post.upvotes. by rewrite get_preSave by compute_done.
  - by apply commentCount_preSave.
Qed.

Lemma nonnegative_write id db post post' :
  Post.findById id (posts db) = Some post ->
  Forall counters_nonnegative (posts db) ->
  (counters_nonnegative post -> counters_nonnegative post') ->
  Forall counters_nonnegative (Post.write post' (posts db)).
Proof.
  intros (oid & _ & _ & Hin)%findById_Some Hall Hstep.
  apply Forall_write; [|done]. apply Hstep.
  rewrite Forall_forall in Hall. by apply Hall, list_elem_of_In.
Qed.

Ltac counters :=
  unfold counters_nonnegative, Post.likes, Post.upvotes, Post.commentCount in *;
  cbn [assign foldl fst snd];
  repeat first [rewrite get_insert_eq | rewrite get_insert_ne by done
               | rewrite get_init_path_ne by done];
  cbn [to_num]; repeat split; lia.

Lemma likePost_nonnegative env user id db :
  Forall counters_nonnegative (posts db) ->
  Forall counters_nonnegative (posts (PostRoutes.likePost env user id db).2).
Proof.
  intros Hall. unfold PostRoutes.likePost.
  destruct (ObjectId.validateMongoId id); [|done]. cbn [negb].
  destruct (Post.findById id (posts db)) as [post|] eqn:Hfind; [|done].
  destruct (Post.includes_id _ _); [done|]. cbn [snd posts with_posts].
  eapply nonnegative_write; [done..|]. intros Hpost.
  apply nonnegative_preSave. counters.
Qed.

Lemma unlikePost_nonnegative env user id db :
  Forall counters_nonnegative (posts db) ->
  Forall counters_nonnegative (posts (PostRoutes.unlikePost env user id db).2).
Proof.
  intros Hall. unfold PostRoutes.unlikePost.
  destruct (ObjectId.validateMongoId id); [|done]. cbn [negb].
  destruct (Post.findById id (posts db)) as [post|] eqn:Hfind; [|done].
  destruct (Post.includes_id _ _); [|done]. cbn [negb snd posts with_posts].
  eapply nonnegative_write; [done..|]. intros Hpost.
  apply nonnegative_preSave.
  destruct (0 <? Post.likes post)%Z eqn:Hpos; [apply Z.ltb_lt in Hpos|]; counters.
Qed.

Lemma upvotePost_nonnegative env user id db :
  Forall counters_nonnegative (posts db) ->
  Forall counters_nonnegative (posts (PostRoutes.upvotePost env user id db).2).
Proof.
  intros Hall.
  destruct (Post.findById id (posts db)) as [post|] eqn:Hfind;
    [|unfold PostRoutes.upvotePost; rewrite Hfind;
      by destruct (ObjectId.validateMongoId id)].
  destruct (is_str "showcase" (Post.type post)) eqn:Htype;
    [|unfold PostRoutes.upvotePost;
      by rewrite (findById_valid _ _ _ Hfind), Hfind, Htype].
  destruct (Post.owned_by user post) eqn:Howner;
    [unfold PostRoutes.upvotePost;
     by rewrite (findById_valid _ _ _ Hfind), Hfind, Htype, Howner|].
  apply is_str_true in Htype.
  destruct (upvotePost_toggle env user id db post Hfind Htype Howner)
    as (_ & post' & _ & _ & -> & _ & _ & Hl & Hc & Hup).
  eapply nonnegative_write; [done..|]. intros (? & ? & ?).
  unfold counters_nonnegative. rewrite Hl, Hc.
  destruct (Post.includes_id _ _); destruct Hup as [-> _]; repeat split; lia.
Qed.

Lemma addShowcaseComment_nonnegative env user id body db :
  Forall counters_nonnegative (posts db) ->
  Forall counters_nonnegative
    (posts (PostRoutes.addShowcaseComment env user id body db).2).
Proof.
  intros Hall. unfold PostRoutes.addShowcaseComment.
  destruct (ObjectId.validateMongoId id); [|done]. cbn [negb].
  destruct (PostRoutes.validateText _ _ _) as [[|]|]; [|done..].
  destruct (Post.findById id (posts db)) as [post|] eqn:Hfind; [|done].
  destruct (is_str "showcase" (Post.type post)); [|done].
  cbn [negb fresh_id snd posts with_posts].
  match goal with
  | |- Forall _ (posts (if ?c then default ?d ?n else ?d)) =>
      assert (posts (if c then default d n else d) = posts d) as ->
        by (destruct c; [apply posts_notification_save|done])
  end.
  cbn [posts with_posts].
  eapply nonnegative_write; [done..|]. intros Hpost.
  apply nonnegative_preSave. counters.
Qed.

Lemma call_method_nonnegative method id db :
  (forall post, counters_nonnegative post -> counters_nonnegative (method post)) ->
  Forall counters_nonnegative (posts db) ->
  Forall counters_nonnegative (posts (call_method method id db)).
Proof.
  intros Hmethod Hall. unfold call_method.
  destruct (Post.findById id (posts db)) as [post|] eqn:Hfind; [|done].
  cbn [posts with_posts]. eapply nonnegative_write; [done..|]. apply Hmethod.
Qed.

Lemma addUpvote_nonnegative env userId post :
  counters_nonnegative post -> counters_nonnegative (Post.addUpvote env userId post).
Proof.
  intros Hpost. unfold Post.addUpvote. destruct (negb _); [|done].
  apply nonnegative_preSave. counters.
Qed.

Lemma removeUpvote_nonnegative env userId post :
  counters_nonnegative post -> counters_nonnegative (Post.removeUpvote env userId post).
Proof.
  intros Hpost. unfold Post.removeUpvote. destruct (Post.includes_id _ _); [|done].
  apply nonnegative_preSave. counters.
Qed.

Lemma addShowcaseComment_method_nonnegative env comment post :
  counters_nonnegative post ->
  counters_nonnegative (Post.addShowcaseComment env comment post).
Proof.
  intros Hpost. unfold Post.addShowcaseComment.
  apply nonnegative_preSave. counters.
Qed.

Lemma removeShowcaseComment_nonnegative env commentId post :
  counters_nonnegative post ->
  counters_nonnegative (Post.removeShowcaseComment env commentId post).
Proof.
  intros Hpost. unfold Post.removeShowcaseComment.
  destruct (negb _); [done|]. destruct (existsb _ _); [|done].
  apply nonnegative_preSave. counters.
Qed.

Lemma perform_nonnegative env user id op db :
  Forall counters_nonnegative (posts db) ->
  Forall counters_nonnegative (posts (perform env user id op db)).
Proof.
  destruct op; cbn [perform].
  - apply likePost_nonnegative.
  - apply unlikePost_nonnegative.
  - apply upvotePost_nonnegative.
  - apply addShowcaseComment_nonnegative.
  - apply call_method_nonnegative, addUpvote_nonnegative.
  - apply call_method_nonnegative, removeUpvote_nonnegative.
  - apply call_method_nonnegative, addShowcaseComment_method_nonnegative.
  - apply call_method_nonnegative, removeShowcaseComment_nonnegative.
Qed.

End Counters.



(** ** Creating posts *)

Section Creating.

Implicit Types (body data : obj) (db : Db).

(** What an accepted creation leaves behind. *)
Lemma createPost_accepted env user body db :
  succeeded (PostRoutes.createPost env user body db).1 = true ->
  exists createdPost,
    Post.validate (PostRoutes.newPostData env user body) = []
    /\ createdPost
       = Post.preSave env
           (fun k => Post.defined (get (PostRoutes.newPostData env user body) k))
           (<["_id" := VId (next_id db)]> (PostRoutes.newPostData env user body))
    /\ http_status (PostRoutes.createPost env user body db).1 = 201%nat
    /\ posts (PostRoutes.createPost env user body db).2
       = (posts db ++ [createdPost])%list.
Proof.
  unfold PostRoutes.createPost.
  destruct (negb (truthy (get body "type")) || _ || _); [done|].
  destruct (negb (PostRoutes.validatePostType _)); [done|].
  destruct (PostRoutes.validateText (get body "title") 1 100) as [[|]|]; [|done..].
  destruct (PostRoutes.validateText (get body "content") 1 1000) as [[|]|]; [|done..].
  destruct (is_str "showcase" (get body "type") && _); [done|].
  destruct (Post.validate _) eqn:Hvalid; [|done].
  intros _. eexists. unfold fresh_id.
  cbn [fst snd posts with_posts http_status errorHandler].
  split; [done|]. split; [reflexivity|]. by split.
Qed.

(** A refused creation leaves the database as it was. *)
Lemma createPost_refused env user body db :
  succeeded (PostRoutes.createPost env user body db).1 = false ->
  (PostRoutes.createPost env user body db).2 = db.
Proof.
  unfold PostRoutes.createPost.
  destruct (negb (truthy (get body "type")) || _ || _); [done|].
  destruct (negb (PostRoutes.validatePostType _)); [done|].
  destruct (PostRoutes.validateText (get body "title") 1 100) as [[|]|]; [|done..].
  destruct (PostRoutes.validateText (get body "content") 1 1000) as [[|]|]; [|done..].
  destruct (is_str "showcase" (get body "type") && _); [done|].
  by destruct (Post.validate _).
Qed.

Lemma validateText_text text min max :
  is_text text -> PostRoutes.validateText text min max <> None.
Proof.
  destruct text; try done; intros _; unfold PostRoutes.validateText;
    by destruct (negb _).
Qed.

End Creating.



(** On a server running in UTC the deadline is the epoch millisecond
    1761955199000; in India (UTC+5:30) it falls five and a half hours
    earlier. *)
Example deadline_instants :
  PostRoutes.SUBMISSION_DEADLINE Sample.env = 1761955199000%Z
  /\ local_time 330 2025 10 31 23 59 59 = (1761955199000 - 330 * 60000)%Z
  /\ days_from_civil 1970 1 1 = 0%Z.
Proof. repeat split; vm_compute; reflexivity. Qed.

(** At the last millisecond of the deadline a showcase submission is
    still accepted. *)
Example showcase_at_deadline_accepted :
  http_status
    (PostRoutes.createPost Sample.env_open Sample.alice
       (object [("type", VStr "showcase"); ("title", VStr "Campus rides");
                ("content", VStr "Ride sharing for students")])
       Sample.db).1 = 201%nat.
Proof. vm_compute. reflexivity. Qed.

(** ** The object the create handler builds *)

Section NewPostData.

Implicit Types (body o : obj) (k : string).

Lemma get_assign_congr kvs o o' k :
  get o k = get o' k -> get (assign kvs o) k = get (assign kvs o') k.
Proof.
  revert o o'. induction kvs as [|[k' v] kvs IH]; intros o o' Hk; [done|].
  change (get (assign kvs (<[k' := v]> o)) k = get (assign kvs (<[k' := v]> o')) k).
  apply IH. destruct (decide (k' = k)) as [->|Hne].
  - by rewrite !get_insert_eq.
  - by rewrite !get_insert_ne.
Qed.

Lemma get_assign_undefine2 ks kvs kvs' o k :
  k ∈ ks -> get (assign (kvs ++ kvs' ++ PostRoutes.undefine ks) o) k = VUndefined.
Proof. intros Hk. rewrite app_assoc. by apply get_assign_undefine. Qed.

Lemma omit_insert ks o k v : k ∈ ks -> omit ks (<[k := v]> o) = omit ks o.
Proof.
  intros Hk. apply map_eq. intros k'. rewrite !lookup_omit.
  destruct (decide (k' ∈ ks)) as [|Hnin]; [done|].
  apply lookup_insert_ne. by intros ->.
Qed.

(** The cleared paths read [undefined] in the object handed to the model. *)
Lemma newPostData_cleared env user body k :
  k ∈ clearedPaths (Create body) (get body "type") ->
  get (PostRoutes.newPostData env user body) k = VUndefined.
Proof.
  unfold clearedPaths, PostRoutes.newPostData.
  destruct (is_str "event" (get body "type")).
  { apply get_assign_undefine2. }
  destruct (is_str "culturalEvent" (get body "type")).
  { apply get_assign_undefine2. }
  destruct (is_str "showcase" (get body "type")); apply get_undefine.
Qed.

(** The type of the object is the declared one. *)
Lemma newPostData_type env user body :
  get (PostRoutes.newPostData env user body) "type" = get body "type".
Proof.
  unfold PostRoutes.newPostData.
  set (qr := if is_str "event" (get body "type") && _ then _ else _).
  set (data := assign _ (omit _ body)).
  assert (get data "type" = get body "type") as Hdata.
  { subst data. cbn [assign foldl fst snd].
    rewrite !get_insert_ne by done. apply get_insert_eq. }
  set (data' := if is_str "showcase" (get body "type") then _ else data).
  assert (get data' "type" = get body "type") as Hdata'.
  { subst data'. destruct (is_str "showcase" _); [|done].
    by rewrite get_assign_notin by compute_done. }
  clearbody data' qr. clear data Hdata.
  repeat match goal with
         | |- context [if ?c then _ else _] => destruct c
         end;
    by rewrite get_assign_notin by compute_done.
Qed.

(** Adding [availableDates] to a payload changes the object at that path
    only. *)
Lemma newPostData_availableDates env user body dates k :
  body !! "availableDates" = None ->
  k <> "availableDates" ->
  get (PostRoutes.newPostData env user (<["availableDates" := dates]> body)) k
  = get (PostRoutes.newPostData env user body) k.
Proof.
  intros Hnone Hk. unfold PostRoutes.newPostData.
  rewrite omit_insert by compute_done.
  rewrite !(get_insert_ne body "availableDates") by done.
  rewrite get_insert_eq.
  assert (get body "availableDates" = VUndefined) as -> by (unfold get; by rewrite Hnone).
  destruct (is_str "event" (get body "type")); [done|].
  destruct (is_str "culturalEvent" (get body "type")); [|done].
  rewrite !assign_app. apply get_assign_congr.
  cbn [assign foldl fst snd].
  assert ("availableDates" <> k) as Hk' by (by intros <-).
  by rewrite (get_insert_ne _ "availableDates" k dates Hk'),
             (get_insert_ne _ "availableDates" k VUndefined Hk').
Qed.

Lemma newPostData_dates_stored env user body dates :
  get body "type" = VStr "culturalEvent" ->
  get (PostRoutes.newPostData env user (<["availableDates" := dates]> body))
    "availableDates" = dates.
Proof.
  intros Htype. unfold PostRoutes.newPostData.
  rewrite !(get_insert_ne body "availableDates") by done.
  rewrite get_insert_eq, Htype.
  change (is_str "event" (VStr "culturalEvent")) with false.
  change (is_str "culturalEvent" (VStr "culturalEvent")) with true.
  cbn [andb]. rewrite !assign_app.
  rewrite get_assign_notin by compute_done.
  cbn [assign foldl fst snd]. apply get_insert_eq.
Qed.

(** Validation reads the validated paths only. *)
Lemma validate_agree d d' :
  (forall k, k <> "availableDates" -> get d k = get d' k) ->
  Post.validate d = Post.validate d'.
Proof.
  intros Hagree. unfold Post.validate. f_equal. apply filter_ext_in.
  intros c Hc. f_equal. unfold Post.validators in Hc.
  repeat (destruct Hc as [<-|Hc]; [cbn [snd]; by rewrite !Hagree by done|]).
  destruct Hc.
Qed.

End NewPostData.

Lemma created_succeeded r : http_status r = 201%nat -> succeeded r = true.
Proof. destruct r as [status body| |]; cbn; [by intros ->|done..]. Qed.




(** With one available date the sample cultural event is accepted and the
    stored document holds that one date. *)
Example cultural_event_with_one_date :
  let result :=
    PostRoutes.createPost Sample.env Sample.alice
      (<["availableDates" := VArr [VStr "2025-12-01"]]> Sample.cultural_body)
      Sample.db in
  http_status result.1 = 201%nat
  /\ get (newest (posts result.2)) "availableDates" = VArr [VStr "2025-12-01"]
  /\ length (elements (get (newest (posts result.2)) "availableDates")) = 1%nat.
Proof. repeat split; vm_compute; reflexivity. Qed.

(** A ticket option written with the keys [type] and [price] fails the
    required [ticketType] and [ticketPrice] of the ticket sub-schema: such
    a payload is refused with and without available dates. *)
Example ticket_keys_type_and_price_refused :
  let body :=
    <["ticketOptions" :=
        VArr [VObj (object [("type", VStr "General"); ("price", VNum 100)])]]>
      Sample.cultural_body in
  http_status (PostRoutes.createPost Sample.env Sample.alice body Sample.db).1 = 400%nat
  /\ http_status
       (PostRoutes.createPost Sample.env Sample.alice
          (<["availableDates" := VArr [VStr "2025-12-01"]]> body) Sample.db).1
     = 400%nat.
Proof. repeat split; vm_compute; reflexivity. Qed.

(** ** Clean-up on save *)

Section CleanUp.

Implicit Types (body post o : obj) (k : string).

Lemma cleared_outside_hook w type k :
  k ∈ clearedPaths w type -> (k ∉ hookPaths) /\ k <> "_id" /\ k <> "type".
Proof.
  unfold clearedPaths, culturalPaths, eventOnlyPaths, PostRoutes.eventAndCulturalPaths.
  intros Hk.
  destruct (is_str "event" type), (is_str "culturalEvent" type), w;
    repeat (apply elem_of_cons in Hk as [->|Hk];
            [split; [compute_done|split; done]|]);
    by apply elem_of_nil in Hk.
Qed.

Lemma get_undefine_notin ks o k :
  k ∉ ks -> get (assign (PostRoutes.undefine ks) o) k = get o k.
Proof. intros Hk. apply get_assign_notin. by rewrite undefine_keys. Qed.

(** The document the update handler saves has its type's cleared paths
    undefined and keeps the identity of the loaded document. *)
Lemma updatedPost_cleared env user post body id k :
  k ∈ clearedPaths (Update id body) (Post.type (PostRoutes.updatedPost env user post body)) ->
  get (PostRoutes.updatedPost env user post body) k = VUndefined.
Proof.
  unfold PostRoutes.updatedPost.
  set (post3 := if is_str "event" (Post.type _) && _ then _ else _).
  clearbody post3. unfold clearedPaths, eventOnlyPaths, Post.type.
  destruct (is_str "event" (get post3 "type")) eqn:Hevent.
  { rewrite get_undefine_notin by compute_done. rewrite Hevent. apply get_undefine. }
  destruct (is_str "culturalEvent" (get post3 "type")) eqn:Hcultural.
  { rewrite get_undefine_notin by compute_done. rewrite Hevent, Hcultural.
    apply get_undefine. }
  destruct (is_str "showcase" (get post3 "type"));
    rewrite get_undefine_notin by compute_done; rewrite Hevent, Hcultural;
    apply get_undefine.
Qed.

Lemma updatedPost_id env user post body :
  get (PostRoutes.updatedPost env user post body) "_id" = get post "_id".
Proof.
  unfold PostRoutes.updatedPost.
  set (withImages := if negb (is_undefined (get body "images")) then _ else post).
  assert (get withImages "_id" = get post "_id") as Himages.
  { subst withImages. destruct (negb _); [|done]. by rewrite get_insert_ne. }
  set (post1 := delete "_id" _ ∪ withImages).
  assert (get post1 "_id" = get post "_id") as H1.
  { subst post1. rewrite <- Himages. unfold get.
    rewrite lookup_union_r; [done|apply lookup_delete_eq]. }
  clearbody post1. clear withImages Himages.
  set (post2 := if User.isAdmin user && _ then _ else post1).
  assert (get post2 "_id" = get post "_id") as H2.
  { subst post2. destruct (_ && _); [|done]. by rewrite get_insert_ne. }
  clearbody post2. clear post1 H1.
  set (post3 := if is_str "event" (Post.type post2) && _ then _ else _).
  assert (get post3 "_id" = get post "_id") as H3.
  { subst post3. repeat match goal with
                        | |- context [if ?c then _ else _] => destruct c
                        end; by rewrite ?get_insert_ne. }
  clearbody post3. clear post2 H2.
  repeat match goal with
         | |- context [if ?c then _ else _] => destruct c
         end; by rewrite get_undefine_notin by compute_done.
Qed.

(** What an accepted update leaves behind. *)
Lemma updatePost_accepted env user id body db :
  succeeded (PostRoutes.updatePost env user id body db).1 = true ->
  exists old saved,
    Post.findById id (posts db) = Some old
    /\ saved
       = Post.preSave env
           (fun k => Post.defined (get (PostRoutes.updateObject old body) k))
           (PostRoutes.updatedPost env user old body)
    /\ posts (PostRoutes.updatePost env user id body db).2 = Post.write saved (posts db).
Proof.
  unfold PostRoutes.updatePost.
  destruct (negb (ObjectId.validateMongoId id)); [done|].
  destruct (Post.findById id (posts db)) as [old|]; [|done].
  destruct (negb (Post.owned_by user old) && _); [done|].
  destruct (truthy (get body "type") && _); [done|].
  destruct (if truthy (get body "title") then _ else _) as [[|]|]; [|done..].
  destruct (if truthy (get body "content") then _ else _) as [[|]|]; [|done..].
  destruct (Post.validate _); [|done].
  intros _. by eexists _, _.
Qed.

End CleanUp.




(** The ticket options an update sends survive a change of type from
    cultural event to event: the event branch of the update handler does
    not clear [ticketOptions], the event branch of the create handler
    does. *)
Example retyped_event_keeps_ticketOptions :
  let festival := <["_id" := VId 19]> (PostRoutes.newPostData Sample.env Sample.alice
                                          Sample.cultural_body) in
  let db := with_posts (fun l => l ++ [festival])%list Sample.db in
  let body :=
    object [("type", VStr "event");
            ("ticketOptions", get Sample.cultural_body "ticketOptions")] in
  let result := PostRoutes.updatePost Sample.env Sample.alice
                  "000000000000000000000013" body db in
  http_status result.1 = 200%nat
  /\ Post.type <$> Post.findById "000000000000000000000013" (posts result.2)
     = Some (VStr "event")
  /\ (fun doc => length (elements (get doc "ticketOptions")))
       <$> Post.findById "000000000000000000000013" (posts result.2)
     = Some 1%nat.
Proof. intros festival db body result. repeat split; vm_compute; reflexivity. Qed.

(** ** Registration *)

Section Registering.

Implicit Types (db : Db) (r : obj).

Lemma findOne_found eventId eid userId coll r :
  ObjectId.parse eventId = Some eid ->
  In r coll ->
  get r "eventId" = VId eid ->
  get r "userId" = VId userId ->
  exists found, Registration.findOne eventId userId coll = Some found.
Proof.
  intros Hparse Hin Hevent Huser. unfold Registration.findOne. rewrite Hparse.
  destruct (List.find _ coll) as [found|] eqn:Hfind; [by exists found|].
  apply (find_none _ _ Hfind) in Hin. rewrite Hevent, Huser in Hin.
  cbn in Hin. by rewrite !N.eqb_refl in Hin.
Qed.

Lemma validate_parse id :
  ObjectId.validateMongoId id = true -> exists oid, ObjectId.parse id = Some oid.
Proof.
  unfold ObjectId.validateMongoId, ObjectId.parse.
  destruct (String.length id =? 24)%nat; [|done].
  destruct (ObjectId.parse_hex id 0) as [oid|]; [by exists oid|done].
Qed.

Lemma registrations_notification_save n db db' :
  Notification.save n db = Some db' -> registrations db' = registrations db.
Proof.
  unfold Notification.save. destruct (Notification.valid n); [|done].
  by intros [= <-].
Qed.

(** An accepted registration is recorded for the event and the user. *)
Lemma registerEvent_recorded env user eventId body db :
  succeeded (UserRoutes.registerEvent env user eventId body db).1 = true ->
  exists eid r,
    ObjectId.parse eventId = Some eid
    /\ In r (registrations (UserRoutes.registerEvent env user eventId body db).2)
    /\ get r "eventId" = VId eid
    /\ get r "userId" = VId (User._id user).
Proof.
  unfold UserRoutes.registerEvent.
  destruct (ObjectId.validateMongoId eventId) eqn:Hvalid; [|done]. cbn [negb].
  destruct (validate_parse _ Hvalid) as (eid & Hparse).
  destruct (Post.findById eventId (posts db)) as [event|]; [|done].
  destruct (Registration.findOne _ _ _); [done|].
  destruct (negb (truthy (get body "name")) || _); [done|].
  unfold Registration.create. destruct (Registration.valid _); [|done].
  unfold fresh_id. cbn [fst snd].
  set (doc := assign [("_id", _); ("createdAt", _)] _).
  set (db1 := with_registrations _ _).
  destruct (match match get event "userId" with VId _ => _ | _ => _ end with
            | Some creator => _ | None => Some db1 end) as [db2|] eqn:Hnotified;
    [|done].
  intros _. exists eid, doc. split; [done|]. cbn [snd].
  assert (registrations db2 = registrations db1) as ->.
  { destruct (match get event "userId" with VId _ => _ | _ => _ end);
      [by eapply registrations_notification_save|by injection Hnotified as <-]. }
  subst db1 doc. cbn [registrations with_registrations]. split.
  - apply in_or_app. right. by left.
  - unfold ObjectId.cast. rewrite Hparse. cbn [assign foldl fst snd object].
    rewrite !get_insert_ne by done. by rewrite get_insert_eq.
Qed.

End Registering.

(** C3, as stated, fails on the status: a registration can outlive its
    post (the delete handler removes registrations of events only, the
    registration handler accepts any post), and a second attempt is then
    refused for the missing event, with the status set to 404. *)
Lemma orphaned_registration_refused_with_404 :
  let registered :=
    (UserRoutes.registerEvent Sample.env Sample.bob Sample.confession_id
       Sample.registration_body Sample.db).2 in
  let deleted :=
    (PostRoutes.deletePost Sample.alice Sample.confession_id registered).2 in
  let again :=
    UserRoutes.registerEvent Sample.env Sample.bob Sample.confession_id
      Sample.registration_body deleted in
  length (registrations deleted) = 1%nat
  /\ get (oldest (registrations deleted)) "eventId" = ObjectId.cast Sample.confession_id
  /\ get (oldest (registrations deleted)) "userId" = VId (User._id Sample.bob)
  /\ again.1 = Raise 404 "Event not found"
  /\ http_status again.1 <> 400%nat
  /\ length (registrations again.2) = 1%nat.
Proof.
  intros registered deleted again.
  repeat split; vm_compute; first [reflexivity | discriminate].
Qed.

(** The duplicate guard of the registration handler. *)
Lemma registerEvent_duplicate env user eventId body db eid r :
  ObjectId.parse eventId = Some eid ->
  In r (registrations db) ->
  get r "eventId" = VId eid ->
  get r "userId" = VId (User._id user) ->
  UserRoutes.registerEvent env user eventId body db
  = (match Post.findById eventId (posts db) with
     | Some _ => Raise 400 "You are already registered for this event"
     | None => Raise 404 "Event not found"
     end, db).
Proof.
  intros Hparse Hin Hevent Huser.
  destruct (findOne_found _ _ _ _ _ Hparse Hin Hevent Huser) as (found & Hfound).
  unfold UserRoutes.registerEvent.
  rewrite (parse_validate _ _ Hparse). cbn [negb].
  destruct (Post.findById eventId (posts db)); [|done].
  by rewrite Hfound.
Qed.

(** C3, amended.  When a registration of the user for the event exists,
    the handler refuses the attempt by throwing, with the status set to
    400 if the event's post exists and to 404 if it does not, and leaves
    the database, hence the Registration collection, as it was. *)
Theorem duplicate_registration_refused env user eventId body db eid r :
  ObjectId.parse eventId = Some eid ->
  In r (registrations db) ->
  get r "eventId" = VId eid ->
  get r "userId" = VId (User._id user) ->
  let result := UserRoutes.registerEvent env user eventId body db in
  result.2 = db
  /\ result.1
     = match Post.findById eventId (posts db) with
       | Some _ => Raise 400 "You are already registered for this event"
       | None => Raise 404 "Event not found"
       end.
Proof.
  intros Hparse Hin Hevent Huser result. subst result.
  by rewrite (registerEvent_duplicate _ _ _ _ _ _ _ Hparse Hin Hevent Huser).
Qed.

Lemma duplicate_registration_refused_witness :
  let registered :=
    (UserRoutes.registerEvent Sample.env Sample.bob Sample.event_id
       Sample.registration_body Sample.db).2 in
  let result :=
    UserRoutes.registerEvent Sample.env Sample.bob Sample.event_id
      Sample.registration_body registered in
  result.2 = registered
  /\ result.1
     = match Post.findById Sample.event_id (posts registered) with
       | Some _ => Raise 400 "You are already registered for this event"
       | None => Raise 404 "Event not found"
       end.
Proof.
  intros registered.
  destruct (oldest_cons (fun r => get r "eventId") (registrations registered) (VId 17))
    as (r & Hin & Hevent);
    [apply nonempty_length; vm_compute; discriminate|vm_compute; reflexivity|].
  apply (duplicate_registration_refused Sample.env Sample.bob Sample.event_id
           Sample.registration_body registered 17%N r);
    [vm_compute; reflexivity|exact Hin|exact Hevent|].
  destruct (registrations registered) as [|r' rest] eqn:Hregs; [destruct Hin|].
  assert (length (r' :: rest) = 1%nat) as Hone
    by (rewrite <- Hregs; vm_compute; reflexivity).
  destruct rest; [|discriminate Hone]. destruct Hin as [<-|[]].
  change r' with (oldest [r']). rewrite <- Hregs. vm_compute. reflexivity.
Defined.

(** Registration succeeds at most once: after an accepted registration
    every further attempt of the same user for the same event is refused
    and changes nothing. *)
Corollary registration_succeeds_at_most_once env env' user eventId body body' db :
  let first := UserRoutes.registerEvent env user eventId body db in
  succeeded first.1 = true ->
  let second := UserRoutes.registerEvent env' user eventId body' first.2 in
  succeeded second.1 = false /\ second.2 = first.2.
Proof.
  intros first Hfirst second.
  destruct (registerEvent_recorded _ _ _ _ _ Hfirst) as (eid & r & Hparse & Hin & He & Hu).
  subst second.
  rewrite (registerEvent_duplicate env' user eventId body' first.2 eid r Hparse Hin He Hu).
  split; [|done]. by destruct (Post.findById eventId (posts first.2)).
Qed.

(** The first registration succeeds, the second is refused, and the error
    middleware answers the refusal with 500 whatever status the handler
    set. *)
Example duplicate_registration_answered_500 :
  let first :=
    UserRoutes.registerEvent Sample.env Sample.bob Sample.event_id
      Sample.registration_body Sample.db in
  let second :=
    UserRoutes.registerEvent Sample.env Sample.bob Sample.event_id
      Sample.registration_body first.2 in
  http_status first.1 = 201%nat
  /\ length (registrations first.2) = 1%nat
  /\ second.1 = Raise 400 "You are already registered for this event"
  /\ http_status second.1 = 500%nat
  /\ length (registrations second.2) = 1%nat.
Proof. repeat split; vm_compute; reflexivity. Qed.

(** ** Deleting posts *)

(** C5: the delete route removes the event and its registrations and
    leaves the notification that references the event in place. *)
Lemma delete_event_leaves_notification :
  let registered :=
    (UserRoutes.registerEvent Sample.env Sample.bob Sample.event_id
       Sample.registration_body Sample.db).2 in
  let deleted := PostRoutes.deletePost Sample.alice Sample.event_id registered in
  (length (notifications registered) = 1%nat
   /\ get (oldest (notifications registered)) "postId" = ObjectId.cast Sample.event_id
   /\ length (registrations registered) = 1%nat
   /\ found (Post.findById Sample.event_id (posts registered)) = true)
  /\ http_status deleted.1 = 200%nat
  /\ found (Post.findById Sample.event_id (posts deleted.2)) = false
  /\ length (registrations deleted.2) = 0%nat
  /\ length (notifications deleted.2) = 1%nat
  /\ get (oldest (notifications deleted.2)) "postId" = ObjectId.cast Sample.event_id.
Proof. intros registered deleted. repeat split; vm_compute; reflexivity. Qed.

Lemma find_deleteOne oid post coll :
  get post "_id" = VId oid ->
  List.find (Post.has_id oid) (Post.deleteOne post coll) = None.
Proof.
  intros Hid. unfold Post.deleteOne.
  induction coll as [|q coll IH]; [done|]. cbn [List.filter].
  rewrite (same_id_has_id _ _ _ Hid).
  destruct (Post.has_id oid q) eqn:Hq; cbn [negb]; [done|].
  cbn [List.find]. by rewrite Hq.
Qed.

(** What the delete route does remove: the post, and for an event or a
    cultural event every registration whose [eventId] is the post. *)
Lemma deletePost_cascade user id db post :
  Post.findById id (posts db) = Some post ->
  Post.owned_by user post = true \/ User.isAdmin user = true ->
  let result := PostRoutes.deletePost user id db in
  http_status result.1 = 200%nat
  /\ Post.findById id (posts result.2) = None
  /\ (is_str "event" (Post.type post) || is_str "culturalEvent" (Post.type post) = true ->
      Registration.find id (registrations result.2) = []).
Proof.
  intros Hfind Hauth result. subst result.
  destruct (findById_Some _ _ _ Hfind) as (oid & Hparse & Hid & _).
  unfold PostRoutes.deletePost.
  rewrite (findById_valid _ _ _ Hfind), Hfind. cbn [negb].
  assert (negb (Post.owned_by user post) && negb (User.isAdmin user) = false) as ->.
  { destruct Hauth as [-> | ->]; [done|]. apply andb_false_r. }
  rewrite Hid. split; [done|]. unfold Post.findById, Registration.find. rewrite Hparse.
  destruct (is_str "event" (Post.type post) || _);
    cbn [snd posts registrations with_posts with_registrations];
    (split; [by apply find_deleteOne|]); [intros _|done].
  unfold Post.find_by, Post.deleteMany.
  induction (registrations db) as [|r regs IH]; [done|]. cbn [List.filter].
  destruct (Post.id_eq oid (get r "eventId")) eqn:Hr; cbn [negb]; [done|].
  cbn [List.filter]. by rewrite Hr.
Qed.

(** The delete route never writes the Notification collection; the
    admin route deletes the notifications whose [postId] is the post. *)
Lemma deletePost_notifications user id db :
  notifications (PostRoutes.deletePost user id db).2 = notifications db.
Proof.
  unfold PostRoutes.deletePost.
  destruct (negb (ObjectId.validateMongoId id)); [done|].
  destruct (Post.findById id (posts db)) as [post|]; [|done].
  destruct (negb (Post.owned_by user post) && _); [done|].
  destruct (is_str "event" (Post.type post) || _); [|done].
  by destruct (get post "_id").
Qed.

Lemma adminDeletePost_notifications user id db oid n :
  succeeded (UserRoutes.adminDeletePost user id db).1 = true ->
  ObjectId.parse id = Some oid ->
  In n (notifications (UserRoutes.adminDeletePost user id db).2) ->
  get n "postId" <> VId oid.
Proof.
  unfold UserRoutes.adminDeletePost, UserRoutes.admin.
  destruct (User.isAdmin user); [|done].
  destruct (negb (ObjectId.validateMongoId id)); [done|].
  destruct (Post.findById id (posts db)) as [post|]; [|done].
  intros _ ->. cbn [snd notifications with_registrations with_notifications].
  unfold Post.deleteMany. intros [_ Hn]%filter_In Heq.
  rewrite Heq in Hn. cbn in Hn. by rewrite N.eqb_refl in Hn.
Qed.

(** ** CSV export *)

Section CsvExport.

Implicit Types (reg event : obj) (regs : list obj).

Lemma length_flatten env event reg :
  length (UserRoutes.flatten env event reg)
  = if is_str "culturalEvent" (Post.type event)
    then Nat.max 1 (length (tickets reg)) else 1%nat.
Proof.
  unfold UserRoutes.flatten, tickets.
  destruct (is_str "culturalEvent" (Post.type event)); [|done]. cbn [andb].
  destruct (get reg "selectedTickets") as [| |b|n|s|o|ms|xs|kvs];
    cbn [elements length Nat.ltb Nat.leb]; rewrite ?andb_false_r; try done.
  destruct xs as [|ticket rest]; [done|].
  cbn [truthy andb length Nat.ltb Nat.leb]. by rewrite List.length_map.
Qed.

Lemma length_flattenedData env event regs :
  length (UserRoutes.flattenedData env event regs)
  = if is_str "culturalEvent" (Post.type event)
    then ticket_rows regs else length regs.
Proof.
  unfold UserRoutes.flattenedData, ticket_rows, sum_nat.
  induction regs as [|reg regs IH]; [by destruct (is_str _ _)|].
  cbn [List.map List.concat foldr length]. rewrite length_app, length_flatten.
  destruct (is_str "culturalEvent" (Post.type event)); by rewrite IH.
Qed.

Lemma ticket_rows_pairs regs :
  (forall reg, In reg regs -> tickets reg <> []) -> ticket_rows regs = ticket_pairs regs.
Proof.
  unfold ticket_rows, ticket_pairs, sum_nat.
  induction regs as [|reg regs IH]; [done|].
  intros Hall. cbn [List.map foldr].
  rewrite IH by (intros ? ?; apply Hall; by right).
  specialize (Hall reg (or_introl eq_refl)).
  destruct (tickets reg); [done|]. cbn [length]. lia.
Qed.

Lemma elem_of_add_header key headers column :
  column ∈ UserRoutes.add_header key headers <-> column ∈ headers \/ column = key.
Proof.
  unfold UserRoutes.add_header.
  destruct (existsb (String.eqb key) headers) eqn:Hkey.
  - apply existsb_exists in Hkey as (h & Hh & ->%String.eqb_eq).
    apply list_elem_of_In in Hh. split; [by left|]. by intros [?| ->].
  - rewrite elem_of_app, list_elem_of_singleton. done.
Qed.

Lemma elem_of_add_headers keys headers column :
  column ∈ foldl (fun hs key => UserRoutes.add_header key hs) headers keys
  <-> column ∈ headers \/ column ∈ keys.
Proof.
  revert headers. induction keys as [|key keys IH]; intros headers; cbn [foldl].
  - rewrite elem_of_nil. tauto.
  - rewrite IH, elem_of_add_header, elem_of_cons. tauto.
Qed.

Lemma elem_of_headers_from regs headers column :
  column ∈ foldl (fun hs reg =>
                    foldl (fun hs key => UserRoutes.add_header key hs) hs
                      (UserRoutes.customKeys reg)) headers regs
  <-> column ∈ headers
      \/ exists reg, In reg regs /\ column ∈ UserRoutes.customKeys reg.
Proof.
  revert headers. induction regs as [|reg regs IH]; intros headers; cbn [foldl].
  - split; [by left|]. by intros [?|(? & [] & _)].
  - rewrite IH, elem_of_add_headers. split.
    + intros [[?|?]|(reg' & ? & ?)]; [by left|right..].
      * exists reg. split; [by left|done].
      * exists reg'. split; [by right|done].
    + intros [?|(reg' & [<-|?] & ?)]; [by left; left|by left; right|].
      right. by exists reg'.
Qed.

End CsvExport.





(** * Further properties of the handlers *)

(** ** ObjectIds as strings *)

Section HexDigits.

Lemma hex_digit_hex_char d :
  (d < 16)%N -> ObjectId.hex_digit (ObjectId.hex_char d) = Some d.
Proof.
  intros Hd. destruct d as [|p]; [done|].
  do 4 (destruct p as [p|p|]; try done); lia.
Qed.

Lemma parse_hex_to_hex k n acc a :
  ObjectId.parse_hex (ObjectId.to_hex k n acc) a
  = ObjectId.parse_hex acc (a * 16 ^ N.of_nat k + n mod 16 ^ N.of_nat k)%N.
Proof.
  revert n acc. induction k as [|k IH]; intros n acc.
  - cbn [ObjectId.to_hex]. f_equal. change (16 ^ N.of_nat 0)%N with 1%N.
    rewrite N.mod_1_r. lia.
  - cbn [ObjectId.to_hex]. rewrite IH. cbn [ObjectId.parse_hex].
    rewrite hex_digit_hex_char by (apply N.mod_lt; lia).
    f_equal. rewrite Nat2N.inj_succ, N.pow_succ_r'.
    rewrite (N.Div0.mod_mul_r n 16). lia.
Qed.

Lemma length_to_hex k n acc :
  String.length (ObjectId.to_hex k n acc) = (k + String.length acc)%nat.
Proof.
  revert n acc. induction k as [|k IH]; intros n acc; [done|].
  cbn [ObjectId.to_hex]. rewrite IH. cbn [String.length]. lia.
Qed.

Lemma parse_toString oid :
  ObjectId.parse (ObjectId.toString oid) = Some (oid mod 16 ^ 24)%N.
Proof.
  unfold ObjectId.parse, ObjectId.toString.
  rewrite length_to_hex. cbn [String.length Nat.add Nat.eqb].
  rewrite parse_hex_to_hex. cbn [ObjectId.parse_hex]. f_equal.
Qed.

End HexDigits.

(** X17.  Printing an ObjectId and reading it back is the identity: the
    24 digits [toString] prints pass [validateMongoId], are cast back to
    the same id, and [findById] on them finds the document with that
    [_id]. *)
Theorem toString_parse_round_trip oid coll :
  (oid < 16 ^ 24)%N ->
  ObjectId.validateMongoId (ObjectId.toString oid) = true
  /\ ObjectId.cast (ObjectId.toString oid) = VId oid
  /\ Post.findById (ObjectId.toString oid) coll = List.find (Post.has_id oid) coll.
Proof.
  intros Hoid.
  assert (ObjectId.parse (ObjectId.toString oid) = Some oid) as Hparse.
  { rewrite parse_toString. f_equal. by apply N.mod_small. }
  split; [by eapply parse_validate|].
  unfold ObjectId.cast, Post.findById. by rewrite Hparse.
Qed.

Lemma toString_parse_round_trip_witness :
  ObjectId.validateMongoId (ObjectId.toString 16) = true
  /\ ObjectId.cast (ObjectId.toString 16) = VId 16
  /\ Post.findById (ObjectId.toString 16) (posts Sample.db)
     = List.find (Post.has_id 16) (posts Sample.db).
Proof. apply (toString_parse_round_trip 16 (posts Sample.db)). reflexivity. Defined.

(** ** The order of listings *)

Section Ordering.

Implicit Types (p q : obj) (ps : list obj).

Lemma insert_desc_perm p ps : PostRoutes.insert_desc p ps ≡ₚ p :: ps.
Proof.
  induction ps as [|q ps IH]; cbn; [done|].
  destruct (Post.timestamp q <? Post.timestamp p)%Z; [done|].
  rewrite IH. apply Permutation_swap.
Qed.

Lemma sort_desc_perm ps : PostRoutes.sort_desc ps ≡ₚ ps.
Proof.
  induction ps as [|p ps IH]; cbn; [done|].
  rewrite insert_desc_perm. by f_equiv.
Qed.

Lemma insert_desc_sorted p ps :
  newest_first ps -> newest_first (PostRoutes.insert_desc p ps).
Proof.
  unfold newest_first. induction 1 as [|q ps Hsorted IH Hq]; cbn.
  - repeat constructor.
  - destruct (Post.timestamp q <? Post.timestamp p)%Z eqn:Hlt.
    + apply Z.ltb_lt in Hlt. constructor; [by constructor|].
      constructor; [lia|]. eapply Forall_impl; [exact Hq|]. cbn. intros; lia.
    + apply Z.ltb_ge in Hlt. constructor; [exact IH|].
      rewrite insert_desc_perm. by constructor.
Qed.

Lemma sort_desc_sorted ps : newest_first (PostRoutes.sort_desc ps).
Proof.
  induction ps as [|p ps IH]; cbn; [constructor|]. by apply insert_desc_sorted.
Qed.

Lemma insert_asc_perm p ps : PostRoutes.insert_asc p ps ≡ₚ p :: ps.
Proof.
  induction ps as [|q ps IH]; cbn; [done|].
  destruct (Post.timestamp p <? Post.timestamp q)%Z; [done|].
  rewrite IH. apply Permutation_swap.
Qed.

Lemma sort_asc_perm ps : PostRoutes.sort_asc ps ≡ₚ ps.
Proof.
  induction ps as [|p ps IH]; cbn; [done|].
  rewrite insert_asc_perm. by f_equiv.
Qed.

Lemma insert_asc_sorted p ps :
  oldest_first ps -> oldest_first (PostRoutes.insert_asc p ps).
Proof.
  unfold oldest_first. induction 1 as [|q ps Hsorted IH Hq]; cbn.
  - repeat constructor.
  - destruct (Post.timestamp p <? Post.timestamp q)%Z eqn:Hlt.
    + apply Z.ltb_lt in Hlt. constructor; [by constructor|].
      constructor; [lia|]. eapply Forall_impl; [exact Hq|]. cbn. intros; lia.
    + apply Z.ltb_ge in Hlt. constructor; [exact IH|].
      rewrite insert_asc_perm. by constructor.
Qed.

Lemma sort_asc_sorted ps : oldest_first (PostRoutes.sort_asc ps).
Proof.
  induction ps as [|p ps IH]; cbn; [constructor|]. by apply insert_asc_sorted.
Qed.

Lemma timestamp_transform p :
  Post.timestamp (PostRoutes.transformShowcasePostForFrontend p) = Post.timestamp p.
Proof.
  unfold PostRoutes.transformShowcasePostForFrontend, Post.timestamp.
  destruct (negb _); [done|]. by rewrite !get_insert_ne.
Qed.

Lemma sorted_map (f : obj -> obj) (R : obj -> obj -> Prop) ps :
  (forall p q, R p q -> R (f p) (f q)) ->
  StronglySorted R ps -> StronglySorted R (List.map f ps).
Proof.
  intros Hf. induction 1 as [|p ps Hsorted IH Hp]; cbn; constructor; [done|].
  apply List.Forall_map. eapply Forall_impl; [exact Hp|]. intros q. apply Hf.
Qed.

Lemma returned_posts_objects status (ps : list obj) :
  returned_posts (Json status (VArr (List.map VObj ps))) = ps.
Proof.
  unfold returned_posts. induction ps as [|p ps IH]; [done|].
  cbn. by rewrite IH.
Qed.

Lemma getPosts_listed env authorization db :
  returned_posts (PostRoutes.getPosts env authorization db)
  = List.map PostRoutes.transformShowcasePostForFrontend
      (PostRoutes.sort_desc (visible_to env authorization db)).
Proof.
  unfold PostRoutes.getPosts, visible_to.
  rewrite <- (returned_posts_objects 200
                (List.map PostRoutes.transformShowcasePostForFrontend _)).
  rewrite List.map_map.
  by destruct (PostRoutes.isAdminRequest env authorization db).
Qed.

End Ordering.

(** X1.  [GET /api/posts] lists the posts the request is entitled to (all
    of them for an administrator, the approved ones otherwise), each one
    once, in the form [transformShowcasePostForFrontend] gives it, and in
    descending order of [timestamp]. *)
Theorem listing_newest_first env authorization db :
  let listed := returned_posts (PostRoutes.getPosts env authorization db) in
  newest_first listed
  /\ listed
     ≡ₚ List.map PostRoutes.transformShowcasePostForFrontend
          (visible_to env authorization db).
Proof.
  intros listed. subst listed. rewrite getPosts_listed. split.
  - apply sorted_map; [|apply sort_desc_sorted].
    intros p q. by rewrite !timestamp_transform.
  - apply Permutation_map, sort_desc_perm.
Qed.

(** X2.  For an administrator [GET /api/posts/pending-events] answers 200
    with the events and cultural events whose status is [pending], each
    one once, in ascending order of [timestamp]. *)
Theorem pending_events_oldest_first user db :
  User.isAdmin user = true ->
  let answer := PostRoutes.getPendingEvents user db in
  http_status answer = 200%nat
  /\ oldest_first (returned_posts answer)
  /\ returned_posts answer
     ≡ₚ List.filter
          (fun p => PostRoutes.is_event p && is_str "pending" (Post.status p))
          (posts db).
Proof.
  intros Hadmin answer. subst answer.
  unfold PostRoutes.getPendingEvents, Auth.admin. rewrite Hadmin.
  rewrite returned_posts_objects.
  split; [done|]. split; [apply sort_asc_sorted|apply sort_asc_perm].
Qed.

Lemma pending_events_oldest_first_witness :
  let answer := PostRoutes.getPendingEvents Sample.carol Sample.db in
  http_status answer = 200%nat
  /\ oldest_first (returned_posts answer)
  /\ returned_posts answer
     ≡ₚ List.filter
          (fun p => PostRoutes.is_event p && is_str "pending" (Post.status p))
          (posts Sample.db).
Proof. apply (pending_events_oldest_first Sample.carol Sample.db). reflexivity. Defined.

(** The sample database has one pending event. *)
Example pending_events_of_sample :
  (fun p => get p "_id") <$> returned_posts (PostRoutes.getPendingEvents Sample.carol Sample.db)
  = [VId 17].
Proof. vm_compute. reflexivity. Qed.

(** ** What the server decides when a post is created *)

Section Stamping.

Implicit Types (p post : obj) (db : Db).

Lemma newest_snoc coll p : newest (coll ++ [p]) = p.
Proof. unfold newest. by rewrite last_snoc. Qed.

Ltac new_post_path :=
  unfold PostRoutes.newPostData;
  match goal with
  | |- context [is_str "event" (get ?body "type") && truthy ?q] =>
      set (qr := if is_str "event" (get body "type") && truthy q then _ else _)
  end;
  match goal with
  | |- context [assign ?kvs (omit ?ks ?body)] => set (data := assign kvs (omit ks body))
  end.

Lemma newPostData_stamped env user body :
  let data := PostRoutes.newPostData env user body in
  get data "userId" = VId (User._id user)
  /\ get data "author" = VStr (User.name user)
  /\ get data "likes" = VNum 0
  /\ get data "likedBy" = VArr []
  /\ get data "timestamp" = VDate (now env).
Proof.
  cbn zeta. repeat split; new_post_path.
  all: match goal with
       | |- get _ ?k = ?v =>
           assert (get data k = v) as Hdata
             by (subst data; cbn [assign foldl fst snd];
                 rewrite ?get_insert_ne by done; apply get_insert_eq);
           set (data' := if is_str "showcase" (get body "type") then _ else data);
           assert (get data' k = v) as Hdata'
             by (subst data'; destruct (is_str "showcase" _); [|done];
                 by rewrite get_assign_notin by compute_done)
       end.
  all: clearbody data' qr; clear data Hdata.
  all: repeat match goal with
         | |- context [if ?c then _ else _] => destruct c
         end;
       by rewrite get_assign_notin by compute_done.
Qed.

Lemma newPostData_status env user body :
  get (PostRoutes.newPostData env user body) "status"
  = if is_str "event" (get body "type") || is_str "culturalEvent" (get body "type")
    then VStr "pending" else VStr "approved".
Proof.
  new_post_path.
  set (status := if is_str "event" _ || _ then _ else _).
  assert (get data "status" = status) as Hdata.
  { subst data. cbn [assign foldl fst snd].
    rewrite ?get_insert_ne by done. apply get_insert_eq. }
  set (data' := if is_str "showcase" (get body "type") then _ else data).
  assert (get data' "status" = status) as Hdata'.
  { subst data'. destruct (is_str "showcase" _) eqn:Hshowcase; [|done].
    apply is_str_true in Hshowcase. subst status. rewrite Hshowcase.
    cbn [assign foldl fst snd].
    rewrite ?get_insert_ne by done. by rewrite get_insert_eq. }
  clearbody data' qr status. clear data Hdata.
  repeat match goal with
         | |- context [if ?c then _ else _] => destruct c
         end;
    by rewrite get_assign_notin by compute_done.
Qed.

End Stamping.



(** ** Moderation of events *)

Section Moderation.

Implicit Types (p post event : obj) (db : Db).

Lemma is_event_type p :
  PostRoutes.is_event p = true ->
  Post.type p = VStr "event" \/ Post.type p = VStr "culturalEvent".
Proof.
  unfold PostRoutes.is_event, includes_str. cbn [existsb].
  rewrite orb_false_r. intros [H|H]%orb_true_iff; apply is_str_true in H; tauto.
Qed.

Lemma transform_event p :
  PostRoutes.is_event p = true -> PostRoutes.transformShowcasePostForFrontend p = p.
Proof.
  intros [H|H]%is_event_type; unfold PostRoutes.transformShowcasePostForFrontend;
    by rewrite H.
Qed.

Lemma find_by_deleteMany k oid coll :
  Post.find_by k oid (Post.deleteMany k oid coll) = [].
Proof.
  unfold Post.find_by, Post.deleteMany.
  induction coll as [|r coll IH]; [done|]. cbn [List.filter].
  destruct (Post.id_eq oid (get r k)) eqn:Hr; cbn [negb]; [done|].
  cbn [List.filter]. by rewrite Hr.
Qed.

Lemma getPosts_lists env authorization db p :
  In p (posts db) ->
  is_str "approved" (Post.status p) = true ->
  PostRoutes.transformShowcasePostForFrontend p
    ∈ returned_posts (PostRoutes.getPosts env authorization db).
Proof.
  intros Hin Happroved. rewrite getPosts_listed.
  apply list_elem_of_In, in_map, In_sort_desc. unfold visible_to.
  destruct (PostRoutes.isAdminRequest env authorization db); [done|].
  by apply filter_In.
Qed.

End Moderation.

(** X4.  When an administrator approves an event or a cultural event, the
    answer is 200, the stored post keeps its type and gets the status
    [approved], no registration is touched, and from then on every
    request to [GET /api/posts] lists it, also one without a token. *)
Theorem approved_event_is_listed env user id db event :
  User.isAdmin user = true ->
  Post.findById id (posts db) = Some event ->
  PostRoutes.is_event event = true ->
  let result := PostRoutes.approveEvent env user id db in
  http_status result.1 = 200%nat
  /\ registrations result.2 = registrations db
  /\ exists approved,
       Post.findById id (posts result.2) = Some approved
       /\ posts result.2 = Post.write approved (posts db)
       /\ Post.status approved = VStr "approved"
       /\ Post.type approved = Post.type event
       /\ forall env' authorization,
            approved ∈ returned_posts (PostRoutes.getPosts env' authorization result.2).
Proof.
  intros Hadmin Hfind Hevent result. subst result.
  unfold PostRoutes.approveEvent, Auth.admin.
  rewrite Hadmin, (findById_valid _ _ _ Hfind), Hfind, Hevent. cbn [negb fst snd].
  set (approved := Post.save env ["status"] _).
  assert (get approved "_id" = get event "_id") as Hid.
  { subst approved. unfold Post.save. rewrite get_preSave by compute_done.
    by rewrite get_insert_ne. }
  assert (Post.status approved = VStr "approved") as Hstatus.
  { subst approved. unfold Post.save, Post.status.
    rewrite get_preSave by compute_done. apply get_insert_eq. }
  assert (Post.type approved = Post.type event) as Htype.
  { subst approved. unfold Post.save, Post.type.
    rewrite get_preSave by compute_done. by rewrite get_insert_ne. }
  assert (Post.findById id (Post.write approved (posts db)) = Some approved) as Hfound
    by (by apply (findById_write _ _ event)).
  split; [done|]. split; [done|]. exists approved. cbn [posts with_posts].
  repeat split; try done.
  intros env' authorization.
  assert (PostRoutes.is_event approved = true) as Happroved.
  { unfold PostRoutes.is_event in *. by rewrite Htype. }
  rewrite <- (transform_event approved Happroved) at 1.
  apply getPosts_lists.
  - cbn [posts with_posts]. by apply findById_Some in Hfound as (? & _ & _ & ?).
  - rewrite Hstatus. apply is_str_refl.
Qed.


Lemma approved_event_is_listed_witness :
  let result := PostRoutes.approveEvent Sample.env Sample.carol Sample.event_id Sample.db in
  exists event,
    Post.findById Sample.event_id (posts Sample.db) = Some event
    /\ http_status result.1 = 200%nat
    /\ registrations result.2 = registrations Sample.db
    /\ exists approved,
         Post.findById Sample.event_id (posts result.2) = Some approved
         /\ posts result.2 = Post.write approved (posts Sample.db)
         /\ Post.status approved = VStr "approved"
         /\ Post.type approved = Post.type event
         /\ forall env' authorization,
              approved ∈ returned_posts (PostRoutes.getPosts env' authorization result.2).
Proof.
  intros result.
  destruct (found_Some (Post.findById Sample.event_id (posts Sample.db)))
    as (event & Hfind); [vm_compute; reflexivity|].
  exists event. split; [exact Hfind|].
  apply (approved_event_is_listed Sample.env Sample.carol Sample.event_id Sample.db event);
    [reflexivity|exact Hfind|].
  apply (of_found PostRoutes.is_event _ _ _ Hfind). vm_compute. reflexivity.
Defined.


(** X5.  When an administrator rejects an event or a cultural event, the
    answer is 200, the post is deleted and can no longer be found, no
    registration for it is left, and the notifications stay as they
    were. *)
Theorem rejected_event_is_removed user id db event :
  User.isAdmin user = true ->
  Post.findById id (posts db) = Some event ->
  PostRoutes.is_event event = true ->
  let result := PostRoutes.rejectEvent user id db in
  http_status result.1 = 200%nat
  /\ posts result.2 = Post.deleteOne event (posts db)
  /\ Post.findById id (posts result.2) = None
  /\ Registration.find id (registrations result.2) = []
  /\ notifications result.2 = notifications db.
Proof.
  intros Hadmin Hfind Hevent result. subst result.
  destruct (findById_Some _ _ _ Hfind) as (oid & Hparse & Hid & _).
  unfold PostRoutes.rejectEvent, Auth.admin.
  rewrite Hadmin, (findById_valid _ _ _ Hfind), Hfind, Hevent, Hid.
  cbn [negb fst snd posts registrations notifications with_posts with_registrations].
  unfold Post.findById, Registration.find. rewrite Hparse.
  repeat split; [by apply find_deleteOne|apply find_by_deleteMany].
Qed.


Lemma rejected_event_is_removed_witness :
  let result := PostRoutes.rejectEvent Sample.carol Sample.event_id Sample.db in
  exists event,
    Post.findById Sample.event_id (posts Sample.db) = Some event
    /\ http_status result.1 = 200%nat
    /\ posts result.2 = Post.deleteOne event (posts Sample.db)
    /\ Post.findById Sample.event_id (posts result.2) = None
    /\ Registration.find Sample.event_id (registrations result.2) = []
    /\ notifications result.2 = notifications Sample.db.
Proof.
  intros result.
  destruct (found_Some (Post.findById Sample.event_id (posts Sample.db)))
    as (event & Hfind); [vm_compute; reflexivity|].
  exists event. split; [exact Hfind|].
  apply (rejected_event_is_removed Sample.carol Sample.event_id Sample.db event);
    [reflexivity|exact Hfind|].
  apply (of_found PostRoutes.is_event _ _ _ Hfind). vm_compute. reflexivity.
Defined.


(** ** Refused requests *)

Section Refusals.

Implicit Types (p post : obj) (db : Db).

Lemma updatePost_refused env user id body db :
  succeeded (PostRoutes.updatePost env user id body db).1 = false ->
  (PostRoutes.updatePost env user id body db).2 = db.
Proof.
  unfold PostRoutes.updatePost.
  destruct (negb (ObjectId.validateMongoId id)); [done|].
  destruct (Post.findById id (posts db)) as [old|]; [|done].
  destruct (negb (Post.owned_by user old) && _); [done|].
  destruct (truthy (get body "type") && _); [done|].
  destruct (if truthy (get body "title") then _ else _) as [[|]|]; [|done..].
  destruct (if truthy (get body "content") then _ else _) as [[|]|]; [|done..].
  by destruct (Post.validate _).
Qed.

Lemma deletePost_refused user id db :
  succeeded (PostRoutes.deletePost user id db).1 = false ->
  (PostRoutes.deletePost user id db).2 = db.
Proof.
  unfold PostRoutes.deletePost.
  destruct (negb (ObjectId.validateMongoId id)); [done|].
  destruct (Post.findById id (posts db)) as [post|]; [|done].
  by destruct (negb (Post.owned_by user post) && _).
Qed.

Lemma likePost_refused env user id db :
  succeeded (PostRoutes.likePost env user id db).1 = false ->
  (PostRoutes.likePost env user id db).2 = db.
Proof.
  unfold PostRoutes.likePost.
  destruct (negb (ObjectId.validateMongoId id)); [done|].
  destruct (Post.findById id (posts db)) as [post|]; [|done].
  by destruct (Post.includes_id _ _).
Qed.

Lemma unlikePost_refused env user id db :
  succeeded (PostRoutes.unlikePost env user id db).1 = false ->
  (PostRoutes.unlikePost env user id db).2 = db.
Proof.
  unfold PostRoutes.unlikePost.
  destruct (negb (ObjectId.validateMongoId id)); [done|].
  destruct (Post.findById id (posts db)) as [post|]; [|done].
  by destruct (negb (Post.includes_id _ _)).
Qed.

Lemma upvotePost_refused env user id db :
  succeeded (PostRoutes.upvotePost env user id db).1 = false ->
  (PostRoutes.upvotePost env user id db).2 = db.
Proof.
  unfold PostRoutes.upvotePost.
  destruct (negb (ObjectId.validateMongoId id)); [done|].
  destruct (Post.findById id (posts db)) as [post|]; [|done].
  destruct (negb (is_str "showcase" (Post.type post))); [done|].
  destruct (Post.owned_by user post); [done|].
  by destruct (Post.includes_id _ _).
Qed.

Lemma addShowcaseComment_refused env user id body db :
  succeeded (PostRoutes.addShowcaseComment env user id body db).1 = false ->
  (PostRoutes.addShowcaseComment env user id body db).2 = db.
Proof.
  unfold PostRoutes.addShowcaseComment.
  destruct (negb (ObjectId.validateMongoId id)); [done|].
  destruct (PostRoutes.validateText _ _ _) as [[|]|]; [|done..].
  destruct (Post.findById id (posts db)) as [post|]; [|done].
  by destruct (negb (is_str "showcase" (Post.type post))).
Qed.

Lemma addComment_refused env user id body db :
  succeeded (PostRoutes.addComment env user id body db).1 = false ->
  (PostRoutes.addComment env user id body db).2 = db.
Proof.
  unfold PostRoutes.addComment.
  destruct (negb (ObjectId.validateMongoId id)); [done|].
  destruct (Post.findById id (posts db)) as [post|]; [|done].
  destruct (PostRoutes.validateText _ _ _) as [[|]|]; [|done..].
  cbn [fresh_id]. by destruct (Post.comment_ok _).
Qed.

Lemma valid_recipient n :
  Notification.valid n = true -> Post.required_id (get n "recipient") = true.
Proof.
  unfold Notification.valid. intros H.
  repeat (apply andb_prop in H as [H ?]). done.
Qed.

Lemma reportPost_unchanged env user id body db :
  (PostRoutes.reportPost env user id body db).2 = db
  /\ succeeded (PostRoutes.reportPost env user id body db).1 = false.
Proof.
  unfold PostRoutes.reportPost.
  destruct (negb (ObjectId.validateMongoId id)); [done|].
  destruct (Post.findById id (posts db)) as [post|]; [|done].
  destruct (PostRoutes.validateText _ _ _) as [[|]|]; [|done..].
  unfold Notification.save.
  destruct (Notification.valid _) eqn:Hvalid; [|done].
  apply valid_recipient in Hvalid. unfold object in Hvalid.
  by rewrite get_assign_notin in Hvalid by compute_done.
Qed.

Lemma approveEvent_refused env user id db :
  succeeded (PostRoutes.approveEvent env user id db).1 = false ->
  (PostRoutes.approveEvent env user id db).2 = db.
Proof.
  unfold PostRoutes.approveEvent.
  destruct (Auth.admin user); [done|].
  destruct (negb (ObjectId.validateMongoId id)); [done|].
  destruct (Post.findById id (posts db)) as [post|]; [|done].
  by destruct (negb (PostRoutes.is_event post)).
Qed.

Lemma rejectEvent_refused user id db :
  succeeded (PostRoutes.rejectEvent user id db).1 = false ->
  (PostRoutes.rejectEvent user id db).2 = db.
Proof.
  unfold PostRoutes.rejectEvent.
  destruct (Auth.admin user); [done|].
  destruct (negb (ObjectId.validateMongoId id)); [done|].
  destruct (Post.findById id (posts db)) as [post|]; [|done].
  by destruct (negb (PostRoutes.is_event post)).
Qed.

End Refusals.

(** X7.  A request to a writing post route (create, update, delete, like,
    unlike, upvote, comment, showcase comment, report, approve, reject)
    that is not answered 200 or 201 leaves the whole database as it
    was. *)
Theorem refused_request_changes_nothing env user r db :
  succeeded (handle env user r db).1 = false ->
  (handle env user r db).2 = db.
Proof.
  destruct r; cbn [handle].
  - apply createPost_refused.
  - apply updatePost_refused.
  - apply deletePost_refused.
  - apply likePost_refused.
  - apply unlikePost_refused.
  - apply upvotePost_refused.
  - apply addShowcaseComment_refused.
  - apply addComment_refused.
  - intros _. apply reportPost_unchanged.
  - apply approveEvent_refused.
  - apply rejectEvent_refused.
Qed.


Lemma refused_request_changes_nothing_witness :
  (handle Sample.env Sample.bob
     (UpdatePost Sample.event_id (object [("title", VStr "Mine now")]))
     Sample.db).2
  = Sample.db.
Proof. apply refused_request_changes_nothing. vm_compute. reflexivity. Defined.

(** X11.  [POST /api/posts/:id/report] never stores anything and never
    answers 201: the notification it builds has no [recipient], which the
    Notification schema requires, so a report of an existing post with a
    valid reason ends in the validation error of [save], which the error
    middleware answers with 500. *)
Theorem report_is_never_recorded env user id body db :
  let result := PostRoutes.reportPost env user id body db in
  result.2 = db
  /\ http_status result.1 <> 201%nat
  /\ forall post,
       Post.findById id (posts db) = Some post ->
       PostRoutes.validateText (get body "reason") 1 500 = Some true ->
       result.1 = Raise 200 "ValidationError: Notification validation failed"
       /\ http_status result.1 = 500%nat.
Proof.
  intros result. subst result.
  destruct (reportPost_unchanged env user id body db) as [Hdb Hrefused].
  split; [done|]. split.
  - intros Hcreated%created_succeeded. congruence.
  - intros post Hfind Hreason. revert Hrefused. unfold PostRoutes.reportPost.
    rewrite (findById_valid _ _ _ Hfind), Hfind, Hreason. cbn [negb].
    by destruct (Notification.save _ db).
Qed.

Lemma report_is_never_recorded_witness :
  let body := object [("reason", VStr "Spam")] in
  let result :=
    PostRoutes.reportPost Sample.env Sample.bob Sample.confession_id body Sample.db in
  result.2 = Sample.db
  /\ http_status result.1 <> 201%nat
  /\ result.1 = Raise 200 "ValidationError: Notification validation failed"
  /\ http_status result.1 = 500%nat.
Proof.
  intros body result.
  destruct (report_is_never_recorded Sample.env Sample.bob Sample.confession_id body
              Sample.db) as (Hdb & Hstatus & Hfails).
  destruct (found_Some (Post.findById Sample.confession_id (posts Sample.db)))
    as (post & Hfind); [vm_compute; reflexivity|].
  split; [exact Hdb|]. split; [exact Hstatus|].
  apply (Hfails post Hfind). vm_compute. reflexivity.
Defined.


(** ** What a request may change *)

Section Keeping.

Implicit Types (p q post : obj) (db : Db) (coll : list obj).

Lemma In_write post' coll q :
  In q (Post.write post' coll) -> q = post' \/ In q coll.
Proof.
  unfold Post.write. intros (q' & <- & Hq')%in_map_iff.
  destruct (Post.same_id post' q'); [by left|by right].
Qed.

Lemma In_findById id coll post : Post.findById id coll = Some post -> In post coll.
Proof. by intros (? & _ & _ & ?)%findById_Some. Qed.

Lemma lookup_assign_notin kvs (o : obj) k :
  k ∉ kvs.*1 -> assign kvs o !! k = o !! k.
Proof.
  revert o. induction kvs as [|[k' v'] kvs IH]; intros o Hk; [done|].
  apply not_elem_of_cons in Hk as [Hne Hk].
  change (assign kvs (<[k' := v']> o) !! k = o !! k).
  rewrite IH by done. apply lookup_insert_ne. by intros ->.
Qed.

Lemma updatedPost_status env user post body :
  User.isAdmin user = false ->
  get (PostRoutes.updatedPost env user post body) "status" = get post "status".
Proof.
  intros Hadmin. unfold PostRoutes.updatedPost. rewrite Hadmin. cbn [andb].
  set (withImages := if negb (is_undefined (get body "images")) then _ else post).
  assert (get withImages "status" = get post "status") as Himages.
  { subst withImages. destruct (negb _); [|done]. by rewrite get_insert_ne. }
  set (post1 := delete "_id" _ ∪ withImages).
  assert (get post1 "status" = get post "status") as H1.
  { subst post1. rewrite <- Himages. unfold get.
    rewrite lookup_union_r; [done|]. rewrite lookup_delete_ne by done.
    unfold PostRoutes.updateObject.
    rewrite lookup_assign_notin by compute_done.
    rewrite lookup_omit. by rewrite decide_True by compute_done. }
  clearbody post1. clear withImages Himages.
  set (post3 := if is_str "event" (Post.type post1) && _ then _ else _).
  assert (get post3 "status" = get post "status") as H3.
  { subst post3. repeat match goal with
                        | |- context [if ?c then _ else _] => destruct c
                        end; by rewrite ?get_insert_ne. }
  clearbody post3. clear post1 H1.
  repeat match goal with
         | |- context [if ?c then _ else _] => destruct c
         end; by rewrite get_undefine_notin by compute_done.
Qed.

Ltac kept :=
  unfold Post.save; rewrite ?get_preSave by (done || compute_done);
  cbn [assign foldl fst snd];
  rewrite ?get_insert_ne by (done || (intros ->; done));
  rewrite ?get_init_path_ne by (done || (intros ->; done));
  done.

Ltac kept_path Hk :=
  let Hk' := fresh in
  pose proof Hk as Hk'; unfold hookPaths in Hk';
  repeat (apply not_elem_of_cons in Hk' as [? Hk']); kept.

(** What a request of a user who is no administrator does to the
    collection of posts: nothing, or it replaces one post by a copy that
    differs in engagement paths only (in any path but [_id] and [status]
    when the user owns the post), or it deletes a post of the user, or it
    adds the post it creates. *)
Lemma handle_posts env user r db :
  User.isAdmin user = false ->
  let posts' := posts (handle env user r db).2 in
  posts' = posts db
  \/ (exists id post changed,
        Post.findById id (posts db) = Some post
        /\ posts' = Post.write changed (posts db)
        /\ get post "_id" = get changed "_id"
        /\ Post.status post = Post.status changed
        /\ (Post.owned_by user post = false ->
            forall k, k ∉ hookPaths -> k <> "likes" -> k <> "upvotes" ->
                      get post k = get changed k))
  \/ (exists id post,
        Post.findById id (posts db) = Some post
        /\ Post.owned_by user post = true
        /\ posts' = Post.deleteOne post (posts db))
  \/ (exists body created,
        r = CreatePost body
        /\ posts' = (posts db ++ [created])%list
        /\ get created "_id" = VId (next_id db)).
Proof.
  intros Hadmin posts'. subst posts'.
  destruct r; cbn [handle].
  - (* create *)
    destruct (succeeded (PostRoutes.createPost env user body db).1) eqn:Hok.
    + apply createPost_accepted in Hok as (created & _ & -> & _ & ->).
      do 3 right. eexists body, _. split; [done|]. split; [done|].
      rewrite get_preSave by compute_done. apply get_insert_eq.
    + rewrite (createPost_refused _ _ _ _ Hok). by left.
  - (* update *)
    destruct (succeeded (PostRoutes.updatePost env user id body db).1) eqn:Hok.
    + pose proof Hok as (old & saved & Hfind & -> & ->)%updatePost_accepted.
      right; left. eexists id, old, _. split; [done|]. split; [done|].
      split; [|split].
      * rewrite get_preSave by compute_done. by rewrite updatedPost_id.
      * unfold Post.status. rewrite get_preSave by compute_done.
        by rewrite updatedPost_status.
      * intros Hstranger. exfalso. revert Hok. unfold PostRoutes.updatePost.
        destruct (negb (ObjectId.validateMongoId id)); [done|].
        by rewrite Hfind, Hstranger, Hadmin.
    + rewrite (updatePost_refused _ _ _ _ _ Hok). by left.
  - (* delete *)
    unfold PostRoutes.deletePost.
    destruct (negb (ObjectId.validateMongoId id)); [by left|].
    destruct (Post.findById id (posts db)) as [post|] eqn:Hfind; [|by left].
    rewrite Hadmin.
    destruct (Post.owned_by user post) eqn:Howner; [|by left].
    do 2 right; left. exists id, post. split; [done|]. split; [done|].
    cbn [negb andb snd].
    destruct (is_str "event" (Post.type post) || _); [|done].
    by destruct (get post "_id").
  - (* like *)
    unfold PostRoutes.likePost.
    destruct (negb (ObjectId.validateMongoId id)); [by left|].
    destruct (Post.findById id (posts db)) as [post|] eqn:Hfind; [|by left].
    destruct (Post.includes_id _ _); [by left|].
    cbn [snd posts with_posts]. right; left. eexists id, post, _.
    split; [done|]. split; [done|]. split; [kept|]. split; [unfold Post.status; kept|].
    intros _ k Hk Hlikes Hupvotes. kept_path Hk.
  - (* unlike *)
    unfold PostRoutes.unlikePost.
    destruct (negb (ObjectId.validateMongoId id)); [by left|].
    destruct (Post.findById id (posts db)) as [post|] eqn:Hfind; [|by left].
    destruct (negb (Post.includes_id _ _)); [by left|].
    cbn [snd posts with_posts]. right; left. eexists id, post, _.
    split; [done|]. split; [done|]. split; [|split].
    + destruct (0 <? Post.likes post)%Z; kept.
    + unfold Post.status. destruct (0 <? Post.likes post)%Z; kept.
    + intros _ k Hk Hlikes Hupvotes. destruct (0 <? Post.likes post)%Z; kept_path Hk.
  - (* upvote *)
    unfold PostRoutes.upvotePost.
    destruct (negb (ObjectId.validateMongoId id)); [by left|].
    destruct (Post.findById id (posts db)) as [post|] eqn:Hfind; [|by left].
    destruct (negb (is_str "showcase" (Post.type post))); [by left|].
    destruct (Post.owned_by user post); [by left|].
    destruct (Post.includes_id _ _); cbn [snd posts with_posts];
      rewrite ?posts_notification_save; right; left; eexists id, post, _;
      (split; [done|]); (split; [done|]); (split; [kept|]);
      (split; [unfold Post.status; kept|]);
      intros _ k Hk Hlikes Hupvotes; kept_path Hk.
  - (* showcase comment *)
    unfold PostRoutes.addShowcaseComment.
    destruct (negb (ObjectId.validateMongoId id)); [by left|].
    destruct (PostRoutes.validateText _ _ _) as [[|]|]; [|by left..].
    destruct (Post.findById id (posts db)) as [post|] eqn:Hfind; [|by left].
    destruct (negb (is_str "showcase" (Post.type post))); [by left|].
    cbn [fresh_id snd posts with_posts].
    match goal with
    | |- posts (if ?c then default ?d ?n else ?d) = _ \/ _ =>
        assert (posts (if c then default d n else d) = posts d) as ->
          by (destruct c; [apply posts_notification_save|done])
    end.
    cbn [posts with_posts]. right; left. eexists id, post, _.
    split; [done|]. split; [done|]. split; [kept|]. split; [unfold Post.status; kept|].
    intros _ k Hk Hlikes Hupvotes. kept_path Hk.
  - (* comment *)
    unfold PostRoutes.addComment.
    destruct (negb (ObjectId.validateMongoId id)); [by left|].
    destruct (Post.findById id (posts db)) as [post|] eqn:Hfind; [|by left].
    destruct (PostRoutes.validateText _ _ _) as [[|]|]; [|by left..].
    cbn [fresh_id]. destruct (Post.comment_ok _); [|by left].
    cbn [snd posts with_posts]. right; left. eexists id, post, _.
    split; [done|]. split; [done|]. split; [kept|]. split; [unfold Post.status; kept|].
    intros _ k Hk Hlikes Hupvotes. kept_path Hk.
  - (* report *)
    rewrite (proj1 (reportPost_unchanged env user id body db)). by left.
  - (* approve *)
    unfold PostRoutes.approveEvent, Auth.admin. rewrite Hadmin. by left.
  - (* reject *)
    unfold PostRoutes.rejectEvent, Auth.admin. rewrite Hadmin. by left.
Qed.

Lemma length_write post' coll : length (Post.write post' coll) = length coll.
Proof. unfold Post.write. apply List.length_map. Qed.

End Keeping.




(** The owner's update of the pending sample event is accepted and the
    event stays pending, whatever status the body asks for. *)
Example owner_cannot_approve_own_event :
  let result :=
    PostRoutes.updatePost Sample.env Sample.alice Sample.event_id
      (object [("title", VStr "Hack night II"); ("status", VStr "approved")])
      Sample.db in
  http_status result.1 = 200%nat
  /\ Post.status <$> Post.findById Sample.event_id (posts result.2)
     = Some (VStr "pending")
  /\ (fun p => get p "title") <$> Post.findById Sample.event_id (posts result.2)
     = Some (VStr "Hack night II").
Proof. repeat split; vm_compute; reflexivity. Qed.





(** ** Counters and the lists they count *)

Section Consistency.

Implicit Types (p post : obj) (db : Db) (xs : list value).

Lemma falsy_elements v : truthy v = false -> elements v = [].
Proof. by destruct v. Qed.

Lemma elements_init_path k k' p :
  elements (get (Post.init_path k' (VArr []) p) k) = elements (get p k).
Proof.
  unfold Post.init_path. destruct (truthy (get p k')) eqn:Hfalsy; [done|].
  destruct (decide (k' = k)) as [->|Hne].
  - by rewrite get_insert_eq, (falsy_elements _ Hfalsy).
  - by rewrite get_insert_ne.
Qed.

(** The hook leaves the lists it initialises with the elements they had. *)
Lemma elements_preSave env isModified p k :
  k ∈ ["likedBy"; "upvoters"; "showcaseComments"] ->
  elements (get (Post.preSave env isModified p) k) = elements (get p k).
Proof.
  intros Hk. unfold Post.preSave.
  assert (k <> "comments" /\ k <> "commentCount" /\ k <> "launchedDate" /\ k <> "month")
    as (? & ? & ? & ?).
  { repeat (apply elem_of_cons in Hk as [->|Hk]; [done|]). by apply elem_of_nil in Hk. }
  repeat match goal with
         | |- context [if ?c then _ else _] => destruct c
         end;
    rewrite ?get_init_path_ne by done; rewrite ?elements_init_path;
    rewrite ?get_insert_ne by done; done.
Qed.

Lemma commentCount_of_preSave env isModified p :
  Post.commentCount (Post.preSave env isModified p)
  = if isModified "showcaseComments"
    then Z.of_nat (length (Post.showcaseComments p)) else Post.commentCount p.
Proof.
  unfold Post.preSave, Post.commentCount.
  destruct (isModified "commentData"), (isModified "showcaseComments");
    repeat match goal with
           | |- context [if ?c then _ else _] => destruct c
           end;
    rewrite ?get_init_path_ne by done;
    rewrite ?get_insert_eq; rewrite ?get_insert_ne by done;
    unfold Post.showcaseComments; rewrite ?get_insert_ne by done; done.
Qed.

Lemma consistent_save env modified p :
  Post.likes p = Z.of_nat (length (Post.likedBy p)) ->
  NoDup (Post.likedBy p) ->
  Post.upvotes p = Z.of_nat (length (Post.upvoters p)) ->
  NoDup (Post.upvoters p) ->
  (Post.is_modified modified "showcaseComments" = true
   \/ Post.commentCount p = Z.of_nat (length (Post.showcaseComments p))) ->
  counters_consistent (Post.save env modified p).
Proof.
  intros Hlikes HlikedBy Hupvotes Hupvoters Hcount.
  unfold counters_consistent, Post.save.
  rewrite commentCount_of_preSave.
  unfold Post.likes, Post.likedBy, Post.upvotes, Post.upvoters, Post.showcaseComments in *.
  rewrite !elements_preSave by compute_done.
  rewrite !get_preSave by compute_done.
  repeat split; try done.
  destruct (Post.is_modified modified "showcaseComments"); [done|].
  by destruct Hcount.
Qed.

Lemma consistent_write id db post post' :
  Post.findById id (posts db) = Some post ->
  Forall counters_consistent (posts db) ->
  (counters_consistent post -> counters_consistent post') ->
  Forall counters_consistent (Post.write post' (posts db)).
Proof.
  intros Hfind Hall Hpost. apply Forall_write; [|done]. apply Hpost.
  rewrite Forall_forall in Hall. by eapply Hall, list_elem_of_In, In_findById.
Qed.

Lemma includes_id_elem_of id xs : Post.includes_id id xs = true <-> VId id ∈ xs.
Proof.
  unfold Post.includes_id. rewrite existsb_exists. split.
  - intros (x & Hx & ->%id_eq_true). by apply list_elem_of_In.
  - intros Hin. exists (VId id). split; [by apply list_elem_of_In|by apply id_eq_true].
Qed.

Lemma NoDup_snoc_id id xs :
  Post.includes_id id xs = false -> NoDup xs -> NoDup (xs ++ [VId id]).
Proof.
  intros Hnew Hxs. apply NoDup_app. split; [done|]. split; [|apply NoDup_singleton].
  intros x Hx ->%list_elem_of_singleton.
  apply includes_id_elem_of in Hx. congruence.
Qed.

Lemma without_id_absent' id xs : VId id ∉ xs -> Post.without_id id xs = xs.
Proof.
  intros Hnot. apply without_id_absent.
  destruct (Post.includes_id id xs) eqn:Hin; [|done].
  by apply includes_id_elem_of in Hin.
Qed.

Lemma length_without_id id xs :
  NoDup xs -> Post.includes_id id xs = true ->
  S (length (Post.without_id id xs)) = length xs.
Proof.
  intros Hxs Hin. apply includes_id_elem_of in Hin.
  induction Hxs as [|x xs Hx Hxs IH]; [by apply elem_of_nil in Hin|].
  unfold Post.without_id. cbn [List.filter]. fold (Post.without_id id xs).
  destruct (Post.id_eq id x) eqn:Heq; cbn [negb length].
  - apply id_eq_true in Heq as ->. f_equal.
    by rewrite (without_id_absent' id xs Hx).
  - f_equal. apply IH. apply elem_of_cons in Hin as [<-|Hin]; [|done].
    by rewrite (proj2 (id_eq_true id (VId id)) eq_refl) in Heq.
Qed.

Lemma NoDup_without_id id xs : NoDup xs -> NoDup (Post.without_id id xs).
Proof.
  unfold Post.without_id. induction 1 as [|x xs Hx Hxs IH]; cbn [List.filter].
  - constructor.
  - destruct (negb _); [|done]. constructor; [|done].
    intros Hin%list_elem_of_In%filter_In. apply Hx, list_elem_of_In, Hin.
Qed.

Lemma splice_first_without_id id xs :
  NoDup xs -> Post.splice_first (Post.id_eq id) xs = Post.without_id id xs.
Proof.
  unfold Post.without_id. induction 1 as [|x xs Hx Hxs IH]; [done|].
  cbn [Post.splice_first List.filter].
  destruct (Post.id_eq id x) eqn:Heq; cbn [negb]; [|by rewrite IH].
  apply id_eq_true in Heq as ->. symmetry. by apply without_id_absent'.
Qed.

Ltac getters :=
  unfold counters_consistent, Post.likes, Post.likedBy, Post.upvotes, Post.upvoters,
    Post.commentCount, Post.showcaseComments in *;
  cbn [assign foldl fst snd];
  repeat first [rewrite get_insert_eq | rewrite get_insert_ne by done
               | rewrite elements_init_path | rewrite get_init_path_ne by done];
  cbn [to_num elements].

Lemma likePost_consistent env user id db :
  Forall counters_consistent (posts db) ->
  Forall counters_consistent (posts (PostRoutes.likePost env user id db).2).
Proof.
  intros Hall. unfold PostRoutes.likePost.
  destruct (ObjectId.validateMongoId id); [|done]. cbn [negb].
  destruct (Post.findById id (posts db)) as [post|] eqn:Hfind; [|done].
  destruct (Post.includes_id _ _) eqn:Hnew; [done|]. cbn [snd posts with_posts].
  eapply consistent_write; [done..|]. intros (Hl & Hd & Hu & Hv & Hc).
  apply consistent_save; [..|right]; getters; try done.
  - rewrite length_app. cbn [length]. unfold Post.likes, Post.likedBy in Hl. lia.
  - by apply NoDup_snoc_id.
Qed.

Lemma unlikePost_consistent env user id db :
  Forall counters_consistent (posts db) ->
  Forall counters_consistent (posts (PostRoutes.unlikePost env user id db).2).
Proof.
  intros Hall. unfold PostRoutes.unlikePost.
  destruct (ObjectId.validateMongoId id); [|done]. cbn [negb].
  destruct (Post.findById id (posts db)) as [post|] eqn:Hfind; [|done].
  destruct (Post.includes_id _ _) eqn:Hliked; [|done]. cbn [negb snd posts with_posts].
  eapply consistent_write; [done..|]. intros (Hl & Hd & Hu & Hv & Hc).
  pose proof (length_without_id _ _ Hd Hliked) as Hlength.
  assert ((0 <? Post.likes post)%Z = true) as -> by (apply Z.ltb_lt; lia).
  apply consistent_save; [..|right]; getters; try done.
  - unfold Post.likes, Post.likedBy in *. lia.
  - by apply NoDup_without_id.
Qed.

Lemma upvotePost_consistent env user id db :
  Forall counters_consistent (posts db) ->
  Forall counters_consistent (posts (PostRoutes.upvotePost env user id db).2).
Proof.
  intros Hall. unfold PostRoutes.upvotePost.
  destruct (ObjectId.validateMongoId id); [|done]. cbn [negb].
  destruct (Post.findById id (posts db)) as [post|] eqn:Hfind; [|done].
  destruct (is_str "showcase" (Post.type post)); [|done]. cbn [negb].
  destruct (Post.owned_by user post); [done|].
  destruct (Post.includes_id _ _) eqn:Hvoted; cbn [snd posts with_posts];
    rewrite ?posts_notification_save;
    (eapply consistent_write; [done..|]); intros (Hl & Hd & Hu & Hv & Hc).
  - pose proof (length_without_id _ _ Hv Hvoted) as Hlength.
    apply consistent_save; [..|right]; getters; try done.
    + unfold Post.upvotes, Post.upvoters in *. lia.
    + by apply NoDup_without_id.
  - apply consistent_save; [..|right]; getters; try done.
    + rewrite length_app. cbn [length]. unfold Post.upvotes, Post.upvoters in Hu. lia.
    + by apply NoDup_snoc_id.
Qed.

Lemma addShowcaseComment_consistent env user id body db :
  Forall counters_consistent (posts db) ->
  Forall counters_consistent
    (posts (PostRoutes.addShowcaseComment env user id body db).2).
Proof.
  intros Hall. unfold PostRoutes.addShowcaseComment.
  destruct (ObjectId.validateMongoId id); [|done]. cbn [negb].
  destruct (PostRoutes.validateText _ _ _) as [[|]|]; [|done..].
  destruct (Post.findById id (posts db)) as [post|] eqn:Hfind; [|done].
  destruct (is_str "showcase" (Post.type post)); [|done].
  cbn [negb fresh_id snd posts with_posts].
  match goal with
  | |- Forall _ (posts (if ?c then default ?d ?n else ?d)) =>
      assert (posts (if c then default d n else d) = posts d) as ->
        by (destruct c; [apply posts_notification_save|done])
  end.
  cbn [posts with_posts].
  eapply consistent_write; [done..|]. intros (Hl & Hd & Hu & Hv & Hc).
  apply consistent_save; [..|by left]; getters; done.
Qed.

Lemma call_method_consistent method id db :
  (forall post, counters_consistent post -> counters_consistent (method post)) ->
  Forall counters_consistent (posts db) ->
  Forall counters_consistent (posts (call_method method id db)).
Proof.
  intros Hmethod Hall. unfold call_method.
  destruct (Post.findById id (posts db)) as [post|] eqn:Hfind; [|done].
  cbn [posts with_posts]. eapply consistent_write; [done..|]. apply Hmethod.
Qed.

Lemma addUpvote_consistent env userId post :
  counters_consistent post -> counters_consistent (Post.addUpvote env userId post).
Proof.
  intros Hpost. unfold Post.addUpvote.
  destruct (Post.includes_id _ _) eqn:Hvoted; [done|]. cbn [negb].
  destruct Hpost as (Hl & Hd & Hu & Hv & Hc).
  apply consistent_save; [..|right]; getters; try done.
  - rewrite length_app. cbn [length]. unfold Post.upvotes, Post.upvoters in Hu. lia.
  - by apply NoDup_snoc_id.
Qed.

Lemma removeUpvote_consistent env userId post :
  counters_consistent post -> counters_consistent (Post.removeUpvote env userId post).
Proof.
  intros Hpost. unfold Post.removeUpvote.
  destruct (Post.includes_id _ _) eqn:Hvoted; [|done].
  destruct Hpost as (Hl & Hd & Hu & Hv & Hc).
  pose proof (length_without_id _ _ Hv Hvoted) as Hlength.
  rewrite splice_first_without_id by done.
  apply consistent_save; [..|right]; getters; try done.
  - unfold Post.upvotes, Post.upvoters in *. lia.
  - by apply NoDup_without_id.
Qed.

Lemma addShowcaseComment_method_consistent env comment post :
  counters_consistent post ->
  counters_consistent (Post.addShowcaseComment env comment post).
Proof.
  intros (Hl & Hd & Hu & Hv & Hc). unfold Post.addShowcaseComment.
  apply consistent_save; [..|by left]; getters; done.
Qed.

Lemma removeShowcaseComment_consistent env commentId post :
  counters_consistent post ->
  counters_consistent (Post.removeShowcaseComment env commentId post).
Proof.
  intros Hpost. unfold Post.removeShowcaseComment.
  destruct (negb (truthy _)); [done|].
  destruct (existsb _ _); [|done].
  destruct Hpost as (Hl & Hd & Hu & Hv & Hc).
  apply consistent_save; [..|by left]; getters; done.
Qed.

Lemma perform_consistent env user id op db :
  Forall counters_consistent (posts db) ->
  Forall counters_consistent (posts (perform env user id op db)).
Proof.
  destruct op; cbn [perform].
  - apply likePost_consistent.
  - apply unlikePost_consistent.
  - apply upvotePost_consistent.
  - apply addShowcaseComment_consistent.
  - apply call_method_consistent, addUpvote_consistent.
  - apply call_method_consistent, removeUpvote_consistent.
  - apply call_method_consistent, addShowcaseComment_method_consistent.
  - apply call_method_consistent, removeShowcaseComment_consistent.
Qed.

End Consistency.

(** X9.  If in every stored post [likes], [upvotes] and [commentCount] are
    the lengths of [likedBy], [upvoters] and [showcaseComments], and no
    value occurs twice in [likedBy] or in [upvoters], then the same holds
    after any sequence of engagement operations (the like, unlike, upvote
    and showcase-comment routes and the model's upvote and
    showcase-comment methods) by any users on any posts. *)
Theorem engagement_keeps_counters_consistent env ops db :
  Forall counters_consistent (posts db) ->
  Forall counters_consistent (posts (perform_all env ops db)).
Proof.
  unfold perform_all. revert db.
  induction ops as [|[[user id] op] ops IH]; intros db Hall; [done|].
  cbn [foldl]. apply IH. by apply perform_consistent.
Qed.


Lemma engagement_keeps_counters_consistent_witness :
  Forall counters_consistent
    (posts (perform_all Sample.env
              [(Sample.bob, Sample.showcase_id, Like);
               (Sample.bob, Sample.showcase_id, Like);
               (Sample.alice, Sample.showcase_id, Unlike);
               (Sample.bob, Sample.showcase_id, ToggleUpvote);
               (Sample.bob, Sample.showcase_id, AddUpvote);
               (Sample.bob, Sample.showcase_id, RemoveUpvote);
               (Sample.bob, Sample.showcase_id, RemoveUpvote);
               (Sample.bob, Sample.showcase_id,
                 ShowcaseComment (object [("text", VStr "Nice idea")]));
               (Sample.alice, Sample.showcase_id, RemoveShowcaseComment 256)]
              Sample.db)).
Proof.
  apply engagement_keeps_counters_consistent.
  cbn [posts Sample.db].
  repeat (apply List.Forall_cons; [|]); [..|apply List.Forall_nil];
    unfold counters_consistent; repeat split; vm_compute;
    try reflexivity; repeat constructor; by intros ?%elem_of_nil.
Defined.


(** ** Likes *)

Section Likes.

Implicit Types (p post : obj) (db : Db).

Lemma likedBy_save env modified p :
  Post.likedBy (Post.save env modified p) = Post.likedBy p.
Proof. unfold Post.save, Post.likedBy. apply elements_preSave. compute_done. Qed.

Lemma likes_save env modified p : Post.likes (Post.save env modified p) = Post.likes p.
Proof. unfold Post.save, Post.likes. by rewrite get_preSave by compute_done. Qed.

Lemma id_save env modified p : get (Post.save env modified p) "_id" = get p "_id".
Proof. unfold Post.save. by rewrite get_preSave by compute_done. Qed.

Lemma likePost_added env user id db post :
  Post.findById id (posts db) = Some post ->
  Post.includes_id (User._id user) (Post.likedBy post) = false ->
  exists body liked,
    PostRoutes.likePost env user id db
    = (Json 200 body, with_posts (Post.write liked) db)
    /\ Post.findById id (Post.write liked (posts db)) = Some liked
    /\ Post.likes liked = (Post.likes post + 1)%Z
    /\ Post.likedBy liked = (Post.likedBy post ++ [VId (User._id user)])%list.
Proof.
  intros Hfind Hnew. unfold PostRoutes.likePost.
  rewrite (findById_valid _ _ _ Hfind), Hfind, Hnew. cbn [negb].
  eexists _, _. split; [reflexivity|].
  split; [apply (findById_write _ _ post); [done|]|split].
  - rewrite id_save. cbn [assign foldl fst snd]. by rewrite !get_insert_ne.
  - rewrite likes_save. unfold Post.likes. cbn [assign foldl fst snd].
    by rewrite get_insert_ne, get_insert_eq.
  - rewrite likedBy_save. unfold Post.likedBy at 1. cbn [assign foldl fst snd].
    by rewrite get_insert_eq.
Qed.

Lemma unlikePost_removed env user id db post :
  Post.findById id (posts db) = Some post ->
  Post.includes_id (User._id user) (Post.likedBy post) = true ->
  exists body unliked,
    PostRoutes.unlikePost env user id db
    = (Json 200 body, with_posts (Post.write unliked) db)
    /\ Post.findById id (Post.write unliked (posts db)) = Some unliked
    /\ Post.likes unliked
       = (if (0 <? Post.likes post)%Z then Post.likes post - 1 else Post.likes post)%Z
    /\ Post.likedBy unliked = Post.without_id (User._id user) (Post.likedBy post).
Proof.
  intros Hfind Hliked. unfold PostRoutes.unlikePost.
  rewrite (findById_valid _ _ _ Hfind), Hfind, Hliked. cbn [negb].
  eexists _, _. split; [reflexivity|].
  split; [apply (findById_write _ _ post); [done|]|split].
  - rewrite id_save. destruct (0 <? Post.likes post)%Z; by rewrite !get_insert_ne.
  - rewrite likes_save. unfold Post.likes at 1.
    destruct (0 <? Post.likes post)%Z; rewrite get_insert_ne by done;
      [by rewrite get_insert_eq|done].
  - rewrite likedBy_save. unfold Post.likedBy at 1. rewrite get_insert_eq.
    cbn [elements]. f_equal. unfold Post.likedBy.
    destruct (0 <? Post.likes post)%Z; by rewrite ?get_insert_ne.
Qed.

End Likes.




(** ** Reading registrations and comments *)

Section Projection.

Implicit Types (p post event : obj) (db : Db).

Lemma get_select paths p k :
  get (Post.select paths p) k
  = if decide (k ∈ "_id" :: paths) then get p k else VUndefined.
Proof.
  unfold get, Post.select.
  destruct (filter _ p !! k) as [v|] eqn:Hlookup.
  - apply map_lookup_filter_Some in Hlookup as [Hp Hk]. cbn in Hk.
    rewrite decide_True by done. by rewrite Hp.
  - apply map_lookup_filter_None in Hlookup as [Hp|Hk].
    + rewrite Hp. by destruct (decide _).
    + destruct (p !! k) as [v|] eqn:Hp; [|by destruct (decide _)].
      rewrite decide_False; [done|]. intros Hin. by apply (Hk v).
Qed.

Lemma posts_save_notification n db db' :
  Notification.save n db = Some db' -> posts db' = posts db.
Proof.
  unfold Notification.save. destruct (Notification.valid n); [|done].
  by intros [= <-].
Qed.

Lemma registerEvent_posts env user eventId body db :
  posts (UserRoutes.registerEvent env user eventId body db).2 = posts db.
Proof.
  unfold UserRoutes.registerEvent.
  destruct (negb (ObjectId.validateMongoId eventId)); [done|].
  destruct (Post.findById eventId (posts db)) as [event|]; [|done].
  destruct (Registration.findOne _ _ _); [done|].
  destruct (negb (truthy (get body "name")) || _); [done|].
  unfold Registration.create. destruct (Registration.valid _); [|done].
  unfold fresh_id. cbn [fst snd].
  set (db1 := with_registrations _ _).
  destruct (match match get event "userId" with VId _ => _ | _ => _ end with
            | Some creator => _ | None => Some db1 end) as [db2|] eqn:Hnotified;
    [|done].
  cbn [snd].
  destruct (match get event "userId" with VId _ => _ | _ => _ end);
    [by rewrite (posts_save_notification _ _ _ Hnotified)|by injection Hnotified as <-].
Qed.

End Projection.

(** X12.  [GET /api/posts/:id/showcase-comments] never answers 200: the
    query selects [showcaseComments] and [commentCount] only, so the
    loaded document has no [type], the test [post.type !== 'showcase']
    holds for every post that exists, a showcase post included, and the
    answer is the 400 meant for other post types. *)
Theorem showcase_comments_listing_always_refused id page limit db :
  let answer := PostRoutes.getShowcaseComments id page limit db in
  http_status answer <> 200%nat
  /\ forall post,
       Post.findById id (posts db) = Some post ->
       answer = Json 400 (failure "Only showcase posts can use this comment endpoint").
Proof.
  intros answer. subst answer. unfold PostRoutes.getShowcaseComments.
  destruct (Post.findById id (posts db)) as [post|] eqn:Hfind.
  - rewrite (findById_valid _ _ _ Hfind).
    cbn [negb fmap option_fmap option_map]. unfold Post.type.
    rewrite get_select, decide_False by compute_done.
    split; [done|]. by intros ? _.
  - by destruct (negb (ObjectId.validateMongoId id)).
Qed.


Lemma showcase_comments_listing_always_refused_witness :
  let answer := PostRoutes.getShowcaseComments Sample.showcase_id 1 10 Sample.db in
  Post.type <$> Post.findById Sample.showcase_id (posts Sample.db)
  = Some (VStr "showcase")
  /\ http_status answer <> 200%nat
  /\ answer = Json 400 (failure "Only showcase posts can use this comment endpoint").
Proof.
  intros answer.
  destruct (showcase_comments_listing_always_refused Sample.showcase_id 1 10 Sample.db)
    as (Hstatus & Hrefused).
  destruct (found_Some (Post.findById Sample.showcase_id (posts Sample.db)))
    as (post & Hfind); [vm_compute; reflexivity|].
  split; [vm_compute; reflexivity|]. split; [exact Hstatus|].
  exact (Hrefused post Hfind).
Defined.

(** X14.  The registrations of an event are disclosed to its owner and
    to administrators only.  [GET /api/users/admin/registrations/:eventId]
    answers anyone else 403 and the owner or an administrator 200 with
    the registrations whose [eventId] is the post; [GET
    /api/posts/:id/registrations] gives the same 200 answer when the post
    is an event or a cultural event, and otherwise, or to anyone else,
    throws, which reaches the client as 500. *)
Theorem registrations_disclosed_to_organiser_only user eventId db event :
  Post.findById eventId (posts db) = Some event ->
  let answer := PostRoutes.getRegistrations user eventId db in
  let admin_answer := UserRoutes.adminRegistrations user eventId db in
  (Post.owned_by user event = false -> User.isAdmin user = false ->
   answer = Raise (if PostRoutes.is_event event then 403 else 400)
              (if PostRoutes.is_event event
               then "Not authorized to view registrations for this event"
               else "This is not an event.")
   /\ http_status answer = 500%nat
   /\ admin_answer = Json 403 (message "You are not authorized to view this data."))
  /\ (Post.owned_by user event = true \/ User.isAdmin user = true ->
      admin_answer
      = Json 200 (VArr (List.map VObj (Registration.find eventId (registrations db))))
      /\ answer = if PostRoutes.is_event event then admin_answer
                  else Raise 400 "This is not an event.").
Proof.
  intros Hfind answer admin_answer. subst answer admin_answer.
  destruct (findById_Some _ _ _ Hfind) as (oid & Hparse & Hid & _).
  unfold PostRoutes.getRegistrations, UserRoutes.adminRegistrations, Registration.find.
  rewrite (findById_valid _ _ _ Hfind), Hfind, Hparse.
  cbn [negb fmap option_fmap option_map].
  unfold PostRoutes.is_event, Post.owned_by, Post.type.
  rewrite !get_select, !decide_True by compute_done. rewrite Hid.
  split.
  - intros Howner Hadmin. unfold Post.owned_by in Howner. rewrite Howner, Hadmin.
    cbn [negb andb]. by destruct (includes_str _ _).
  - intros Hallowed.
    assert (negb (Post.id_eq (User._id user) (get event "userId"))
            && negb (User.isAdmin user) = false) as ->.
    { destruct Hallowed as [Howner | ->]; [|apply andb_false_r].
      unfold Post.owned_by in Howner. by rewrite Howner. }
    split; [done|]. by destruct (includes_str _ _).
Qed.


Lemma registrations_disclosed_to_organiser_only_witness :
  let eventId := Sample.event_id in
  exists event,
    Post.findById eventId (posts Sample.db) = Some event
    /\ (PostRoutes.getRegistrations Sample.bob eventId Sample.db
        = Raise (if PostRoutes.is_event event then 403 else 400)
            (if PostRoutes.is_event event
             then "Not authorized to view registrations for this event"
             else "This is not an event.")
        /\ http_status (PostRoutes.getRegistrations Sample.bob eventId Sample.db)
           = 500%nat
        /\ UserRoutes.adminRegistrations Sample.bob eventId Sample.db
           = Json 403 (message "You are not authorized to view this data."))
    /\ (UserRoutes.adminRegistrations Sample.alice eventId Sample.db
        = Json 200
            (VArr (List.map VObj (Registration.find eventId (registrations Sample.db))))
        /\ PostRoutes.getRegistrations Sample.alice eventId Sample.db
           = if PostRoutes.is_event event
             then UserRoutes.adminRegistrations Sample.alice eventId Sample.db
             else Raise 400 "This is not an event.").
Proof.
  intros eventId.
  destruct (found_Some (Post.findById eventId (posts Sample.db)))
    as (event & Hfind); [vm_compute; reflexivity|].
  exists event. split; [exact Hfind|]. split.
  - apply (registrations_disclosed_to_organiser_only Sample.bob eventId Sample.db event
             Hfind); [|reflexivity].
    apply (of_found (Post.owned_by Sample.bob) _ _ _ Hfind). vm_compute. reflexivity.
  - apply (registrations_disclosed_to_organiser_only Sample.alice eventId Sample.db
             event Hfind).
    left. apply (of_found (Post.owned_by Sample.alice) _ _ _ Hfind).
    vm_compute. reflexivity.
Defined.

(** X15.  After an accepted registration the event is still stored, its
    id is among the ids [GET /api/users/my-events-registrations] gives
    the registrant, and the registrations route shows the owner of the
    event a registration by the registrant. *)
Theorem registration_is_listed env user eventId body db :
  succeeded (UserRoutes.registerEvent env user eventId body db).1 = true ->
  let db' := (UserRoutes.registerEvent env user eventId body db).2 in
  exists eid event,
    ObjectId.parse eventId = Some eid
    /\ Post.findById eventId (posts db') = Some event
    /\ VId eid
       ∈ elements (get (body_of (UserRoutes.myEventsRegistrations user db'))
                     "registeredEventIds")
    /\ forall organiser,
         Post.owned_by organiser event = true ->
         exists reg,
           VObj reg ∈ items_of (UserRoutes.adminRegistrations organiser eventId db')
           /\ get reg "userId" = VId (User._id user).
Proof.
  intros Hok db'.
  destruct (registerEvent_recorded _ _ _ _ _ Hok) as (eid & r & Hparse & Hin & Hevent & Huser).
  fold db' in Hin.
  assert (exists event, Post.findById eventId (posts db') = Some event) as (event & Hfind).
  { subst db'. rewrite registerEvent_posts. revert Hok. unfold UserRoutes.registerEvent.
    destruct (negb (ObjectId.validateMongoId eventId)); [done|].
    destruct (Post.findById eventId (posts db)) as [event|]; [by exists event|done]. }
  exists eid, event. split; [done|]. split; [done|]. split.
  - unfold UserRoutes.myEventsRegistrations, body_of, object.
    cbn [assign foldl fst snd]. rewrite get_insert_eq. cbn [elements].
    apply list_elem_of_In, in_map_iff. exists r. split; [done|].
    apply filter_In. split; [done|]. rewrite Huser. by apply id_eq_true.
  - intros organiser Howner. exists r. split; [|done].
    unfold UserRoutes.adminRegistrations.
    rewrite (findById_valid _ _ _ Hfind), Hfind, Howner. cbn [negb andb items_of].
    destruct (findById_Some _ _ _ Hfind) as (oid & Hparse' & -> & _).
    assert (oid = eid) as -> by congruence.
    apply list_elem_of_In, in_map, filter_In. split; [done|].
    rewrite Hevent. by apply id_eq_true.
Qed.


Lemma registration_is_listed_witness :
  let db' :=
    (UserRoutes.registerEvent Sample.env Sample.bob Sample.event_id
       Sample.registration_body Sample.db).2 in
  exists eid event,
    ObjectId.parse Sample.event_id = Some eid
    /\ Post.findById Sample.event_id (posts db') = Some event
    /\ VId eid
       ∈ elements (get (body_of (UserRoutes.myEventsRegistrations Sample.bob db'))
                     "registeredEventIds")
    /\ forall organiser,
         Post.owned_by organiser event = true ->
         exists reg,
           VObj reg
             ∈ items_of (UserRoutes.adminRegistrations organiser Sample.event_id db')
           /\ get reg "userId" = VId (User._id Sample.bob).
Proof.
  apply (registration_is_listed Sample.env Sample.bob Sample.event_id
           Sample.registration_body Sample.db).
  vm_compute. reflexivity.
Defined.


(** ** Cloudinary public ids *)

Section Strings.

Implicit Types (s t cur : string) (c sep : ascii).

Lemma append_cons c s t : String c s ++ t = String c (s ++ t).
Proof. reflexivity. Qed.

Lemma append_nil_l t : EmptyString ++ t = t.
Proof. reflexivity. Qed.

Lemma append_nil_r s : s ++ EmptyString = s.
Proof. induction s as [|c s IH]; [done|]. by rewrite append_cons, IH. Qed.

Lemma string_rev_acc_app s acc t :
  string_rev_acc s acc ++ t = string_rev_acc s (acc ++ t).
Proof.
  revert acc. induction s as [|c s IH]; intros acc; [done|].
  cbn [string_rev_acc]. by rewrite IH.
Qed.

Lemma string_rev_cons c cur t : string_rev (String c cur) ++ t = string_rev cur ++ String c t.
Proof. unfold string_rev. cbn [string_rev_acc]. by rewrite !string_rev_acc_app. Qed.

Lemma split_acc_app sep a b cur :
  split_acc sep (a ++ String sep b) cur
  = (split_acc sep a cur ++ split_acc sep b EmptyString)%list.
Proof.
  revert cur. induction a as [|c a IH]; intros cur.
  - rewrite append_nil_l. cbn [split_acc]. by rewrite Ascii.eqb_refl.
  - rewrite append_cons. cbn [split_acc].
    destruct (Ascii.eqb c sep); [|apply IH]. by rewrite IH.
Qed.

Lemma split_app sep a b :
  split sep (a ++ String sep b) = (split sep a ++ split sep b)%list.
Proof. apply split_acc_app. Qed.

Lemma split_acc_cons sep s cur : exists x rest, split_acc sep s cur = x :: rest.
Proof.
  revert cur. induction s as [|c s IH]; intros cur; cbn [split_acc]; [by eexists _, _|].
  destruct (Ascii.eqb c sep); [by eexists _, _|apply IH].
Qed.

Lemma join_cons (glue x y : string) rest :
  join glue (x :: y :: rest) = x ++ glue ++ join glue (y :: rest).
Proof. reflexivity. Qed.

Lemma join_split_acc sep s cur :
  join (String sep EmptyString) (split_acc sep s cur) = string_rev cur ++ s.
Proof.
  revert cur. induction s as [|c s IH]; intros cur; cbn [split_acc].
  - cbn [join]. by rewrite append_nil_r.
  - destruct (Ascii.eqb c sep) eqn:Hc.
    + apply Ascii.eqb_eq in Hc as ->.
      destruct (split_acc_cons sep s EmptyString) as (x & rest & Hsplit).
      specialize (IH EmptyString). rewrite Hsplit in *.
      by rewrite join_cons, IH.
    + rewrite IH. apply string_rev_cons.
Qed.

Lemma join_split sep s : join (String sep EmptyString) (split sep s) = s.
Proof. apply join_split_acc. Qed.

(** A string without the separator is one piece. *)
Lemma split_acc_whole sep s cur :
  sep ∉ list_ascii_of_string s -> split_acc sep s cur = [string_rev cur ++ s].
Proof.
  revert cur. induction s as [|c s IH]; intros cur Hsep; cbn [split_acc].
  - by rewrite append_nil_r.
  - cbn [list_ascii_of_string] in Hsep. apply not_elem_of_cons in Hsep as [Hne Hsep].
    rewrite (proj2 (Ascii.eqb_neq c sep)) by done.
    rewrite IH by done. by rewrite string_rev_cons.
Qed.

Lemma split_whole sep s : sep ∉ list_ascii_of_string s -> split sep s = [s].
Proof. apply split_acc_whole. Qed.

Lemma list_ascii_app s t :
  list_ascii_of_string (s ++ t)
  = (list_ascii_of_string s ++ list_ascii_of_string t)%list.
Proof.
  induction s as [|c s IH]; [done|].
  rewrite append_cons. cbn [list_ascii_of_string app]. by rewrite IH.
Qed.

(** The first piece holds no separator. *)
Lemma head_split_acc sep s cur :
  sep ∉ list_ascii_of_string (string_rev cur) ->
  sep ∉ list_ascii_of_string (default EmptyString (head (split_acc sep s cur))).
Proof.
  revert cur. induction s as [|c s IH]; intros cur Hcur; cbn [split_acc]; [done|].
  destruct (Ascii.eqb c sep) eqn:Hc; [done|]. apply IH.
  apply Ascii.eqb_neq in Hc.
  pose proof (string_rev_cons c cur EmptyString) as Hrev.
  rewrite append_nil_r in Hrev. rewrite Hrev, list_ascii_app.
  cbn [list_ascii_of_string]. rewrite not_elem_of_app. split; [done|].
  by intros [->|[]%elem_of_nil]%elem_of_cons.
Qed.

Lemma prefix_app p s t : String.prefix p s = true -> String.prefix p (s ++ t) = true.
Proof.
  revert s. induction p as [|c p IH]; intros s; [intros _; by destruct (s ++ t)|].
  destruct s as [|c' s]; [done|]. rewrite append_cons. cbn [String.prefix].
  destruct (ascii_dec c c'); [apply IH|done].
Qed.

Lemma includes_sub_app needle s t :
  includes_sub needle s = true -> includes_sub needle (s ++ t) = true.
Proof.
  induction s as [|c s IH].
  - cbn [includes_sub]. rewrite orb_false_r. intros Hp.
    apply (prefix_app _ _ t) in Hp. rewrite append_nil_l in *.
    destruct t; cbn [includes_sub]; by rewrite Hp.
  - rewrite append_cons. cbn [includes_sub]. intros [Hp|Hs]%orb_true_iff.
    + apply (prefix_app _ _ t) in Hp. rewrite append_cons in Hp. by rewrite Hp.
    + rewrite IH by done. apply orb_true_r.
Qed.

Lemma findIndex_app {A} (pred : A -> bool) xs x ys :
  Forall (fun y => pred y = false) xs -> pred x = true ->
  findIndex pred (xs ++ x :: ys) = Some (length xs).
Proof.
  intros Hxs Hx. induction Hxs as [|y xs Hy Hxs IH]; cbn; [by rewrite Hx|].
  by rewrite Hy, IH.
Qed.

Lemma skip_digits_app digits t :
  Forall (fun c => is_digit c = true) (list_ascii_of_string digits) ->
  PostRoutes.skip_digits (digits ++ String "/" t) = String "/" t.
Proof.
  induction digits as [|c digits IH]; [done|].
  rewrite append_cons. cbn [list_ascii_of_string PostRoutes.skip_digits].
  intros [Hc Hdigits]%Forall_cons. rewrite Hc. by apply IH.
Qed.

Lemma strip_version_prefix digits t :
  digits <> EmptyString ->
  Forall (fun c => is_digit c = true) (list_ascii_of_string digits) ->
  PostRoutes.strip_version (String "v" (digits ++ String "/" t)) = t.
Proof.
  intros Hnonempty Hdigits. unfold PostRoutes.strip_version.
  rewrite (skip_digits_app _ _ Hdigits).
  destruct digits as [|d digits]; [done|]. rewrite append_cons.
  cbn [list_ascii_of_string] in Hdigits.
  apply Forall_cons in Hdigits as [-> _]. done.
Qed.

Lemma drop_after {A} (xs : list A) x ys : drop (length xs + 1) (xs ++ x :: ys) = ys.
Proof. induction xs as [|y xs IH]; [done|]. exact IH. Qed.

End Strings.

(** X16.  For a URL [base/upload/v<digits>/<path>.<extension>] whose base
    mentions [cloudinary] and has no path segment [upload], where
    [<digits>] is one or more decimal digits and [<path>] holds no dot,
    [extractPublicId] gives [<path>], folders included. *)
Theorem extractPublicId_of_upload_url base digits path extension :
  includes_sub "cloudinary" base = true ->
  Forall (fun part => part <> "upload") (split "/" base) ->
  digits <> EmptyString ->
  Forall (fun c => is_digit c = true) (list_ascii_of_string digits) ->
  "."%char ∉ list_ascii_of_string path ->
  PostRoutes.extractPublicId
    (base ++ "/upload/v" ++ digits ++ "/" ++ path ++ "." ++ extension)
  = Some path.
Proof.
  intros Hcloud Hbase Hnonempty Hdigits Hpath. unfold PostRoutes.extractPublicId.
  rewrite includes_sub_app by done. cbn [negb].
  set (rest := String "v" (digits ++ String "/" (path ++ String "." extension))).
  change (base ++ "/upload/v" ++ digits ++ "/" ++ path ++ "." ++ extension)
    with (base ++ String "/" ("upload" ++ String "/" rest)).
  rewrite !split_app. change (split "/" "upload") with ["upload"].
  change (["upload"] ++ split "/" rest)%list with ("upload" :: split "/" rest).
  rewrite findIndex_app; [|..|done].
  2:{ eapply Forall_impl; [exact Hbase|]. intros part Hpart.
      apply String.eqb_neq. congruence. }
  rewrite drop_after, length_app. cbn [length].
  destruct (split_acc_cons "/" rest EmptyString) as (x & parts & Hsplit).
  assert ((length (split "/" base) + 1
           <? length (split "/" base) + S (length (split "/" rest)))%nat = true) as ->.
  { apply Nat.ltb_lt. unfold split at 3. rewrite Hsplit. cbn [length]. lia. }
  change "/" with (String "/"%char EmptyString) at 1. rewrite join_split.
  subst rest. rewrite strip_version_prefix by done.
  by rewrite split_app, (split_whole _ _ Hpath).
Qed.


Lemma extractPublicId_of_upload_url_witness :
  PostRoutes.extractPublicId
    ("https://res.cloudinary.com/confique/image" ++ "/upload/v" ++ "1712345678" ++ "/"
     ++ "confique_posts/abc123" ++ "." ++ "png")
  = Some "confique_posts/abc123".
Proof.
  apply (extractPublicId_of_upload_url "https://res.cloudinary.com/confique/image"
           "1712345678" "confique_posts/abc123" "png").
  - vm_compute. reflexivity.
  - vm_compute. repeat constructor; discriminate.
  - discriminate.
  - vm_compute. repeat constructor.
  - vm_compute. intros Hin. repeat (apply elem_of_cons in Hin as [Hin|Hin]; [discriminate|]).
    by apply elem_of_nil in Hin.
Defined.


(** X18.  A public id [extractPublicId] gives never holds a dot: it is cut
    at the first dot after the [upload] segment, also when that dot is in
    a folder name. *)
Theorem extractPublicId_has_no_dot url publicId :
  PostRoutes.extractPublicId url = Some publicId ->
  "."%char ∉ list_ascii_of_string publicId.
Proof.
  unfold PostRoutes.extractPublicId.
  destruct (negb (includes_sub "cloudinary" url)); [done|].
  destruct (findIndex _ _) as [uploadIndex|]; [|done].
  destruct (_ <? _)%nat; [|done].
  intros [= <-]. apply head_split_acc. cbn. apply not_elem_of_nil.
Qed.


Lemma extractPublicId_has_no_dot_witness :
  let url :=
    "https://res.cloudinary.com/confique/image/upload/v1712345678/my.folder/abc123.png" in
  PostRoutes.extractPublicId url = Some "my"
  /\ "."%char ∉ list_ascii_of_string "my".
Proof.
  intros url.
  assert (PostRoutes.extractPublicId url = Some "my") as Hid
    by (vm_compute; reflexivity).
  split; [exact Hid|]. exact (extractPublicId_has_no_dot url "my" Hid).
Defined.

(** The id is cut at the first dot; a URL that ends in [upload] or is not
    Cloudinary's has no public id. *)
Example extractPublicId_cuts_at_first_dot :
  PostRoutes.extractPublicId
    "https://res.cloudinary.com/confique/image/upload/v1712345678/my.folder/abc123.png"
  = Some "my"
  /\ PostRoutes.extractPublicId "https://res.cloudinary.com/confique/image/upload" = None
  /\ PostRoutes.extractPublicId "https://example.org/upload/v1/a.png" = None.
Proof. repeat split; vm_compute; reflexivity. Qed.


(** ** Single posts and the cache *)

Section Single.

Implicit Types (p post : obj) (db : Db).

Lemma to_num_or_zero v : to_num (or_else v (VNum 0)) = to_num v.
Proof. unfold or_else. destruct (truthy v) eqn:Hv; [done|]. by destruct v as [| |[]|[]| | | | |]. Qed.

End Single.





(** Two requests for the sample showcase post within five minutes count
    one view. *)
Example second_request_is_served_from_cache :
  let first := PostRoutes.getPost Sample.env Sample.showcase_id ∅ Sample.db in
  let second := PostRoutes.getPost Sample.env Sample.showcase_id first.1.2 first.2 in
  (fun p => get p "views") <$> Post.findById Sample.showcase_id (posts second.2)
  = Some (VNum 1).
Proof. vm_compute. reflexivity. Qed.


(** ** Upvotes and comments *)

Section Voting.

Implicit Types (p post : obj) (db : Db).

Lemma upvotes_save env modified p :
  Post.upvotes (Post.save env modified p) = Post.upvotes p.
Proof. unfold Post.save, Post.upvotes. by rewrite get_preSave by compute_done. Qed.

Lemma validateText_string text lo hi :
  PostRoutes.validateText text lo hi = Some true ->
  exists s, text = VStr s /\ s <> EmptyString.
Proof.
  unfold PostRoutes.validateText. destruct (truthy text) eqn:Htruthy; [|done].
  cbn [negb]. destruct text as [| | | |s| | | |]; try done.
  intros _. exists s. split; [done|]. intros ->. done.
Qed.

Lemma comments_of_preSave env isModified p :
  get (Post.preSave env isModified p) "comments"
  = if isModified "commentData"
    then VNum (Z.of_nat (length (Post.commentData p))) else get p "comments".
Proof.
  unfold Post.preSave.
  destruct (isModified "commentData"), (isModified "showcaseComments");
    repeat match goal with
           | |- context [if ?c then _ else _] => destruct c
           end;
    rewrite ?get_init_path_ne by done;
    rewrite ?get_insert_ne by done; rewrite ?get_insert_eq; done.
Qed.

End Voting.





(** X20.  A comment on an existing post whose text has between 1 and 1000
    characters after trimming, by a user with a name, is answered 201
    with the post's comments; the comment is appended to [commentData]
    with the user's id and name and the text as sent, untrimmed, and
    [comments] is the new number of comments. *)
Theorem comment_is_appended_and_counted env user id body db post :
  Post.findById id (posts db) = Some post ->
  PostRoutes.validateText (get body "text") 1 1000 = Some true ->
  User.name user <> EmptyString ->
  let result := PostRoutes.addComment env user id body db in
  http_status result.1 = 201%nat
  /\ exists commented comment,
       Post.findById id (posts result.2) = Some commented
       /\ Post.commentData commented = (Post.commentData post ++ [VObj comment])%list
       /\ items_of result.1 = Post.commentData commented
       /\ get commented "comments"
          = VNum (Z.of_nat (length (Post.commentData commented)))
       /\ get comment "userId" = VId (User._id user)
       /\ get comment "author" = VStr (User.name user)
       /\ get comment "text" = get body "text".
Proof.
  intros Hfind Htext Hname result. subst result.
  unfold PostRoutes.addComment.
  rewrite (findById_valid _ _ _ Hfind), Hfind, Htext. cbn [negb fresh_id].
  set (comment := object _).
  assert (Post.comment_ok comment = true) as ->.
  { unfold Post.comment_ok. subst comment. unfold object. cbn [assign foldl fst snd].
    repeat first [rewrite get_insert_eq | rewrite get_insert_ne by done].
    destruct (validateText_string _ _ _ Htext) as (s & -> & Hs).
    cbn [Post.required_string Post.required_id].
    by rewrite (proj2 (String.eqb_neq _ _) Hname), (proj2 (String.eqb_neq _ _) Hs). }
  cbn [fst snd posts with_posts http_status errorHandler].
  split; [done|].
  set (commented := Post.save env _ _).
  assert (get commented "commentData" = VArr (Post.commentData post ++ [VObj comment]))
    as Hdata.
  { subst commented. unfold Post.save. cbn [assign foldl fst snd].
    rewrite get_preSave_keep; [|by rewrite get_insert_ne, get_insert_eq|done..].
    by rewrite get_insert_ne, get_insert_eq. }
  assert (Post.commentData commented = (Post.commentData post ++ [VObj comment])%list)
    as Hlist by (unfold Post.commentData at 1; by rewrite Hdata).
  exists commented, comment. rewrite Hdata, Hlist. cbn [items_of].
  split.
  { apply (findById_write _ _ post); [done|]. subst commented.
    rewrite id_save. cbn [assign foldl fst snd]. by rewrite !get_insert_ne. }
  split; [done|]. split; [done|]. split.
  - subst commented. unfold Post.save. rewrite comments_of_preSave.
    change (Post.is_modified ["commentData"; "comments"] "commentData") with true.
    unfold Post.commentData at 1. cbn [assign foldl fst snd].
    by rewrite get_insert_ne, get_insert_eq.
  - subst comment. unfold object. cbn [assign foldl fst snd].
    repeat first [rewrite get_insert_eq | rewrite get_insert_ne by done]. done.
Qed.


Lemma comment_is_appended_and_counted_witness :
  let body := object [("text", VStr "  Count me in  ")] in
  let result :=
    PostRoutes.addComment Sample.env Sample.bob Sample.confession_id body Sample.db in
  exists post,
    Post.findById Sample.confession_id (posts Sample.db) = Some post
    /\ http_status result.1 = 201%nat
    /\ exists commented comment,
         Post.findById Sample.confession_id (posts result.2) = Some commented
         /\ Post.commentData commented = (Post.commentData post ++ [VObj comment])%list
         /\ items_of result.1 = Post.commentData commented
         /\ get commented "comments"
            = VNum (Z.of_nat (length (Post.commentData commented)))
         /\ get comment "userId" = VId (User._id Sample.bob)
         /\ get comment "author" = VStr (User.name Sample.bob)
         /\ get comment "text" = get body "text".
Proof.
  intros body result.
  destruct (found_Some (Post.findById Sample.confession_id (posts Sample.db)))
    as (post & Hfind); [vm_compute; reflexivity|].
  exists post. split; [exact Hfind|].
  apply (comment_is_appended_and_counted Sample.env Sample.bob Sample.confession_id
           body Sample.db post Hfind).
  - vm_compute. reflexivity.
  - discriminate.
Defined.


(** ** Bookmarks *)

Section Bookmarks.

Implicit Types (user post : obj) (db : Db).

Lemma to_hex_mod k n acc :
  ObjectId.to_hex k (n mod 16 ^ N.of_nat k) acc = ObjectId.to_hex k n acc.
Proof.
  revert n acc. induction k as [|k IH]; intros n acc; [done|].
  cbn [ObjectId.to_hex].
  rewrite Nat2N.inj_succ, N.pow_succ_r'.
  rewrite (N.Div0.mod_mul_r n 16).
  assert (n mod 16 < 16)%N as Hlt by (apply N.mod_lt; lia).
  set (a := (n mod 16)%N) in *. set (b := ((n / 16) mod 16 ^ N.of_nat k)%N).
  assert ((a + 16 * b) mod 16 = a)%N as ->.
  { rewrite (N.mul_comm 16 b), N.Div0.mod_add. by apply N.mod_small. }
  assert ((a + 16 * b) / 16 = b)%N as ->.
  { rewrite (N.mul_comm 16 b), N.div_add by lia.
    rewrite (N.div_small a) by done. lia. }
  subst b. apply IH.
Qed.

(** Only the lower-case spelling of an id is what [toString] prints. *)
Lemma toString_canonical postId oid o :
  ObjectId.parse postId = Some oid ->
  ObjectId.toString o = postId -> ObjectId.toString oid = postId.
Proof.
  intros Hparse <-. rewrite parse_toString in Hparse. injection Hparse as <-.
  unfold ObjectId.toString.
  change (16 ^ 24)%N with (16 ^ N.of_nat 24)%N. apply to_hex_mod.
Qed.

Lemma existsb_false_Forall {A} (pred : A -> bool) xs :
  Forall (fun x => pred x = false) xs -> existsb pred xs = false.
Proof. induction 1 as [|x xs Hx _ IH]; [done|]. cbn. by rewrite Hx, IH. Qed.

Lemma filter_true_Forall {A} (pred : A -> bool) xs :
  Forall (fun x => pred x = true) xs -> List.filter pred xs = xs.
Proof. induction 1 as [|x xs Hx _ IH]; [done|]. cbn. by rewrite Hx, IH. Qed.

Lemma toggleBookmark_adds postId oid user db post :
  ObjectId.parse postId = Some oid ->
  Post.findById postId (posts db) = Some post ->
  Post.type post = VStr "showcase" ->
  Forall (fun bookmarkedId => UserRoutes.id_string bookmarkedId <> postId)
    (elements (get user "bookmarkedPosts")) ->
  let result := UserRoutes.toggleBookmark postId user db in
  http_status result.1 = 200%nat
  /\ get (body_of result.1) "bookmarked" = VBool true
  /\ get result.2 "bookmarkedPosts"
     = VArr (elements (get user "bookmarkedPosts") ++ [VId oid]).
Proof.
  intros Hparse Hfind Htype Hnew result. subst result.
  unfold UserRoutes.toggleBookmark.
  rewrite (findById_valid _ _ _ Hfind), Hfind, Htype, is_str_refl.
  cbn [negb]. rewrite elements_init_path.
  rewrite existsb_false_Forall.
  2:{ eapply Forall_impl; [exact Hnew|]. intros b Hb. by apply String.eqb_neq. }
  cbn [fst snd negb body_of http_status errorHandler]. split; [done|]. split.
  - unfold object. cbn [assign foldl fst snd].
    by rewrite !get_insert_ne, get_insert_eq by done.
  - rewrite get_insert_eq. unfold ObjectId.cast. by rewrite Hparse.
Qed.

End Bookmarks.

(** X21.  Bookmarking a showcase post under the id it prints, by a user
    who has not bookmarked it, appends the post's id to the user's
    [bookmarkedPosts] and answers [bookmarked: true]; the same request
    again answers [bookmarked: false] and leaves [bookmarkedPosts] as it
    was at first. *)
Theorem bookmark_toggle_round_trip oid user db post :
  (oid < 16 ^ 24)%N ->
  let postId := ObjectId.toString oid in
  Post.findById postId (posts db) = Some post ->
  Post.type post = VStr "showcase" ->
  Forall (fun bookmarkedId => UserRoutes.id_string bookmarkedId <> postId)
    (elements (get user "bookmarkedPosts")) ->
  let first := UserRoutes.toggleBookmark postId user db in
  let second := UserRoutes.toggleBookmark postId first.2 db in
  get (body_of first.1) "bookmarked" = VBool true
  /\ get first.2 "bookmarkedPosts"
     = VArr (elements (get user "bookmarkedPosts") ++ [VId oid])
  /\ get (body_of second.1) "bookmarked" = VBool false
  /\ get second.2 "bookmarkedPosts" = VArr (elements (get user "bookmarkedPosts")).
Proof.
  intros Hoid postId Hfind Htype Hnew first second.
  assert (ObjectId.parse postId = Some oid) as Hparse.
  { subst postId. rewrite parse_toString. f_equal. by apply N.mod_small. }
  destruct (toggleBookmark_adds postId oid user db post Hparse Hfind Htype Hnew)
    as (_ & Hadded & Hlist).
  fold first in Hadded, Hlist. split; [done|]. split; [done|].
  subst second. unfold UserRoutes.toggleBookmark.
  rewrite (findById_valid _ _ _ Hfind), Hfind, Htype, is_str_refl.
  cbn [negb]. rewrite elements_init_path, Hlist. cbn [elements].
  rewrite List.existsb_app. cbn [existsb UserRoutes.id_string].
  fold postId. rewrite String.eqb_refl, orb_true_r. cbn [orb fst snd negb body_of].
  split.
  - unfold object. cbn [assign foldl fst snd].
    by rewrite !get_insert_ne, get_insert_eq by done.
  - rewrite get_insert_eq. f_equal. rewrite List.filter_app.
    cbn [List.filter UserRoutes.id_string]. fold postId.
    rewrite String.eqb_refl. cbn [negb]. rewrite app_nil_r.
    apply filter_true_Forall. eapply Forall_impl; [exact Hnew|].
    intros b Hb. apply negb_true_iff. by apply String.eqb_neq.
Qed.


Lemma bookmark_toggle_round_trip_witness :
  let postId := ObjectId.toString 16 in
  let first := UserRoutes.toggleBookmark postId Sample.bob_document Sample.db in
  let second := UserRoutes.toggleBookmark postId first.2 Sample.db in
  get (body_of first.1) "bookmarked" = VBool true
  /\ get first.2 "bookmarkedPosts"
     = VArr (elements (get Sample.bob_document "bookmarkedPosts") ++ [VId 16])
  /\ get (body_of second.1) "bookmarked" = VBool false
  /\ get second.2 "bookmarkedPosts"
     = VArr (elements (get Sample.bob_document "bookmarkedPosts")).
Proof.
  intros postId.
  destruct (found_Some (Post.findById postId (posts Sample.db)))
    as (post & Hfind); [vm_compute; reflexivity|].
  apply (bookmark_toggle_round_trip 16 Sample.bob_document Sample.db post);
    [reflexivity|exact Hfind| |].
  - apply (of_found Post.type _ _ _ Hfind). vm_compute. reflexivity.
  - vm_compute. constructor.
Defined.

(** X22.  The bookmark route compares the stored ids, printed in lower
    case, with the id as it came in the URL.  An id that is valid but not
    spelled as [toString] prints it (one with an upper-case digit) never
    matches: whatever ids the user has bookmarked, the post's included,
    the request answers [bookmarked: true] and appends the post's id once
    more. *)
Theorem bookmark_by_upper_case_id_is_never_removed postId oid user db post :
  ObjectId.parse postId = Some oid ->
  postId <> ObjectId.toString oid ->
  Post.findById postId (posts db) = Some post ->
  Post.type post = VStr "showcase" ->
  Forall (fun bookmarkedId => exists o, bookmarkedId = VId o)
    (elements (get user "bookmarkedPosts")) ->
  let result := UserRoutes.toggleBookmark postId user db in
  http_status result.1 = 200%nat
  /\ get (body_of result.1) "bookmarked" = VBool true
  /\ get result.2 "bookmarkedPosts"
     = VArr (elements (get user "bookmarkedPosts") ++ [VId oid]).
Proof.
  intros Hparse Hupper Hfind Htype Hids.
  apply (toggleBookmark_adds postId oid user db post Hparse Hfind Htype).
  eapply Forall_impl; [exact Hids|]. intros b (o & ->) Heq.
  cbn [UserRoutes.id_string] in Heq.
  apply Hupper. symmetry. by eapply toString_canonical.
Qed.


Lemma bookmark_by_upper_case_id_is_never_removed_witness :
  let postId := "00000000000000000000000A" in
  let user := <["bookmarkedPosts" := VArr [VId 10]]> Sample.bob_document in
  let db := with_posts (fun l => <["_id" := VId 10]> Sample.showcase :: l) Sample.db in
  let result := UserRoutes.toggleBookmark postId user db in
  http_status result.1 = 200%nat
  /\ get (body_of result.1) "bookmarked" = VBool true
  /\ get result.2 "bookmarkedPosts"
     = VArr (elements (get user "bookmarkedPosts") ++ [VId 10]).
Proof.
  intros postId user db.
  destruct (found_Some (Post.findById postId (posts db)))
    as (post & Hfind); [vm_compute; reflexivity|].
  apply (bookmark_by_upper_case_id_is_never_removed postId 10 user db post);
    [reflexivity|discriminate|exact Hfind| |].
  - apply (of_found Post.type _ _ _ Hfind). vm_compute. reflexivity.
  - vm_compute. constructor; [by exists 10%N|constructor].
Defined.


(** ** Liked posts *)

Section LikedPosts.

Implicit Types (p q post : obj) (db : Db) (coll : list obj).

Lemma write_absent post' oid coll :
  get post' "_id" = VId oid ->
  VId oid ∉ List.map (fun p => get p "_id") coll ->
  Post.write post' coll = coll.
Proof.
  intros Hid. unfold Post.write. induction coll as [|q coll IH]; [done|].
  cbn [List.map]. intros [Hq Hcoll]%not_elem_of_cons.
  rewrite (same_id_has_id _ _ _ Hid), IH by done.
  unfold Post.has_id. destruct (Post.id_eq oid (get q "_id")) eqn:Heq; [|done].
  apply id_eq_true in Heq. congruence.
Qed.

(** In a collection with unique ids, writing a document changes nothing
    that the old and the new copy agree on. *)
Lemma filter_write {A} (pred : obj -> bool) (g : obj -> A) coll post post' oid :
  unique_ids coll ->
  In post coll ->
  get post "_id" = VId oid ->
  get post' "_id" = VId oid ->
  pred post' = pred post ->
  g post' = g post ->
  List.map g (List.filter pred (Post.write post' coll))
  = List.map g (List.filter pred coll).
Proof.
  intros Hunique Hin Hid Hid' Hpred Hg. unfold unique_ids in Hunique.
  induction coll as [|q coll IH]; [done|].
  cbn [List.map] in Hunique. apply NoDup_cons in Hunique as [Hq Hunique].
  unfold Post.write. cbn [List.map]. fold (Post.write post' coll).
  rewrite (same_id_has_id _ _ _ Hid'). unfold Post.has_id.
  destruct (Post.id_eq oid (get q "_id")) eqn:Heq.
  - apply id_eq_true in Heq. rewrite Heq in Hq.
    destruct Hin as [->|Hin].
    + rewrite (write_absent _ _ _ Hid' Hq). cbn [List.filter]. rewrite Hpred.
      destruct (pred post); [|done]. cbn [List.map]. by rewrite Hg.
    + exfalso. apply Hq. rewrite <- Hid. apply list_elem_of_In.
      by apply (in_map (fun p => get p "_id")).
  - destruct Hin as [->|Hin].
    + rewrite Hid in Heq. by rewrite (proj2 (id_eq_true oid (VId oid)) eq_refl) in Heq.
    + cbn [List.filter]. destruct (pred q); cbn [List.map]; by rewrite IH.
Qed.

Lemma likedPosts_write user db db' id post post' :
  unique_ids (posts db) ->
  Post.findById id (posts db) = Some post ->
  posts db' = Post.write post' (posts db) ->
  get post' "_id" = get post "_id" ->
  Post.upvoters post' = Post.upvoters post ->
  Post.type post' = Post.type post ->
  Post.status post' = Post.status post ->
  UserRoutes.likedPosts user db' = UserRoutes.likedPosts user db.
Proof.
  intros Hunique Hfind Hposts Hid Hupvoters Htype Hstatus.
  destruct (findById_Some _ _ _ Hfind) as (oid & _ & Hoid & Hin).
  unfold UserRoutes.likedPosts. rewrite Hposts.
  rewrite (filter_write _ _ (posts db) post post' oid); try done; congruence.
Qed.

Lemma engagement_paths_save env modified p k :
  k ∈ ["_id"; "type"; "status"] -> get (Post.save env modified p) k = get p k.
Proof.
  intros Hk. unfold Post.save. apply get_preSave. unfold hookPaths.
  repeat (apply elem_of_cons in Hk as [->|Hk]; [compute_done|]).
  by apply elem_of_nil in Hk.
Qed.

Lemma upvoters_save env modified p :
  Post.upvoters (Post.save env modified p) = Post.upvoters p.
Proof. unfold Post.save, Post.upvoters. apply elements_preSave. compute_done. Qed.

Lemma likePost_likedPosts env user liker id db :
  unique_ids (posts db) ->
  UserRoutes.likedPosts user (PostRoutes.likePost env liker id db).2
  = UserRoutes.likedPosts user db.
Proof.
  intros Hunique. unfold PostRoutes.likePost.
  destruct (negb (ObjectId.validateMongoId id)); [done|].
  destruct (Post.findById id (posts db)) as [post|] eqn:Hfind; [|done].
  destruct (Post.includes_id _ _); [done|]. cbn [snd].
  eapply likedPosts_write; [done..| | | |]; unfold Post.type, Post.status;
    rewrite ?upvoters_save, ?engagement_paths_save by compute_done;
    unfold Post.upvoters; cbn [assign foldl fst snd];
    by rewrite !get_insert_ne by done.
Qed.

Lemma unlikePost_likedPosts env user liker id db :
  unique_ids (posts db) ->
  UserRoutes.likedPosts user (PostRoutes.unlikePost env liker id db).2
  = UserRoutes.likedPosts user db.
Proof.
  intros Hunique. unfold PostRoutes.unlikePost.
  destruct (negb (ObjectId.validateMongoId id)); [done|].
  destruct (Post.findById id (posts db)) as [post|] eqn:Hfind; [|done].
  destruct (negb (Post.includes_id _ _)); [done|]. cbn [snd].
  eapply likedPosts_write; [done..| | | |]; unfold Post.type, Post.status;
    rewrite ?upvoters_save, ?engagement_paths_save by compute_done;
    unfold Post.upvoters; destruct (0 <? Post.likes post)%Z;
    by rewrite !get_insert_ne by done.
Qed.

End LikedPosts.





(** The sample: Bob's upvote of the showcase post is what [liked-posts]
    reports, under the id the post prints. *)
Example liked_posts_of_sample :
  likedPostIds (UserRoutes.likedPosts Sample.bob Sample.db) = []
  /\ likedPostIds
       (UserRoutes.likedPosts Sample.bob
          (PostRoutes.upvotePost Sample.env Sample.bob Sample.showcase_id Sample.db).2)
     = [VStr Sample.showcase_id]
  /\ likedPostIds
       (UserRoutes.likedPosts Sample.bob
          (PostRoutes.likePost Sample.env Sample.bob Sample.showcase_id Sample.db).2)
     = [].
Proof. repeat split; vm_compute; reflexivity. Qed.

(** ** The submission deadline, as the status route reports it *)

Section Deadline.

Lemma createPost_closed env user body db :
  message_of (PostRoutes.createPost env user body db).1 = VStr submissionsClosed ->
  (PostRoutes.SUBMISSION_DEADLINE env < now env)%Z.
Proof.
  unfold PostRoutes.createPost.
  destruct (negb (truthy (get body "type")) || _ || _); [discriminate|].
  destruct (negb (PostRoutes.validatePostType _)); [discriminate|].
  destruct (PostRoutes.validateText (get body "title") 1 100) as [[|]|];
    [|discriminate..].
  destruct (PostRoutes.validateText (get body "content") 1 1000) as [[|]|];
    [|discriminate..].
  destruct (is_str "showcase" (get body "type")); cbn [andb].
  - destruct (PostRoutes.SUBMISSION_DEADLINE env <? now env)%Z eqn:Hlate.
    + intros _. by apply Z.ltb_lt.
    + destruct (Post.validate _); unfold fresh_id; cbn [fst]; discriminate.
  - destruct (Post.validate _); unfold fresh_id; cbn [fst]; discriminate.
Qed.

Lemma ceil_div_positive a b : (0 < b)%Z -> (1 <= ceil_div a b)%Z <-> (0 < a)%Z.
Proof.
  intros Hb. unfold ceil_div. split.
  - intros Hceil. destruct (Z.le_gt_cases a 0) as [Hle|]; [|done].
    assert (0 <= - a / b)%Z by (apply Z.div_pos; lia). lia.
  - intros Ha. assert (- a / b < 0)%Z by (apply Z.div_lt_upper_bound; lia). lia.
Qed.

End Deadline.

(** X24.  [GET /api/users/showcase-submission-status] and the deadline
    gate of [POST /api/posts] read the same deadline but compare
    differently.  [isPostingEnabled] is true exactly when [daysRemaining]
    is at least one; whenever a creation is refused because submissions
    are closed, [isPostingEnabled] is false; but at the deadline instant
    itself [isPostingEnabled] is already false while the gate still lets
    a submission through. *)
Theorem submission_status_agrees_with_deadline_gate env user body db :
  let status := body_of (UserRoutes.showcaseSubmissionStatus env user db) in
  let created := PostRoutes.createPost env user body db in
  (get status "isPostingEnabled" = VBool true
   <-> (1 <= to_num (get status "daysRemaining"))%Z)
  /\ (message_of created.1 = VStr submissionsClosed ->
      get status "isPostingEnabled" = VBool false)
  /\ (now env = PostRoutes.SUBMISSION_DEADLINE env ->
      get status "isPostingEnabled" = VBool false
      /\ message_of created.1 <> VStr submissionsClosed).
Proof.
  intros status created.
  assert (get status "isPostingEnabled"
          = VBool (now env <? PostRoutes.SUBMISSION_DEADLINE env)%Z) as ->.
  { subst status. unfold UserRoutes.showcaseSubmissionStatus, body_of, object.
    cbn [assign foldl fst snd].
    by repeat first [rewrite get_insert_eq | rewrite get_insert_ne by done]. }
  assert (get status "daysRemaining"
          = VNum (ceil_div (PostRoutes.SUBMISSION_DEADLINE env - now env)
                    (1000 * 60 * 60 * 24))) as ->.
  { subst status. unfold UserRoutes.showcaseSubmissionStatus, body_of, object.
    cbn [assign foldl fst snd].
    by repeat first [rewrite get_insert_eq | rewrite get_insert_ne by done]. }
  subst created. cbn [to_num].
  split; [|split].
  - rewrite ceil_div_positive by lia.
    destruct (now env <? PostRoutes.SUBMISSION_DEADLINE env)%Z eqn:Hopen.
    + apply Z.ltb_lt in Hopen. split; [lia|done].
    + apply Z.ltb_ge in Hopen. split; [done|lia].
  - intros Hlate%createPost_closed.
    by rewrite (proj2 (Z.ltb_ge _ _)) by lia.
  - intros Hnow. split; [by rewrite (proj2 (Z.ltb_ge _ _)) by lia|].
    intros Hlate%createPost_closed. lia.
Qed.


Lemma submission_status_agrees_with_deadline_gate_witness :
  let body :=
    object [("type", VStr "showcase"); ("title", VStr "Campus rides");
            ("content", VStr "Ride sharing for students")] in
  let status :=
    body_of (UserRoutes.showcaseSubmissionStatus Sample.env_open Sample.alice Sample.db) in
  let created := PostRoutes.createPost Sample.env_open Sample.alice body Sample.db in
  now Sample.env_open = PostRoutes.SUBMISSION_DEADLINE Sample.env_open
  /\ get status "isPostingEnabled" = VBool false
  /\ message_of created.1 <> VStr submissionsClosed
  /\ http_status created.1 = 201%nat.
Proof.
  intros body status created.
  assert (now Sample.env_open = PostRoutes.SUBMISSION_DEADLINE Sample.env_open) as Hnow
    by (vm_compute; reflexivity).
  destruct (submission_status_agrees_with_deadline_gate Sample.env_open Sample.alice
              body Sample.db) as (_ & _ & Hdeadline).
  split; [exact Hnow|]. split; [exact (proj1 (Hdeadline Hnow))|].
  split; [exact (proj2 (Hdeadline Hnow))|]. vm_compute. reflexivity.
Defined.


(** ** Registration counts *)

Section Counting.

Implicit Types (p event : obj) (db : Db) (counts : obj).

Lemma toString_inj o o' :
  (o < 16 ^ 24)%N -> (o' < 16 ^ 24)%N ->
  ObjectId.toString o = ObjectId.toString o' -> o = o'.
Proof.
  intros Ho Ho' Heq.
  pose proof (parse_toString o) as Hparse. rewrite Heq, parse_toString in Hparse.
  rewrite !N.mod_small in Hparse by done. congruence.
Qed.

Lemma counts_fold (count : N -> value) events counts oid :
  (oid < 16 ^ 24)%N ->
  Forall (fun event => forall o, get event "_id" = VId o -> (o < 16 ^ 24)%N) events ->
  get counts (ObjectId.toString oid) = count oid
  \/ (exists event, In event events /\ get event "_id" = VId oid) ->
  get (foldl (fun counts event =>
                match get event "_id" with
                | VId o => <[ObjectId.toString o := count o]> counts
                | _ => counts
                end) counts events)
    (ObjectId.toString oid)
  = count oid.
Proof.
  intros Hoid Hbound. revert counts.
  induction Hbound as [|event events Hevent _ IH]; intros counts Hstart; cbn [foldl].
  - destruct Hstart as [?|(? & [] & _)]. done.
  - apply IH. destruct (get event "_id") as [| | | | |o| | |] eqn:Hid;
      try (destruct Hstart as [?|(e & [<-|?] & He)]; [by left|congruence|right; by exists e]).
    destruct (decide (o = oid)) as [->|Hne]; [left; apply get_insert_eq|].
    destruct Hstart as [Hcounts|(e & [<-|?] & He)];
      [left|congruence|right; by exists e].
    rewrite get_insert_ne; [done|].
    intros Heq. apply Hne. apply toString_inj; [by apply Hevent|done..].
Qed.

End Counting.

(** X25.  [GET /api/users/my-events/registration-counts] answers 200 and
    holds, under the printed id of each event or cultural event the user
    owns, the number of registrations stored for that event (ids being
    96-bit numbers, as ObjectIds are). *)
Theorem registration_counts_per_event user db event oid :
  Forall (fun p => forall o, get p "_id" = VId o -> (o < 16 ^ 24)%N) (posts db) ->
  In event (posts db) ->
  get event "_id" = VId oid ->
  Post.owned_by user event = true ->
  PostRoutes.is_event event = true ->
  let answer := UserRoutes.registrationCounts user db in
  http_status answer = 200%nat
  /\ get (counts_of answer) (ObjectId.toString oid)
     = VNum (Z.of_nat (length (Registration.find (ObjectId.toString oid)
                                 (registrations db)))).
Proof.
  intros Hbound Hin Hid Howner Hevent answer. subst answer.
  assert (oid < 16 ^ 24)%N as Hoid.
  { rewrite Forall_forall in Hbound. by apply (Hbound event); [apply list_elem_of_In|]. }
  unfold UserRoutes.registrationCounts, counts_of, object, Registration.find.
  cbn [assign foldl fst snd http_status errorHandler]. rewrite get_insert_eq.
  split; [done|].
  rewrite parse_toString, N.mod_small by done.
  apply (counts_fold
           (fun o => VNum (Z.of_nat (length (Post.find_by "eventId" o (registrations db)))))).
  - done.
  - apply Forall_forall. intros p [Hp _]%list_elem_of_In%filter_In.
    rewrite Forall_forall in Hbound. by apply Hbound, list_elem_of_In.
  - right. exists event. split; [|done]. apply filter_In. split; [done|].
    by rewrite Howner, Hevent.
Qed.


Lemma registration_counts_per_event_witness :
  let db :=
    (UserRoutes.registerEvent Sample.env Sample.bob Sample.event_id
       Sample.registration_body Sample.db).2 in
  let answer := UserRoutes.registrationCounts Sample.alice db in
  http_status answer = 200%nat
  /\ get (counts_of answer) (ObjectId.toString 17)
     = VNum (Z.of_nat (length (Registration.find (ObjectId.toString 17)
                                 (registrations db)))).
Proof.
  intros db.
  destruct (found_Some (Post.findById Sample.event_id (posts db)))
    as (event & Hfind); [vm_compute; reflexivity|].
  apply (registration_counts_per_event Sample.alice db event 17).
  - subst db. rewrite registerEvent_posts. cbn [posts Sample.db].
    repeat (apply List.Forall_cons; [|]); [..|apply List.Forall_nil];
      intros o Hid; vm_compute in Hid; injection Hid as <-; reflexivity.
  - by eapply In_findById.
  - apply (of_found (fun p => get p "_id") _ _ _ Hfind). vm_compute. reflexivity.
  - apply (of_found (Post.owned_by Sample.alice) _ _ _ Hfind). vm_compute. reflexivity.
  - apply (of_found PostRoutes.is_event _ _ _ Hfind). vm_compute. reflexivity.
Defined.


(** One registration is counted for the sample event. *)
Example registration_counts_of_sample :
  let db :=
    (UserRoutes.registerEvent Sample.env Sample.bob Sample.event_id
       Sample.registration_body Sample.db).2 in
  get (counts_of (UserRoutes.registrationCounts Sample.alice db)) Sample.event_id
  = VNum 1.
Proof. vm_compute. reflexivity. Qed.

(** ** What a deletion takes along *)

(** X26.  [DELETE /api/posts/:id] by the owner or an administrator
    answers 200 and deletes the post, which can no longer be found; for
    an event or a cultural event it also deletes the registrations whose
    [eventId] is the post, and otherwise leaves the registrations alone;
    it never touches the notifications. *)
Theorem owner_delete_cascades_to_registrations user id db post oid :
  Post.findById id (posts db) = Some post ->
  ObjectId.parse id = Some oid ->
  Post.owned_by user post = true \/ User.isAdmin user = true ->
  let result := PostRoutes.deletePost user id db in
  http_status result.1 = 200%nat
  /\ posts result.2 = Post.deleteOne post (posts db)
  /\ Post.findById id (posts result.2) = None
  /\ registrations result.2
     = (if PostRoutes.is_event post
        then Post.deleteMany "eventId" oid (registrations db)
        else registrations db)
  /\ (PostRoutes.is_event post = true ->
      Registration.find id (registrations result.2) = [])
  /\ notifications result.2 = notifications db.
Proof.
  intros Hfind Hparse Hauth result. subst result.
  destruct (findById_Some _ _ _ Hfind) as (oid' & Hparse' & Hid & _).
  assert (oid' = oid) as -> by congruence.
  unfold PostRoutes.deletePost.
  rewrite (findById_valid _ _ _ Hfind), Hfind. cbn [negb].
  assert (negb (Post.owned_by user post) && negb (User.isAdmin user) = false) as ->.
  { destruct Hauth as [-> | ->]; [done|]. apply andb_false_r. }
  rewrite Hid. unfold Post.findById, Registration.find. rewrite Hparse.
  unfold PostRoutes.is_event, includes_str. cbn [existsb]. rewrite orb_false_r.
  destruct (is_str "event" (Post.type post) || _);
    cbn [fst snd posts registrations notifications with_posts with_registrations];
    repeat split; try done; try (by apply find_deleteOne).
  intros _. apply find_by_deleteMany.
Qed.


Lemma owner_delete_cascades_to_registrations_witness :
  let db :=
    (UserRoutes.registerEvent Sample.env Sample.bob Sample.event_id
       Sample.registration_body Sample.db).2 in
  let result := PostRoutes.deletePost Sample.alice Sample.event_id db in
  exists post,
    Post.findById Sample.event_id (posts db) = Some post
    /\ http_status result.1 = 200%nat
    /\ posts result.2 = Post.deleteOne post (posts db)
    /\ Post.findById Sample.event_id (posts result.2) = None
    /\ registrations result.2
       = (if PostRoutes.is_event post
          then Post.deleteMany "eventId" 17 (registrations db)
          else registrations db)
    /\ (PostRoutes.is_event post = true ->
        Registration.find Sample.event_id (registrations result.2) = [])
    /\ notifications result.2 = notifications db.
Proof.
  intros db.
  destruct (found_Some (Post.findById Sample.event_id (posts db)))
    as (post & Hfind); [vm_compute; reflexivity|].
  exists post. split; [exact Hfind|].
  apply (owner_delete_cascades_to_registrations Sample.alice Sample.event_id db post 17
           Hfind); [reflexivity|].
  left. apply (of_found (Post.owned_by Sample.alice) _ _ _ Hfind). vm_compute. reflexivity.
Defined.


(** X27.  [DELETE /api/users/admin/delete-post/:id] by an administrator
    answers 200 and deletes the post, the registrations whose [eventId]
    is the post, whatever the post's type, and the notifications whose
    [postId] is the post; every other notification is kept. *)
Theorem admin_delete_cascades_to_reports user id db post oid :
  User.isAdmin user = true ->
  Post.findById id (posts db) = Some post ->
  ObjectId.parse id = Some oid ->
  let result := UserRoutes.adminDeletePost user id db in
  http_status result.1 = 200%nat
  /\ posts result.2 = Post.deleteOne post (posts db)
  /\ Post.findById id (posts result.2) = None
  /\ registrations result.2 = Post.deleteMany "eventId" oid (registrations db)
  /\ Registration.find id (registrations result.2) = []
  /\ notifications result.2 = Post.deleteMany "postId" oid (notifications db)
  /\ forall n, In n (notifications result.2)
               <-> In n (notifications db) /\ get n "postId" <> VId oid.
Proof.
  intros Hadmin Hfind Hparse result. subst result.
  destruct (findById_Some _ _ _ Hfind) as (oid' & Hparse' & Hid & _).
  assert (oid' = oid) as -> by congruence.
  unfold UserRoutes.adminDeletePost, UserRoutes.admin.
  rewrite Hadmin, (findById_valid _ _ _ Hfind), Hfind, Hparse.
  cbn [negb fst snd posts registrations notifications with_posts with_registrations
       with_notifications].
  unfold Post.findById, Registration.find. rewrite Hparse.
  split; [done|]. split; [done|]. split; [by apply find_deleteOne|].
  split; [done|]. split; [apply find_by_deleteMany|]. split; [done|].
  intros n. unfold Post.deleteMany. rewrite filter_In. split.
  - intros [Hin Hkeep]. split; [done|].
    intros Heq. rewrite Heq in Hkeep. cbn in Hkeep. by rewrite N.eqb_refl in Hkeep.
  - intros [Hin Hne]. split; [done|].
    apply negb_true_iff. destruct (Post.id_eq oid (get n "postId")) eqn:Heq; [|done].
    by apply id_eq_true in Heq.
Qed.


Lemma admin_delete_cascades_to_reports_witness :
  let db :=
    (UserRoutes.registerEvent Sample.env Sample.bob Sample.event_id
       Sample.registration_body Sample.db).2 in
  let result := UserRoutes.adminDeletePost Sample.carol Sample.event_id db in
  exists post,
    Post.findById Sample.event_id (posts db) = Some post
    /\ http_status result.1 = 200%nat
    /\ posts result.2 = Post.deleteOne post (posts db)
    /\ Post.findById Sample.event_id (posts result.2) = None
    /\ registrations result.2 = Post.deleteMany "eventId" 17 (registrations db)
    /\ Registration.find Sample.event_id (registrations result.2) = []
    /\ notifications result.2 = Post.deleteMany "postId" 17 (notifications db)
    /\ forall n, In n (notifications result.2)
                 <-> In n (notifications db) /\ get n "postId" <> VId 17.
Proof.
  intros db.
  destruct (found_Some (Post.findById Sample.event_id (posts db)))
    as (post & Hfind); [vm_compute; reflexivity|].
  exists post. split; [exact Hfind|].
  apply (admin_delete_cascades_to_reports Sample.carol Sample.event_id db post 17);
    [reflexivity|exact Hfind|reflexivity].
Defined.


(** The administrator's deletion of the sample event takes the one
    registration and the one notification about it along. *)
Example admin_delete_of_sample :
  let db :=
    (UserRoutes.registerEvent Sample.env Sample.bob Sample.event_id
       Sample.registration_body Sample.db).2 in
  let result := UserRoutes.adminDeletePost Sample.carol Sample.event_id db in
  (length (registrations db), length (notifications db)) = (1%nat, 1%nat)
  /\ (length (registrations result.2), length (notifications result.2)) = (0%nat, 0%nat).
Proof. split; vm_compute; reflexivity. Qed.
